(** * Envoy shipping backend: cost calculator, delivery estimator,
      shipment validator and payment lifecycle

    A shallow embedding of [src/services/shipmentService.js], of the
    payment service and of the schema and the [addTimelineEntry] method
    of [src/models/Shipment.js], followed by the properties the
    specification states about them.

    - JavaScript numbers are IEEE 754 binary64 values: Rocq's primitive
      [float]. [toFixed(2)] followed by [parseFloat] is computed exactly,
      through the mantissa and exponent of the argument.
    - A [Date] is its time value in milliseconds; the time zone of the
      host is any function [LocalTZA] from time values to offsets.
    - The payment service is a state-and-exception computation over the
      shipment collection, the clock and the messages handed to the
      notification, e-mail and broadcast collaborators.
    - A stored shipment has the paths of its schema and a payment status
      of the enum. A document in memory has in addition the properties
      that the service sets on it; [save] validates it and writes its
      paths. *)

From Stdlib Require Import ZArith List Bool String Lia DecimalString.
From Stdlib Require Import PrimFloat FloatOps SpecFloat.
From Stdlib Require QArith Qround.
From stdpp Require Import gmap strings.
Import ListNotations.

Set Warnings "-inexact-float".
Local Open Scope string_scope.
Local Open Scope Z_scope.

(** ** JavaScript primitives used by the services *)

Module JS.

(** [Math.max(a, b)]: NaN if either argument is NaN, and +0 is larger
    than -0. *)
Definition Math_max (a b : float) : float :=
  if (is_nan a || is_nan b)%bool then nan
  else if (a <? b)%float then b
  else if (b <? a)%float then a
  else if get_sign a then b else a.

(** The string produced by [Number.prototype.toFixed(2)], kept in parsed
    form: ["NaN"], ["Infinity"] with its sign, the [ToString] form used
    from 1e21 on, or a sign and an integer [n] standing for the decimal
    numeral of n/100 with two fraction digits. *)
Inductive FixedString :=
| FxNaN
| FxInfinity (neg : bool)
| FxExponential (neg : bool) (x : float)
| FxDecimal (neg : bool) (n : Z).

(** The integer [n] for which n/100 - m*2^e is as close to zero as
    possible, the larger one if there are two (step 9 of toFixed). *)
Definition scaled_nearest (m : positive) (e : Z) : Z :=
  match e with
  | Zneg k => (2 * 100 * Zpos m + 2 ^ Zpos k) / 2 ^ (Zpos k + 1)
  | _ => Zpos m * 2 ^ e * 100
  end.

Definition toFixed2 (x : float) : FixedString :=
  match Prim2SF x with
  | S754_nan => FxNaN
  | S754_infinity s => FxInfinity s
  | S754_zero _ => FxDecimal false 0
  | S754_finite s m e =>
      if (1e21 <=? abs x)%float then FxExponential s (abs x)
      else FxDecimal s (scaled_nearest m e)
  end.

(** The binary64 value nearest to the decimal n/100 (round to nearest,
    ties to even), as [parseFloat] reads a decimal numeral. *)
Definition decimal_to_float (neg : bool) (n : Z) : float :=
  match n with
  | Zpos p =>
      SF2Prim (SFdiv prec emax (S754_finite neg p 0) (S754_finite false 100 0))
  | _ => if neg then neg_zero else zero
  end.

Definition parseFloat (s : FixedString) : float :=
  match s with
  | FxNaN => nan
  | FxInfinity neg => if neg then neg_infinity else infinity
  | FxExponential neg x => if neg then (- x)%float else x
  | FxDecimal neg n => decimal_to_float neg n
  end.

(** [parseFloat(x.toFixed(2))] *)
Definition round2 (x : float) : float := parseFloat (toFixed2 x).

(** The real number that a finite binary64 value denotes, as a
    fraction; [None] for NaN and the infinities. *)
Definition value (x : float) : option QArith_base.Q :=
  match Prim2SF x with
  | S754_zero _ => Some (QArith_base.Qmake 0 1)
  | S754_finite s m e =>
      let n := if s then Zneg m else Zpos m in
      Some (match e with
            | Zneg k => QArith_base.Qmake n (2 ^ k)%positive
            | _ => QArith_base.Qmake (n * 2 ^ e) 1
            end)
  | _ => None
  end.

(** An integer literal as a number. *)
Definition number_of_Z (z : Z) : float :=
  SF2Prim (binary_normalize prec emax z 0 false).

(** Template-literal rendering of a non-negative integer. *)
Definition string_of_nat (n : nat) : string :=
  NilZero.string_of_uint (Nat.to_uint n).

(** Truthiness of a number: 0, -0 and NaN are falsy. *)
Definition truthy (x : float) : bool := negb (is_zero x || is_nan x).

(** *** Dates *)

(** A valid [Date] is its time value, in milliseconds since the epoch.
    An invalid date, whose time value is NaN, is [None] where a date is
    made from a value of a request. *)
Definition Date := Z.

Definition msPerDay : Z := 86400000.

(** ECMAScript [Day(t)], [TimeWithinDay(t)] and [WeekDay(t)]; 0 is
    Sunday, 6 is Saturday. *)
Definition Day (t : Z) : Z := t / msPerDay.
Definition TimeWithinDay (t : Z) : Z := t mod msPerDay.
Definition WeekDay (t : Z) : Z := (Day t + 4) mod 7.

(** [MakeDate(day, time)] *)
Definition MakeDate (day time : Z) : Z := day * msPerDay + time.

Section LocalTime.

(** The time zone of the host, ECMAScript's [LocalTZA(t, isUTC)]: the
    offset of local time from UTC in milliseconds, at the UTC time value
    [t] when [isUTC] is [true] and at the local time value [t]
    otherwise. It is a constant in a zone without daylight saving. *)
Variable LocalTZA : Z -> bool -> Z.

(** ECMAScript [LocalTime(t)] and [UTC(t)]. *)
Definition LocalTime (t : Z) : Z := t + LocalTZA t true.
Definition UTC (t : Z) : Z := t - LocalTZA t false.

(** [d.getDay()] *)
Definition getDay (d : Date) : Z := WeekDay (LocalTime d).

(** [d.setDate(d.getDate() + n)]: the date is taken apart in local
    time, the day of the month overflows into the following months, so
    [MakeDay] gives the local day number moved by [n]; the time within
    the day is kept, and the local time so made is turned back into a
    time value. Time values stay in the range of [TimeClip]. *)
Definition setDate_getDate_plus (d : Date) (n : Z) : Date :=
  let t := LocalTime d in
  UTC (MakeDate (Day t + n) (TimeWithinDay t)).

(** The same on a date that may be invalid: NaN stays NaN. *)
Definition getDay_of (d : option Date) : option Z := option_map getDay d.

Definition setDate_getDate_plus_of (d : option Date) (n : Z) : option Date :=
  option_map (fun t => setDate_getDate_plus t n) d.

(** A time zone keeps the day when a local time that is turned into a
    time value and read back is on the same calendar day: this holds
    where the two offsets agree, and where a change of offset skips
    local times it holds unless the skipped times reach over
    midnight. *)
Definition keepsTheDay : Prop :=
  forall t, Day (LocalTime (UTC t)) = Day t.

End LocalTime.

(** A zone without daylight saving, [offset] milliseconds from UTC. *)
Definition fixedOffset (offset : Z) : Z -> bool -> Z := fun _ _ => offset.

(** [a < b] on dates: [false] when one of them is invalid. *)
Definition Date_lt (a b : option Date) : bool :=
  match a, b with
  | Some x, Some y => x <? y
  | _, _ => false
  end.

(** [x === n] for a number [x] that may be NaN. *)
Definition is_number (x : option Z) (n : Z) : bool :=
  match x with
  | Some v => v =? n
  | None => false
  end.

(** *** Statements *)

(** [while (cond) body], run for at most [fuel] tests of the condition. *)
Fixpoint while_loop {S : Type} (fuel : nat) (cond : S -> bool)
    (body : S -> S) (s : S) : option S :=
  match fuel with
  | O => None
  | Datatypes.S fuel' =>
      if cond s then while_loop fuel' cond body (body s) else Some s
  end.

End JS.

(** ** JavaScript strings *)

From Stdlib Require Import Ascii.
From Stdlib Require DecimalNat.
From Stdlib Require FloatAxioms.

Module JSString.

(** [s.split(sep)] for a separator of one character. *)
Fixpoint split (sep : ascii) (s : string) : list string :=
  match s with
  | EmptyString => [EmptyString]
  | String c rest =>
      if Ascii.eqb c sep then EmptyString :: split sep rest
      else
        match split sep rest with
        | x :: xs => String c x :: xs
        | [] => [String c EmptyString]
        end
  end.

(** [String(n)] and [`${n}`] for an integer. *)
Definition string_of_int (z : Z) : string :=
  if z <? 0 then ("-" ++ JS.string_of_nat (Z.to_nat (- z)))%string
  else JS.string_of_nat (Z.to_nat z).

(** [c.toUpperCase()] for a character below 128. *)
Definition toUpperCase (c : ascii) : ascii :=
  let n := nat_of_ascii c in
  if (97 <=? n)%nat && (n <=? 122)%nat then ascii_of_nat (n - 32) else c.

(** [s.startsWith(p)] *)
Definition startsWith (p s : string) : bool := String.prefix p s.

(** A string is truthy unless it is empty; [undefined] is falsy. *)
Definition truthy (s : option string) : bool :=
  match s with
  | Some (String _ _) => true
  | _ => false
  end.

(** [s.padStart(n, '0')] *)
Definition padStart0 (n : nat) (s : string) : string :=
  (string_of_list_ascii (repeat "0"%char (n - String.length s)) ++ s)%string.

(** [s.substring(a, b)] *)
Definition substring (a b : nat) (s : string) : string :=
  String.substring (Nat.min a b) (Nat.max a b - Nat.min a b) s.

Definition isDigit (c : ascii) : bool :=
  let n := nat_of_ascii c in (48 <=? n)%nat && (n <=? 57)%nat.

Fixpoint all_digits (s : string) : bool :=
  match s with
  | EmptyString => true
  | String c rest => isDigit c && all_digits rest
  end.

(** A string of exactly [n] decimal digits. *)
Definition digitString (n : nat) (s : string) : Prop :=
  String.length s = n /\ all_digits s = true.

(** No character of [s] is [c]. *)
Fixpoint free_of (c : ascii) (s : string) : bool :=
  match s with
  | EmptyString => true
  | String a rest => negb (Ascii.eqb a c) && free_of c rest
  end.

(** White space and line terminators, among the characters below 128. *)
Definition isWhiteSpace (c : ascii) : bool :=
  let n := nat_of_ascii c in
  ((9 <=? n)%nat && (n <=? 13)%nat) || (n =? 32)%nat.

Fixpoint trimStart (s : string) : string :=
  match s with
  | String c rest => if isWhiteSpace c then trimStart rest else s
  | EmptyString => s
  end.

(** The value of a character as a digit in the given radix (10 or 16). *)
Definition digitValue (radix : nat) (c : ascii) : option nat :=
  let n := nat_of_ascii c in
  if isDigit c then Some (n - 48)%nat
  else if (radix =? 16)%nat then
    if (97 <=? n)%nat && (n <=? 102)%nat then Some (n - 87)%nat
    else if (65 <=? n)%nat && (n <=? 70)%nat then Some (n - 55)%nat
    else None
  else None.

(** The leading digits of a string, most significant first. *)
Fixpoint leadingDigits (radix : nat) (s : string) : list nat :=
  match s with
  | String c rest =>
      match digitValue radix c with
      | Some d => d :: leadingDigits radix rest
      | None => []
      end
  | EmptyString => []
  end.

Definition numeral (radix : nat) (ds : list nat) : Z :=
  fold_left (fun acc d => Z.of_nat radix * acc + Z.of_nat d) ds 0.

(** [parseInt(s)] with no radix given, on strings of characters below
    128: skip white space, read a sign, read [0x] or [0X] as the mark of
    radix 16, then the longest run of digits; [None] is [NaN]. The
    result is the integer written, which is the number returned as long
    as it is below 2^53 in size. *)
Definition parseInt (s : string) : option Z :=
  let s := trimStart s in
  let '(negative, s) :=
    match s with
    | String "-"%char rest => (true, rest)
    | String "+"%char rest => (false, rest)
    | _ => (false, s)
    end in
  let '(radix, s) :=
    match s with
    | String "0"%char (String "x"%char rest) => (16%nat, rest)
    | String "0"%char (String "X"%char rest) => (16%nat, rest)
    | _ => (10%nat, s)
    end in
  match leadingDigits radix s with
  | [] => None
  | ds => Some (if negative then - numeral radix ds else numeral radix ds)
  end.

End JSString.

(** ** Errors *)

(** [AppError] of the response-handler module: a message and an HTTP
    status code. *)
Record AppError := mkAppError { message : string; statusCode : Z }.

Inductive Result (E A : Type) :=
| Ok (a : A)
| Err (e : E).
Arguments Ok {E A} a.
Arguments Err {E A} e.

(** ** ShipmentService (src/services/shipmentService.js) *)

Module ShipmentService.
Import JS.

Inductive ShipmentType := international | local.
Inductive PackageType := parcel | documents | pallet | container | other.
Inductive InsuranceType := none | basic | premium.

Record Dimensions := { dim_length : float; width : float; height : float }.

Record Package := {
  pkg_type : PackageType;
  weight : float;
  dimensions : Dimensions;
  isFragile : bool;
  isPerishable : bool;
  isHazardous : bool
}.

Record Insurance := { ins_type : option InsuranceType; coverage : float }.

(** The shipment data that the calculator and the estimator read.
    [pickup_date] is [new Date(shipmentData.pickup.date)]: [None] when
    that is an invalid date. *)
Record ShipmentData := {
  shp_type : ShipmentType;
  packages : list Package;
  insurance : option Insurance;
  pickup_date : option Date
}.

Record Cost := {
  baseAmount : float;
  cost_insurance : float;
  vat : float;
  total : float
}.

(** The service object: the rates read once by the constructor. *)
Record Service := {
  baseRates_international : float;
  baseRates_local : float;
  vatRate : float;
  insuranceRates_basic : float;
  insuranceRates_premium : float
}.

(** The constructor's defaults, used when the environment sets no rate. *)
Definition defaultService : Service := {|
  baseRates_international := 20;
  baseRates_local := 10;
  vatRate := 0.075;
  insuranceRates_basic := 0.01;
  insuranceRates_premium := 0.02
|}.

Definition baseRates (this : Service) (type : ShipmentType) : float :=
  match type with
  | international => baseRates_international this
  | local => baseRates_local this
  end.

(** [this.insuranceRates[insuranceType]]; the table has no entry for
    ['none'], whose lookup is [undefined], NaN in arithmetic. *)
Definition insuranceRates (this : Service) (t : InsuranceType) : float :=
  match t with
  | none => nan
  | basic => insuranceRates_basic this
  | premium => insuranceRates_premium this
  end.

Definition calculateVolumetricWeight (d : Dimensions) : float :=
  (dim_length d * width d * height d / 5000)%float.

Definition calculateChargeableWeight (pkg : Package) : float :=
  let volumetricWeight := calculateVolumetricWeight (dimensions pkg) in
  Math_max (weight pkg) volumetricWeight.

(** [packages.reduce((total, pkg) => total + chargeable(pkg), 0)] *)
Definition calculateTotalChargeableWeight (pkgs : list Package) : float :=
  fold_left (fun total pkg => (total + calculateChargeableWeight pkg)%float)
    pkgs 0%float.

(** The body of the [forEach] callback of [calculateBaseShippingCost],
    as a function of the running [cost]. *)
Definition applySpecialHandling (cost : float) (pkg : Package) : float :=
  let cost := if isFragile pkg then (cost * 1.2)%float else cost in
  let cost := if isPerishable pkg then (cost * 1.15)%float else cost in
  let cost := if isHazardous pkg then (cost * 1.3)%float else cost in
  cost.

Definition calculateBaseShippingCost (this : Service) (type : ShipmentType)
    (pkgs : list Package) : float :=
  let totalWeight := calculateTotalChargeableWeight pkgs in
  let baseRate := baseRates this type in
  let cost := (totalWeight * baseRate)%float in
  let cost :=
    match type with
    | international => (cost * 1.5)%float
    | local => cost
    end in
  let cost := fold_left applySpecialHandling pkgs cost in
  round2 cost.

Definition calculateInsuranceCost (this : Service) (insuranceType : InsuranceType)
    (baseAmount : float) : float :=
  match insuranceType with
  | none => 0%float
  | _ => round2 (baseAmount * insuranceRates this insuranceType)%float
  end.

(** [shipmentData.insurance?.type || 'none'] *)
Definition insuranceTypeOf (data : ShipmentData) : InsuranceType :=
  match insurance data with
  | Some i => match ins_type i with Some t => t | None => none end
  | None => none
  end.

Definition calculateShippingCost (this : Service) (data : ShipmentData) : Cost :=
  let baseAmount := calculateBaseShippingCost this (shp_type data) (packages data) in
  let insuranceCost := calculateInsuranceCost this (insuranceTypeOf data) baseAmount in
  let vat := round2 (baseAmount * vatRate this)%float in
  let total := round2 (baseAmount + insuranceCost + vat)%float in
  {| baseAmount := baseAmount;
     cost_insurance := insuranceCost;
     vat := vat;
     total := total |}.

(** [Math.ceil(n / 2)] for an array length [n]: the quotient is exact
    in binary64 for every length. *)
Definition ceil_half (n : Z) : Z := (n + 1) / 2.

Definition hasSpecialHandling (pkgs : list Package) : bool :=
  existsb (fun pkg => isFragile pkg || isPerishable pkg || isHazardous pkg) pkgs.

(** The number of days added to the pickup date. *)
Definition deliveryDays (data : ShipmentData) : Z :=
  let deliveryDays := 0 in
  let deliveryDays :=
    match shp_type data with
    | international => 5
    | local => 2
    end in
  let len := Z.of_nat (length (packages data)) in
  let deliveryDays :=
    if 1 <? len then deliveryDays + ceil_half len else deliveryDays in
  let deliveryDays :=
    if hasSpecialHandling (packages data) then deliveryDays + 1
    else deliveryDays in
  deliveryDays.

Section LocalTime.

Variable LocalTZA : Z -> bool -> Z.

(** The condition of the weekend loop; on an invalid date [getDay] is
    NaN and the condition is false. *)
Definition isWeekend (d : option Date) : bool :=
  is_number (getDay_of LocalTZA d) 0 || is_number (getDay_of LocalTZA d) 6.

(** [estimateDeliveryDate]; [None] only if the weekend loop is cut short
    by [fuel]. The date that is returned is invalid when the pickup date
    is. *)
Definition estimateDeliveryDate (fuel : nat) (data : ShipmentData)
    : option (option Date) :=
  let pickupDate := pickup_date data in
  let estimatedDate :=
    setDate_getDate_plus_of LocalTZA pickupDate (deliveryDays data) in
  while_loop fuel isWeekend
    (fun d => setDate_getDate_plus_of LocalTZA d 1) estimatedDate.

(** [validatePickupDate], called when the clock reads [now]: the two
    [new Date()] of the body are taken at the same instant.
    [pickupDate] is [new Date(pickupDate)], invalid when the value of
    the request is no date. *)
Definition validatePickupDate (now : Date) (pickupDate : option Date)
    : Result AppError unit :=
  let date := pickupDate in
  let maxDate := setDate_getDate_plus LocalTZA now 30 in
  if Date_lt date (Some now) then
    Err (mkAppError "Pickup date cannot be in the past" 400)
  else if Date_lt (Some maxDate) date then
    Err (mkAppError "Pickup date cannot be more than 30 days in the future" 400)
  else if is_number (getDay_of LocalTZA date) 0
          || is_number (getDay_of LocalTZA date) 6 then
    Err (mkAppError "Pickup is not available on weekends" 400)
  else Ok tt.

End LocalTime.

(** [array.forEach(callback)] for a callback that may throw: the first
    exception ends the iteration. The callback receives the element and
    its 0-based index. *)
Fixpoint forEach {A : Type} (callback : A -> nat -> Result AppError unit)
    (l : list A) (index : nat) : Result AppError unit :=
  match l with
  | [] => Ok tt
  | x :: rest =>
      match callback x index with
      | Err e => Err e
      | Ok _ => forEach callback rest (S index)
      end
  end.

Definition maxDimension : Z := 150.

Definition maxWeight (pkg : Package) : Z :=
  match pkg_type pkg with
  | documents => 5
  | _ => 70
  end.

Definition string_of_Z (z : Z) : string := string_of_nat (Z.to_nat z).

(** The callback of [validatePackages]. *)
Definition validatePackage (pkg : Package) (index : nat)
    : Result AppError unit :=
  let d := dimensions pkg in
  if (weight pkg <=? 0)%float then
    Err (mkAppError
      ("Package " ++ string_of_nat (index + 1) ++ ": Weight must be greater than 0")
      400)
  else if ((dim_length d <=? 0)%float || (width d <=? 0)%float
           || (height d <=? 0)%float)%bool then
    Err (mkAppError
      ("Package " ++ string_of_nat (index + 1) ++ ": Invalid dimensions") 400)
  else if ((number_of_Z maxDimension <? dim_length d)%float
           || (number_of_Z maxDimension <? width d)%float
           || (number_of_Z maxDimension <? height d)%float)%bool then
    Err (mkAppError
      ("Package " ++ string_of_nat (index + 1)
         ++ ": Maximum dimension allowed is " ++ string_of_Z maxDimension ++ "cm")
      400)
  else if (number_of_Z (maxWeight pkg) <? weight pkg)%float then
    Err (mkAppError
      ("Package " ++ string_of_nat (index + 1)
         ++ ": Maximum weight allowed is " ++ string_of_Z (maxWeight pkg) ++ "kg")
      400)
  else Ok tt.

(** [validatePackages]; [None] is a missing ([undefined] or [null])
    package list. *)
Definition validatePackages (pkgs : option (list Package))
    : Result AppError unit :=
  match pkgs with
  | None => Err (mkAppError "At least one package is required" 400)
  | Some l =>
      if (length l =? 0)%nat then
        Err (mkAppError "At least one package is required" 400)
      else if (10 <? length l)%nat then
        Err (mkAppError "Maximum 10 packages allowed per shipment" 400)
      else forEach validatePackage l 0%nat
  end.

End ShipmentService.

(** ** Shipment documents (src/models/Shipment.js) *)

Module ShipmentStatus.
Inductive t :=
| pending | awaiting_pickup | picked_up | in_transit
| out_for_delivery | delivered | cancelled.
End ShipmentStatus.

(** The [enum] of the path [status] of [paymentSchema]. *)
Module PaymentStatus.
Inductive t := pending | completed | failed | refunded.

Definition to_string (s : t) : string :=
  match s with
  | pending => "pending"
  | completed => "completed"
  | failed => "failed"
  | refunded => "refunded"
  end.

(** The validator of the enum: the status that a string names, if it
    names one. *)
Definition of_string (s : string) : option t :=
  if String.eqb s "pending" then Some pending
  else if String.eqb s "completed" then Some completed
  else if String.eqb s "failed" then Some failed
  else if String.eqb s "refunded" then Some refunded
  else None.
End PaymentStatus.

(** The documents of the collection, as [shipmentSchema] declares them:
    the paths that the payment service and the request handlers of this
    development read or write. Every write of the application goes
    through [save], which validates, so the payment status of a stored
    document is one of the enum. *)
Module Shipment.
Import JS.

Record TimelineEntry := {
  tl_status : ShipmentStatus.t;
  tl_location : option string;
  tl_description : string;
  tl_timestamp : Date
}.

(** [paymentSchema]: the four paths of the payment sub-document. A path
    that holds no value is [None]. *)
Record Payment := {
  status : PaymentStatus.t;
  transactionId : option string;
  paidAt : option Date;
  refundReason : option string
}.

(** [userId] is absent on guest shipments. *)
Record t := {
  _id : string;
  userId : option string;
  shp_status : ShipmentStatus.t;
  cost : ShipmentService.Cost;
  payment : Payment;
  timeline : list TimelineEntry
}.

End Shipment.

(** A shipment document in memory, as [findById] returns it and as the
    payment service changes it before [save]. The paths of the schema
    hold what was loaded or assigned; [payment.status] is a string,
    checked against the enum only when the document is saved. The
    remaining fields of the payment are the properties that the service
    assigns although [paymentSchema] has no such path: they are plain
    properties of the object in memory, which [save] does not write and
    which a loaded document does not have. *)
Module Document.
Import JS.

Record Payment := {
  status : string;
  transactionId : option string;
  paidAt : option Date;
  refundReason : option string;
  verifiedAt : option Date;
  verifiedBy : option string;
  notes : option string;
  rejectionReason : option string;
  refunded : option bool;
  refundedAt : option Date;
  refundedBy : option string;
  refundAmount : option float
}.

Record t := {
  _id : string;
  userId : option string;
  shp_status : ShipmentStatus.t;
  cost : ShipmentService.Cost;
  payment : Payment;
  timeline : list Shipment.TimelineEntry
}.

(** A document as loaded from the collection: the paths of the schema,
    and none of the other properties. *)
Definition hydrate (s : Shipment.t) : t :=
  {| _id := Shipment._id s;
     userId := Shipment.userId s;
     shp_status := Shipment.shp_status s;
     cost := Shipment.cost s;
     payment :=
       {| status := PaymentStatus.to_string (Shipment.status (Shipment.payment s));
          transactionId := Shipment.transactionId (Shipment.payment s);
          paidAt := Shipment.paidAt (Shipment.payment s);
          refundReason := Shipment.refundReason (Shipment.payment s);
          verifiedAt := None; verifiedBy := None; notes := None;
          rejectionReason := None; refunded := None; refundedAt := None;
          refundedBy := None; refundAmount := None |};
     timeline := Shipment.timeline s |}.

(** What [save] writes, when the document passes the validators of the
    schema: its paths. Of the validators, the enum of [payment.status] is
    the one that an assignment of the payment service can fail; the
    shipment status and the timeline entries are of their enum by their
    type. *)
Definition validated (d : t) : option Shipment.t :=
  match PaymentStatus.of_string (status (payment d)) with
  | Some st =>
      Some {| Shipment._id := _id d;
              Shipment.userId := userId d;
              Shipment.shp_status := shp_status d;
              Shipment.cost := cost d;
              Shipment.payment :=
                {| Shipment.status := st;
                   Shipment.transactionId := transactionId (payment d);
                   Shipment.paidAt := paidAt (payment d);
                   Shipment.refundReason := refundReason (payment d) |};
              Shipment.timeline := timeline d |}
  | None => None
  end.

(** The object literal that [initializeBankTransfer] assigns to
    [shipment.payment]. *)
Record BankDetails := { accountName : string; bankName : string }.

Record PaymentLiteral := {
  lit_status : string;
  lit_method : string;
  lit_amount : float;
  lit_bankDetails : BankDetails;
  lit_createdAt : Date
}.

(** [shipment.payment = literal]: the object is cast to a sub-document
    of [paymentSchema]. The schema is strict: the keys that are paths of
    the schema are kept, the others are dropped. The sub-document is a
    new one. *)
Definition cast (literal : PaymentLiteral) : Payment :=
  {| status := lit_status literal;
     transactionId := None; paidAt := None; refundReason := None;
     verifiedAt := None; verifiedBy := None; notes := None;
     rejectionReason := None; refunded := None; refundedAt := None;
     refundedBy := None; refundAmount := None |}.

(** Assignments [payment.field = v] and [shipment.field = v]. *)

Definition set_status (v : string) (p : Payment) : Payment :=
  {| status := v; transactionId := transactionId p; paidAt := paidAt p;
     refundReason := refundReason p;
     verifiedAt := verifiedAt p; verifiedBy := verifiedBy p; notes := notes p;
     rejectionReason := rejectionReason p; refunded := refunded p;
     refundedAt := refundedAt p; refundedBy := refundedBy p;
     refundAmount := refundAmount p |}.

Definition set_refundReason (v : option string) (p : Payment) : Payment :=
  {| status := status p; transactionId := transactionId p; paidAt := paidAt p;
     refundReason := v;
     verifiedAt := verifiedAt p; verifiedBy := verifiedBy p; notes := notes p;
     rejectionReason := rejectionReason p; refunded := refunded p;
     refundedAt := refundedAt p; refundedBy := refundedBy p;
     refundAmount := refundAmount p |}.

Definition set_verifiedAt (v : option Date) (p : Payment) : Payment :=
  {| status := status p; transactionId := transactionId p; paidAt := paidAt p;
     refundReason := refundReason p;
     verifiedAt := v; verifiedBy := verifiedBy p; notes := notes p;
     rejectionReason := rejectionReason p; refunded := refunded p;
     refundedAt := refundedAt p; refundedBy := refundedBy p;
     refundAmount := refundAmount p |}.

Definition set_verifiedBy (v : option string) (p : Payment) : Payment :=
  {| status := status p; transactionId := transactionId p; paidAt := paidAt p;
     refundReason := refundReason p;
     verifiedAt := verifiedAt p; verifiedBy := v; notes := notes p;
     rejectionReason := rejectionReason p; refunded := refunded p;
     refundedAt := refundedAt p; refundedBy := refundedBy p;
     refundAmount := refundAmount p |}.

Definition set_notes (v : option string) (p : Payment) : Payment :=
  {| status := status p; transactionId := transactionId p; paidAt := paidAt p;
     refundReason := refundReason p;
     verifiedAt := verifiedAt p; verifiedBy := verifiedBy p; notes := v;
     rejectionReason := rejectionReason p; refunded := refunded p;
     refundedAt := refundedAt p; refundedBy := refundedBy p;
     refundAmount := refundAmount p |}.

Definition set_rejectionReason (v : option string) (p : Payment) : Payment :=
  {| status := status p; transactionId := transactionId p; paidAt := paidAt p;
     refundReason := refundReason p;
     verifiedAt := verifiedAt p; verifiedBy := verifiedBy p; notes := notes p;
     rejectionReason := v; refunded := refunded p;
     refundedAt := refundedAt p; refundedBy := refundedBy p;
     refundAmount := refundAmount p |}.

Definition set_refunded (v : option bool) (p : Payment) : Payment :=
  {| status := status p; transactionId := transactionId p; paidAt := paidAt p;
     refundReason := refundReason p;
     verifiedAt := verifiedAt p; verifiedBy := verifiedBy p; notes := notes p;
     rejectionReason := rejectionReason p; refunded := v;
     refundedAt := refundedAt p; refundedBy := refundedBy p;
     refundAmount := refundAmount p |}.

Definition set_refundedAt (v : option Date) (p : Payment) : Payment :=
  {| status := status p; transactionId := transactionId p; paidAt := paidAt p;
     refundReason := refundReason p;
     verifiedAt := verifiedAt p; verifiedBy := verifiedBy p; notes := notes p;
     rejectionReason := rejectionReason p; refunded := refunded p;
     refundedAt := v; refundedBy := refundedBy p;
     refundAmount := refundAmount p |}.

Definition set_refundedBy (v : option string) (p : Payment) : Payment :=
  {| status := status p; transactionId := transactionId p; paidAt := paidAt p;
     refundReason := refundReason p;
     verifiedAt := verifiedAt p; verifiedBy := verifiedBy p; notes := notes p;
     rejectionReason := rejectionReason p; refunded := refunded p;
     refundedAt := refundedAt p; refundedBy := v;
     refundAmount := refundAmount p |}.

Definition set_refundAmount (v : option float) (p : Payment) : Payment :=
  {| status := status p; transactionId := transactionId p; paidAt := paidAt p;
     refundReason := refundReason p;
     verifiedAt := verifiedAt p; verifiedBy := verifiedBy p; notes := notes p;
     rejectionReason := rejectionReason p; refunded := refunded p;
     refundedAt := refundedAt p; refundedBy := refundedBy p;
     refundAmount := v |}.

Definition set_payment (v : Payment) (s : t) : t :=
  {| _id := _id s; userId := userId s; shp_status := shp_status s;
     cost := cost s; payment := v; timeline := timeline s |}.

Definition update_payment (f : Payment -> Payment) (s : t) : t :=
  set_payment (f (payment s)) s.

Definition set_shp_status (v : ShipmentStatus.t) (s : t) : t :=
  {| _id := _id s; userId := userId s; shp_status := v;
     cost := cost s; payment := payment s; timeline := timeline s |}.

Definition set_timeline (v : list Shipment.TimelineEntry) (s : t) : t :=
  {| _id := _id s; userId := userId s; shp_status := shp_status s;
     cost := cost s; payment := payment s; timeline := v |}.

End Document.

(** ** Notifications ([src/services/notificationService.js],
       [src/models/Notification.js]) *)

Module NotificationService.
Import JS JSString.

Record Template := { template_title : string; template_message : string }.

(** [this.notificationTemplates[type]] *)
Definition notificationTemplates (type : string) : option Template :=
  if String.eqb type "payment_verification" then
    Some {| template_title := "Payment Verification Required";
            template_message :=
              "Your bank transfer payment is awaiting verification." |}
  else if String.eqb type "payment_confirmed" then
    Some {| template_title := "Payment Confirmed";
            template_message :=
              "Your payment has been verified and confirmed." |}
  else if String.eqb type "payment_rejected" then
    Some {| template_title := "Payment Rejected";
            template_message :=
              "Your payment could not be verified. Please contact support." |}
  else if String.eqb type "shipment_status" then
    Some {| template_title := "Shipment Status Update";
            template_message := "Your shipment status has been updated." |}
  else if String.eqb type "draft_expiry" then
    Some {| template_title := "Draft Expiring Soon";
            template_message := "Your shipment draft will expire in 2 days." |}
  else if String.eqb type "pickup_reminder" then
    Some {| template_title := "Pickup Reminder";
            template_message :=
              "Your shipment is scheduled for pickup tomorrow." |}
  else if String.eqb type "delivery_update" then
    Some {| template_title := "Delivery Update";
            template_message := "There is an update about your delivery." |}
  else None.

(** The fields of a notification that the schema constrains. *)
Record Notification := {
  n_userId : option string;
  n_type : string;
  n_title : option string;
  n_message : option string
}.

(** [a || b] on strings that may be [undefined]. *)
Definition or_else (a b : option string) : option string :=
  if truthy a then a else b.

(** [createNotification(data)]: what is handed on to
    [Notification.createNotification]. *)
Definition createNotification (data : Notification) : Notification :=
  let template := notificationTemplates (n_type data) in
  {| n_userId := n_userId data;
     n_type := n_type data;
     n_title := or_else (n_title data) (option_map template_title template);
     n_message :=
       or_else (n_message data) (option_map template_message template) |}.

(** The [enum] of the [type] path of the notification schema. *)
Definition notificationTypes : list string :=
  ["payment_verification"; "payment_confirmed"; "payment_rejected";
   "shipment_status"; "draft_expiry"; "pickup_reminder"; "delivery_update";
   "system_notification"].

(** The validators of [notificationSchema]: [userId], [type], [title]
    and [message] are required, and [type] is one of the [enum]. The
    paths that fail, in the order of the schema. *)
Definition invalidPaths (n : Notification) : list string :=
  (match n_userId n with Some _ => [] | None => ["userId"] end)
  ++ (if existsb (String.eqb (n_type n)) notificationTypes then []
      else ["type"])
  ++ (if truthy (n_title n) then [] else ["title"])
  ++ (if truthy (n_message n) then [] else ["message"]).

Definition schemaAccepts (n : Notification) : bool :=
  match invalidPaths n with
  | [] => true
  | _ => false
  end.

(** The notification that the payment service asks for: it gives the
    user and the type, never a title or a message. *)
Definition requested (user : option string) (type : string) : Notification :=
  createNotification
    {| n_userId := user; n_type := type; n_title := None; n_message := None |}.

End NotificationService.

(** ** PaymentService (the payment service module) *)

Module PaymentService.
Import JS Document.

(** What reaches the collaborators of the handlers: a notification that
    is stored, a lookup in the user collection, an e-mail, a broadcast
    of a payment status. *)
Inductive Message :=
| CreateNotification (user : option string) (type : string) (shipmentId : string)
| UserFindById (user : string)
| SendEmail (template : string) (shipmentId : string)
| PaymentUpdate (user : string) (shipmentId : string) (status : string).

(** The shipment collection, a finite map from [_id] to the stored
    document, with the clock and the messages delivered so far. The
    collection is read by [findById] and written by [save] only. *)
Record World := {
  shipments : gmap string Shipment.t;
  clock : Date;
  outbox : list Message
}.

(** A rejected promise: an [AppError] thrown by the code, a validation
    error of a schema with the paths that fail, a reference to a name
    that is not defined, or the failure of an awaited collaborator.
    [Unhandled] is an [AppError] thrown where nobody takes it up: in an
    [async] middleware that is registered without a wrapper. *)
Inductive Exception :=
| Thrown (e : AppError)
| ValidationError (model : string) (paths : list string)
| ReferenceError (name : string)
| CollaboratorFailure (m : Message)
| Unhandled (e : AppError).

(** An [async] method: it may change the world and either resolves or
    rejects; what it did before rejecting stays done. *)
Definition M (A : Type) : Type := World -> World * Result Exception A.

Definition ret {A} (a : A) : M A := fun w => (w, Ok a).

Definition bind {A B} (m : M A) (k : A -> M B) : M B :=
  fun w =>
    match m w with
    | (w', Ok a) => k a w'
    | (w', Err e) => (w', Err e)
    end.

Definition throw {A} (e : AppError) : M A := fun w => (w, Err (Thrown e)).

Definition reject {A} (e : Exception) : M A := fun w => (w, Err e).

Notation "x <- m ;; k" := (bind m (fun x => k))
  (at level 100, m at next level, right associativity).

(** [new Date()] *)
Definition new_Date : M Date := fun w => (w, Ok (clock w)).

(** [Shipment.findById(id)] *)
Definition findById (id : string) : M (option Document.t) :=
  fun w => (w, Ok (option_map hydrate (shipments w !! id))).

(** [shipment.save()]: the document is validated against the schema;
    an invalid one is rejected and nothing is written, a valid one has
    its paths written. The pre-save hook, which gives a tracking number
    to a document without one, touches no field of the model. *)
Definition save (this : Document.t) : M unit :=
  fun w =>
    match validated this with
    | Some s =>
        ({| shipments := <[Shipment._id s := s]> (shipments w);
            clock := clock w;
            outbox := outbox w |}, Ok tt)
    | None => (w, Err (ValidationError "Shipment" ["payment.status"]))
    end.

(** [shipment.addTimelineEntry(status, location, description)] of the
    model: push the entry, set the shipment status, save. The timestamp
    of the entry is its default, [Date.now]. *)
Definition addTimelineEntry (this : Document.t) (status : ShipmentStatus.t)
    (location : option string) (description : string) : M Document.t :=
  now <- new_Date ;;
  let this :=
    set_timeline
      (timeline this ++
         [{| Shipment.tl_status := status; Shipment.tl_location := location;
             Shipment.tl_description := description;
             Shipment.tl_timestamp := now |}])
      this in
  let this := set_shp_status status this in
  _ <- save this ;;
  ret this.

Section Collaborators.

(** Whether an awaited collaborator call goes through: the notification
    collection, the user collection and the mail server are outside the
    repository. *)
Variable delivers : Message -> bool.

Definition await (m : Message) : M unit :=
  fun w =>
    if delivers m then
      ({| shipments := shipments w; clock := clock w;
          outbox := outbox w ++ [m] |}, Ok tt)
    else (w, Err (CollaboratorFailure m)).

(** [notificationService.createNotification(data)]: the notification is
    completed from the template of its type and handed to
    [Notification.create], which validates it against
    [notificationSchema] before it stores it. *)
Definition createNotification (data : NotificationService.Notification)
    (shipmentId : string) : M unit :=
  let notification := NotificationService.createNotification data in
  match NotificationService.invalidPaths notification with
  | [] =>
      await (CreateNotification (NotificationService.n_userId notification)
               (NotificationService.n_type notification) shipmentId)
  | paths => reject (ValidationError "Notification" paths)
  end.

(** [User.findById(id)] in the payment service: the module does not
    import [User], so evaluating the name throws. *)
Definition User_findById (id : string) : M unit :=
  reject (ReferenceError "User").

(** [socketService.sendPaymentUpdate(userId, payload)]: best effort,
    emits only for a shipment with an owner. *)
Definition sendPaymentUpdate (user : option string) (shipmentId : string)
    (status : string) : M unit :=
  match user with
  | Some u =>
      fun w =>
        ({| shipments := shipments w; clock := clock w;
            outbox := outbox w ++ [PaymentUpdate u shipmentId status] |}, Ok tt)
  | None => ret tt
  end.

Record PaymentDetails := {
  p_accountName : option string;
  p_bankName : option string
}.

Record VerificationDetails := {
  v_verified : bool;
  v_notes : option string;
  v_rejectionReason : option string;
  v_adminId : string
}.

Record RefundDetails := {
  r_reason : string;
  r_amount : option float;
  r_adminId : string
}.

(** [!s] for a string that may be missing. *)
Definition missing (s : option string) : bool :=
  match s with
  | None => true
  | Some v => String.eqb v ""
  end.

Definition string_or_empty (s : option string) : string :=
  match s with
  | Some v => v
  | None => ""
  end.

(** [x] for a property that may be [undefined], read for its
    truthiness. *)
Definition is_true (x : option bool) : bool :=
  match x with
  | Some b => b
  | None => false
  end.

Definition initializeBankTransfer (shipment : Document.t)
    (paymentDetails : PaymentDetails) : M Document.t :=
  if missing (p_accountName paymentDetails)
     || missing (p_bankName paymentDetails) then
    throw (mkAppError "Account name and bank name are required" 400)
  else
    now <- new_Date ;;
    let shipment :=
      set_payment
        (cast
           {| lit_status := "awaiting_verification";
              lit_method := "bank_transfer";
              lit_amount := ShipmentService.total (cost shipment);
              lit_bankDetails :=
                {| accountName := string_or_empty (p_accountName paymentDetails);
                   bankName := string_or_empty (p_bankName paymentDetails) |};
              lit_createdAt := now |})
        shipment in
    _ <- save shipment ;;
    _ <- createNotification
           {| NotificationService.n_userId := userId shipment;
              NotificationService.n_type := "payment_verification";
              NotificationService.n_title := None;
              NotificationService.n_message := None |}
           (_id shipment) ;;
    _ <- match userId shipment with
         | Some u =>
             _ <- User_findById u ;;
             await (SendEmail "sendPaymentConfirmation" (_id shipment))
         | None => ret tt
         end ;;
    _ <- sendPaymentUpdate (userId shipment) (_id shipment)
           "awaiting_verification" ;;
    ret shipment.

Definition verifyBankTransfer (shipmentId : string)
    (verificationDetails : VerificationDetails) : M Document.t :=
  found <- findById shipmentId ;;
  match found with
  | None => throw (mkAppError "Shipment not found" 404)
  | Some shipment =>
      if negb (String.eqb (status (payment shipment)) "awaiting_verification")
      then throw (mkAppError "Payment is not awaiting verification" 400)
      else
        let shipment :=
          update_payment
            (set_status (if v_verified verificationDetails
                         then "completed" else "failed")) shipment in
        now <- new_Date ;;
        let shipment := update_payment (set_verifiedAt (Some now)) shipment in
        let shipment :=
          update_payment
            (set_verifiedBy (Some (v_adminId verificationDetails))) shipment in
        let shipment :=
          update_payment (set_notes (v_notes verificationDetails)) shipment in
        shipment <-
          (if v_verified verificationDetails then
             let shipment :=
               set_shp_status ShipmentStatus.awaiting_pickup shipment in
             addTimelineEntry shipment ShipmentStatus.awaiting_pickup None
               "Payment verified, shipment ready for pickup"
           else
             ret (update_payment
                    (set_rejectionReason
                       (v_rejectionReason verificationDetails)) shipment)) ;;
        _ <- save shipment ;;
        let notificationType :=
          if v_verified verificationDetails
          then "payment_confirmed" else "payment_rejected" in
        _ <- createNotification
               {| NotificationService.n_userId := userId shipment;
                  NotificationService.n_type := notificationType;
                  NotificationService.n_title := None;
                  NotificationService.n_message := None |}
               (_id shipment) ;;
        _ <- match userId shipment with
             | Some u =>
                 _ <- User_findById u ;;
                 if v_verified verificationDetails then
                   await (SendEmail "sendPaymentConfirmation" (_id shipment))
                 else
                   await (SendEmail "sendPaymentRejectionNotification"
                            (_id shipment))
             | None => ret tt
             end ;;
        _ <- sendPaymentUpdate (userId shipment) (_id shipment)
               (status (payment shipment)) ;;
        ret shipment
  end.

(** [refundDetails.amount || shipment.cost.total] *)
Definition amount_or (amount : option float) (total : float) : float :=
  match amount with
  | Some a => if truthy a then a else total
  | None => total
  end.

Definition processRefund (shipmentId : string) (refundDetails : RefundDetails)
    : M Document.t :=
  found <- findById shipmentId ;;
  match found with
  | None => throw (mkAppError "Shipment not found" 404)
  | Some shipment =>
      if negb (String.eqb (status (payment shipment)) "completed") then
        throw (mkAppError "Payment must be completed to process refund" 400)
      else if is_true (refunded (payment shipment)) then
        throw (mkAppError "Payment has already been refunded" 400)
      else
        let shipment := update_payment (set_refunded (Some true)) shipment in
        now <- new_Date ;;
        let shipment := update_payment (set_refundedAt (Some now)) shipment in
        let shipment :=
          update_payment
            (set_refundedBy (Some (r_adminId refundDetails))) shipment in
        let shipment :=
          update_payment
            (set_refundReason (Some (r_reason refundDetails))) shipment in
        let shipment :=
          update_payment
            (set_refundAmount
               (Some (amount_or (r_amount refundDetails)
                        (ShipmentService.total (cost shipment))))) shipment in
        let shipment := set_shp_status ShipmentStatus.cancelled shipment in
        _ <- save shipment ;;
        shipment <-
          addTimelineEntry shipment ShipmentStatus.cancelled None
            ("Shipment cancelled and refunded: " ++ r_reason refundDetails) ;;
        _ <- createNotification
               {| NotificationService.n_userId := userId shipment;
                  NotificationService.n_type := "payment_refunded";
                  NotificationService.n_title := None;
                  NotificationService.n_message := None |}
               (_id shipment) ;;
        _ <- match userId shipment with
             | Some u =>
                 _ <- User_findById u ;;
                 await (SendEmail "sendRefundConfirmation" (_id shipment))
             | None => ret tt
             end ;;
        _ <- sendPaymentUpdate (userId shipment) (_id shipment) "refunded" ;;
        ret shipment
  end.

(** The projection returned by [getPaymentStatus]. [method] and
    [createdAt] are read from the payment although the schema has no
    such path and nothing assigns such a property: they are
    [undefined]. *)
Record PaymentStatusView := {
  view_status : string;
  view_method : option string;
  view_amount : float;
  view_createdAt : option Date;
  view_verifiedAt : option Date;
  view_refunded : option bool;
  view_refundedAt : option Date;
  view_refundAmount : option float;
  view_refundReason : option string
}.

Definition getPaymentStatus (shipmentId : string) : M PaymentStatusView :=
  found <- findById shipmentId ;;
  match found with
  | None => throw (mkAppError "Shipment not found" 404)
  | Some shipment =>
      ret {| view_status := status (payment shipment);
             view_method := None;
             view_amount := ShipmentService.total (cost shipment);
             view_createdAt := None;
             view_verifiedAt := verifiedAt (payment shipment);
             view_refunded := refunded (payment shipment);
             view_refundedAt := refundedAt (payment shipment);
             view_refundAmount := refundAmount (payment shipment);
             view_refundReason := refundReason (payment shipment) |}
  end.

End Collaborators.

End PaymentService.

(** ** Payment request handlers (controllers/payment.js, the second half
    of src/controllers/shipment.js) *)

Module PaymentController.
Import JS Document PaymentService.

Section Collaborators.

Variable delivers : Message -> bool.

Record InitializeBody := {
  b_shipmentId : string;
  b_accountName : option string;
  b_bankName : option string
}.

(** [shipment.userId && shipment.userId.toString() !== req.user.id] *)
Definition notOwner (shipment : Document.t) (reqUserId : string) : bool :=
  match userId shipment with
  | Some u => negb (String.eqb u reqUserId)
  | None => false
  end.

Definition initializeBankTransfer (reqUserId : string) (body : InitializeBody)
    : M Document.t :=
  found <- findById (b_shipmentId body) ;;
  match found with
  | None => throw (mkAppError "Shipment not found" 404)
  | Some shipment =>
      if notOwner shipment reqUserId then
        throw (mkAppError "Not authorized to access this shipment" 403)
      else if negb (String.eqb (status (payment shipment)) "pending") then
        throw (mkAppError "Payment already initialized" 400)
      else
        PaymentService.initializeBankTransfer delivers shipment
          {| p_accountName := b_accountName body;
             p_bankName := b_bankName body |}
  end.

Definition verifyBankTransfer (reqUserId shipmentId : string) (verified : bool)
    (notes rejectionReason : option string) : M Document.t :=
  PaymentService.verifyBankTransfer delivers shipmentId
    {| v_verified := verified; v_notes := notes;
       v_rejectionReason := rejectionReason; v_adminId := reqUserId |}.

Definition processRefund (reqUserId shipmentId : string) (reason : string)
    (amount : option float) : M Document.t :=
  PaymentService.processRefund delivers shipmentId
    {| r_reason := reason; r_amount := amount; r_adminId := reqUserId |}.

(** The three state-changing payment requests. *)
Inductive Request :=
| Initialize (reqUserId : string) (body : InitializeBody)
| Verify (reqUserId shipmentId : string) (verified : bool)
    (notes rejectionReason : option string)
| Refund (reqUserId shipmentId : string) (reason : string)
    (amount : option float).

Definition dispatch (r : Request) : M Document.t :=
  match r with
  | Initialize u body => initializeBankTransfer u body
  | Verify u id verified notes reason =>
      verifyBankTransfer u id verified notes reason
  | Refund u id reason amount => processRefund u id reason amount
  end.

Definition at_time (t : Date) (w : World) : World :=
  {| shipments := shipments w; clock := t; outbox := outbox w |}.

(** The world after a request that arrives at time [t]; a rejected
    request keeps what was done before the rejection. *)
Definition handle (w : World) (tr : Date * Request) : World :=
  fst (dispatch (snd tr) (at_time (fst tr) w)).

(** The world after a sequence of requests, one at a time. *)
Definition serve (rs : list (Date * Request)) (w : World) : World :=
  fold_left handle rs w.

End Collaborators.

End PaymentController.

(** ** The specification's formulations *)

Module Spec.
Import JS ShipmentService Shipment.

(** "sum of chargeableWeight over all packages" *)
Definition totalChargeableWeight (pkgs : list Package) : float :=
  fold_left add (map calculateChargeableWeight pkgs) 0%float.

(** The surcharge factors of one package, in the order they apply:
    1.2 if fragile, 1.15 if perishable, 1.3 if hazardous. *)
Definition surcharges (pkg : Package) : list float :=
  (if isFragile pkg then [1.2%float] else [])
  ++ (if isPerishable pkg then [1.15%float] else [])
  ++ (if isHazardous pkg then [1.3%float] else []).

(** The distance multiplier, applied once to the aggregate. *)
Definition distanceFactor (type : ShipmentType) : list float :=
  match type with
  | international => [1.5%float]
  | local => []
  end.

(** The unrounded base cost [w] of the specification: the aggregate
    times the base rate, then multiplied, left to right, by the distance
    factor and by every surcharge of every package in list order. *)
Definition baseCostUnrounded (this : Service) (type : ShipmentType)
    (pkgs : list Package) : float :=
  fold_left mul (distanceFactor type ++ flat_map surcharges pkgs)
    (totalChargeableWeight pkgs * baseRates this type)%float.

(** Whether the total denotes exactly the sum of the real numbers that
    the three components denote. *)
Definition totalIsExactSum (c : Cost) : option bool :=
  match value (baseAmount c), value (cost_insurance c), value (vat c),
        value (total c) with
  | Some b, Some i, Some v, Some t =>
      Some (QArith_base.Qeq_bool t
              (QArith_base.Qplus (QArith_base.Qplus b i) v))
  | _, _, _, _ => None
  end.

(** "ceil(packages.length / 2)": the least integer that is not below
    the rational number n/2. *)
Definition ceilOfHalf (n : nat) : Z :=
  Qround.Qceiling (QArith_base.Qmake (Z.of_nat n) 2).

(** "deliveryDays = 5 if international else 2", plus ceil(n/2) for more
    than one package, plus 1 if any package needs special handling. *)
Definition deliveryDays (data : ShipmentData) : Z :=
  let n := length (packages data) in
  (match shp_type data with international => 5 | local => 2 end)
  + (if 1 <? Z.of_nat n then ceilOfHalf n else 0)
  + (if existsb (fun p => isFragile p || isPerishable p || isHazardous p)
          (packages data)
     then 1 else 0).

Section LocalTime.

Variable LocalTZA : Z -> bool -> Z.

(** "[n] days" after a date: the same time of day on the calendar day
    that comes [n] days later, in the time zone of the host. *)
Definition daysAfter (d : Date) (n : Z) : Date :=
  UTC LocalTZA (LocalTime LocalTZA d + n * msPerDay).

(** The calendar day of a date in the time zone of the host, as a day
    number. *)
Definition calendarDay (d : Date) : Z := Day (LocalTime LocalTZA d).

End LocalTime.

(** A package breaks a weight or dimension rule of [validatePackages]. *)
Definition offending (pkg : Package) : bool :=
  let d := dimensions pkg in
  ((weight pkg <=? 0)%float
   || (number_of_Z (maxWeight pkg) <? weight pkg)%float
   || (dim_length d <=? 0)%float || (width d <=? 0)%float
   || (height d <=? 0)%float
   || (150 <? dim_length d)%float || (150 <? width d)%float
   || (150 <? height d)%float)%bool.

(** The constraint named [c] is one that the package breaks. *)
Definition violates (pkg : Package) (c : string) : Prop :=
  let d := dimensions pkg in
  (c = "Weight must be greater than 0" /\ (weight pkg <=? 0)%float = true)
  \/ (c = "Invalid dimensions"
      /\ ((dim_length d <=? 0)%float || (width d <=? 0)%float
          || (height d <=? 0)%float)%bool = true)
  \/ (c = "Maximum dimension allowed is 150cm"
      /\ ((150 <? dim_length d)%float || (150 <? width d)%float
          || (150 <? height d)%float)%bool = true)
  \/ (c = "Maximum weight allowed is 5kg"
      /\ pkg_type pkg = documents /\ (5 <? weight pkg)%float = true)
  \/ (c = "Maximum weight allowed is 70kg"
      /\ pkg_type pkg <> documents /\ (70 <? weight pkg)%float = true).

(** The rule of the data model, "dimensions (cm, 1-150 each)". *)
Definition dimensionInRange (x : float) : bool :=
  ((1 <=? x)%float && (x <=? 150)%float)%bool.

(** Every document is stored under its own [_id]. *)
Definition wellFormed (w : PaymentService.World) : Prop :=
  forall (k : string) (s : Shipment.t),
    PaymentService.shipments w !! k = Some s -> _id s = k.

End Spec.

(** * Further parts of the code

    The methods and the pre-save hook of the shipment model, the
    tracking numbers, the request handlers for shipments and payments
    with their routes and middleware, the socket service and the error
    responses. *)

(** ** Methods of the shipment model (src/models/Shipment.js) *)

Module ShipmentMethods.
Import JS Shipment.

(** [this.timeline[this.timeline.length - 1]]: [undefined] on an empty
    timeline, where the index is -1. *)
Definition getLatestTimelineEntry (this : Shipment.t) : option TimelineEntry :=
  match length (timeline this) with
  | O => None
  | S n => timeline this !! n
  end.

Definition nonCancellableStatuses : list ShipmentStatus.t :=
  [ShipmentStatus.picked_up; ShipmentStatus.in_transit;
   ShipmentStatus.out_for_delivery; ShipmentStatus.delivered;
   ShipmentStatus.cancelled].

Definition status_eqb (a b : ShipmentStatus.t) : bool :=
  match a, b with
  | ShipmentStatus.pending, ShipmentStatus.pending
  | ShipmentStatus.awaiting_pickup, ShipmentStatus.awaiting_pickup
  | ShipmentStatus.picked_up, ShipmentStatus.picked_up
  | ShipmentStatus.in_transit, ShipmentStatus.in_transit
  | ShipmentStatus.out_for_delivery, ShipmentStatus.out_for_delivery
  | ShipmentStatus.delivered, ShipmentStatus.delivered
  | ShipmentStatus.cancelled, ShipmentStatus.cancelled => true
  | _, _ => false
  end.

(** [!nonCancellableStatuses.includes(this.status)] *)
Definition canBeCancelled (this : Shipment.t) : bool :=
  negb (existsb (status_eqb (shp_status this)) nonCancellableStatuses).

End ShipmentMethods.

(** ** The payment status request handler (controllers/payment.js) *)

Module PaymentQueries.
Import JS Document PaymentService.

(** [getPaymentStatus] of the controller: load the shipment, check the
    owner, then ask the service, which loads it again. *)
Definition getPaymentStatus (reqUserId shipmentId : string)
    : M PaymentStatusView :=
  found <- findById shipmentId ;;
  match found with
  | None => throw (mkAppError "Shipment not found" 404)
  | Some shipment =>
      if PaymentController.notOwner shipment reqUserId then
        throw (mkAppError "Not authorized to access this shipment" 403)
      else PaymentService.getPaymentStatus shipmentId
  end.

End PaymentQueries.

(** ** What the payment requests do to a stored shipment *)

Module Lifecycle.
Import JS Shipment PaymentService.

(** The document that a refund leaves in the collection: the shipment
    is cancelled, the reason is recorded on the payment, whose other
    paths stay as they were, and the timeline has one more entry. *)
Definition refundedDocument (s : Shipment.t) (d : RefundDetails) (now : Date)
    : Shipment.t :=
  {| _id := _id s;
     userId := userId s;
     shp_status := ShipmentStatus.cancelled;
     cost := cost s;
     payment :=
       {| status := status (payment s);
          transactionId := transactionId (payment s);
          paidAt := paidAt (payment s);
          refundReason := Some (r_reason d) |};
     timeline :=
       (timeline s ++
          [{| tl_status := ShipmentStatus.cancelled;
              tl_location := None;
              tl_description :=
                "Shipment cancelled and refunded: " ++ r_reason d;
              tl_timestamp := now |}])%list |}.

(** The paths of the notification that [processRefund] asks for which
    fail the validators of the notification schema. *)
Definition refundNotificationPaths (owner : option string) : list string :=
  (match owner with Some _ => [] | None => ["userId"] end)
  ++ ["type"; "title"; "message"].

(** One request: the collection is unchanged, or one stored document
    with a completed payment is replaced by its refunded form. *)
Definition steps (before after : gmap string Shipment.t) : Prop :=
  after = before
  \/ exists (s : Shipment.t) (d : RefundDetails) (now : Date),
       before !! _id s = Some s
       /\ status (payment s) = PaymentStatus.completed
       /\ after = <[_id s := refundedDocument s d now]> before.

(** [s'] is [s] after some refunds: identity, owner and cost are kept,
    the payment keeps its status, its transaction and its date, and the
    timeline has entries appended, all of them without location and
    with status cancelled. *)
Definition extends (s s' : Shipment.t) : Prop :=
  _id s' = _id s
  /\ userId s' = userId s
  /\ cost s' = cost s
  /\ status (payment s') = status (payment s)
  /\ transactionId (payment s') = transactionId (payment s)
  /\ paidAt (payment s') = paidAt (payment s)
  /\ exists added : list TimelineEntry,
       timeline s' = (timeline s ++ added)%list
       /\ Forall (fun e => tl_location e = None
                           /\ tl_status e = ShipmentStatus.cancelled)
            added.

(** The shipment status is the status of the latest timeline entry. *)
Definition statusFollowsTimeline (s : Shipment.t) : Prop :=
  forall e, ShipmentMethods.getLatestTimelineEntry s = Some e ->
            shp_status s = tl_status e.

End Lifecycle.

(** ** The shipment request handlers ([src/controllers/shipment.js]) *)

Module ShipmentController.
Import JS ShipmentService.

(** The body of a request after the route validators and [sanitizeData]:
    both countries are present. [req_pickupDate] is the date that
    [new Date(pickup.date)] makes of the body, [None] when that is an
    invalid date. The package list may be missing. The validators do not
    remove the keys that they do not know, so the body may name a
    [userId] of its own. *)
Record Body := {
  req_type : ShipmentType;
  req_senderCountry : string;
  req_recipientCountry : string;
  req_packages : option (list Package);
  req_insurance : option Insurance;
  req_pickupDate : option Date;
  req_userId : option string
}.

(** [shipmentService.validateAddresses(shipmentData)] *)
Definition validateAddresses (shipmentData : Body) : Result AppError unit :=
  match req_type shipmentData with
  | international =>
      if String.eqb (req_senderCountry shipmentData)
           (req_recipientCountry shipmentData) then
        Err (mkAppError
               "International shipments must be between different countries" 400)
      else Ok tt
  | local =>
      if negb (String.eqb (req_senderCountry shipmentData)
                 (req_recipientCountry shipmentData)) then
        Err (mkAppError "Local shipments must be within the same country" 400)
      else Ok tt
  end.

(** The body as the cost calculator and the delivery estimator read it. *)
Definition shipmentData (body : Body) : ShipmentData :=
  {| shp_type := req_type body;
     packages := match req_packages body with Some l => l | None => [] end;
     insurance := req_insurance body;
     pickup_date := req_pickupDate body |}.

(** [calculateCost]: the quote. *)
Definition calculateCost (this : Service) (body : Body) : Result AppError Cost :=
  match validatePackages (req_packages body) with
  | Err e => Err e
  | Ok _ => Ok (calculateShippingCost this (shipmentData body))
  end.

(** What [createShipment] hands to [Shipment.create]: the keys of the
    body, with these set on top of them. *)
Record NewShipment := {
  new_cost : Cost;
  new_estimatedDate : option Date;
  new_isDraft : bool;
  new_userId : option string
}.

Section LocalTime.

Variable LocalTZA : Z -> bool -> Z.

(** [createShipment] up to the call of [Shipment.create], for a request
    of [user] (absent for a guest) that arrives at [now]. [None] only if
    the weekend loop of the estimator is cut short by [fuel]. The
    [userId] of the body is replaced only when the request has a user. *)
Definition createShipment (this : Service) (fuel : nat) (now : Date)
    (user : option string) (body : Body)
    : option (Result AppError NewShipment) :=
  match validateAddresses body with
  | Err e => Some (Err e)
  | Ok _ =>
  match validatePackages (req_packages body) with
  | Err e => Some (Err e)
  | Ok _ =>
  match validatePickupDate LocalTZA now (req_pickupDate body) with
  | Err e => Some (Err e)
  | Ok _ =>
      let cost := calculateShippingCost this (shipmentData body) in
      match estimateDeliveryDate LocalTZA fuel (shipmentData body) with
      | None => None
      | Some estimatedDate =>
          Some (Ok {| new_cost := cost;
                      new_estimatedDate := estimatedDate;
                      new_isDraft := false;
                      new_userId :=
                        match user with
                        | Some id => Some id
                        | None => req_userId body
                        end |})
      end
  end end end.

End LocalTime.

End ShipmentController.

(** ** The authentication middleware *)

Module Auth.
Import JS JSString.

Record User := {
  user_id : string;
  role : string;
  isVerified : bool;
  passwordChangedAt : option Date
}.

(** The payload of a verified token. *)
Record Decoded := { decoded_id : string; iat : Z }.

Record Request := {
  authorization : option string;
  cookie_token : option string
}.

(** What a [try] block can throw: an [AppError] of this code, or the
    error of a library call. *)
Inductive Thrown :=
| App (e : AppError)
| Library.

(** [try { body } catch (error) { handler }] where the handler ignores
    the error. *)
Definition try_catch {E E' A : Type} (body : Result E A)
    (handler : Result E' A) : Result E' A :=
  match body with
  | Ok a => Ok a
  | Err _ => handler
  end.

(** The token of a request: from the [Authorization] header when that
    starts with [Bearer], otherwise from the cookie. *)
Definition tokenOf (req : Request) : option string :=
  match authorization req with
  | Some header =>
      if truthy (Some header) && startsWith "Bearer" header then
        split " " header !! 1%nat
      else if truthy (cookie_token req) then cookie_token req
      else None
  | None =>
      if truthy (cookie_token req) then cookie_token req else None
  end.

(** [parseInt(date.getTime() / 1000, 10)]: the quotient is written out
    in decimal and read back up to the decimal point. *)
Definition seconds (d : Date) : Z := Z.quot d 1000.

Section Collaborators.

(** [jwt.verify(token, secret)], which throws on a bad token, and
    [User.findById]. *)
Variable verify : string -> option Decoded.
Variable findById : string -> option User.

(** The body of the [try] block of [protect]. *)
Definition protect_body (token : string) : Result Thrown User :=
  match verify token with
  | None => Err Library
  | Some decoded =>
      match findById (decoded_id decoded) with
      | None => Err (App (mkAppError "User not found" 404))
      | Some user =>
          if negb (isVerified user) then
            Err (App (mkAppError
                        "Please verify your email to access this route" 401))
          else
            match passwordChangedAt user with
            | Some changed =>
                if iat decoded <? seconds changed then
                  Err (App (mkAppError
                              "Password recently changed, please login again"
                              401))
                else Ok user
            | None => Ok user
            end
      end
  end.

(** [protect]: the user attached to the request, or the rejection. *)
Definition protect (req : Request) : Result AppError User :=
  let token := tokenOf req in
  if negb (truthy token) then
    Err (mkAppError "Not authorized to access this route" 401)
  else
    try_catch
      (protect_body (match token with Some t => t | None => EmptyString end))
      (Err (mkAppError "Not authorized to access this route" 401)).

(** The one rejection of [protect]. *)
Definition notAuthorized : AppError :=
  mkAppError "Not authorized to access this route" 401.

(** [optionalAuth]: the user attached to the request, if any; the
    request always goes on. *)
Definition optionalAuth_body (token : string) : Result Thrown (option User) :=
  match verify token with
  | None => Err Library
  | Some decoded =>
      match findById (decoded_id decoded) with
      | None => Ok None
      | Some user =>
          match passwordChangedAt user with
          | Some changed =>
              if iat decoded <? seconds changed then Ok None
              else Ok (Some user)
          | None => Ok (Some user)
          end
      end
  end.

Definition optionalAuth (req : Request) : option User :=
  let token := tokenOf req in
  if negb (truthy token) then None
  else
    match try_catch (E' := unit)
            (optionalAuth_body
               (match token with Some t => t | None => EmptyString end))
            (Ok None) with
    | Ok attached => attached
    | Err _ => None
    end.

End Collaborators.

(** [authorize(...roles)] *)
Definition authorize (roles : list string) (user : User)
    : Result AppError unit :=
  if negb (existsb (String.eqb (role user)) roles) then
    Err (mkAppError
           ("User role " ++ role user
              ++ " is not authorized to access this route") 403)
  else Ok tt.

End Auth.

(** ** The payment routes ([src/routes/payment.js]) *)

Module PaymentRoutes.
Import JS Document PaymentService.

(** [validate(validations)]: an [async] middleware that is not wrapped
    in [asyncHandler]. When the validators report errors it throws the
    first message, so the promise that it returns is rejected; Express 4
    does not look at what a middleware returns, so the error reaches no
    error handler, the next handler is not called and the request is
    left without an answer. *)
Definition validate (errorMessages : list string) : M unit :=
  match errorMessages with
  | [] => ret tt
  | first :: _ => reject (Unhandled (mkAppError first 400))
  end.

(** A middleware in front of a handler that hands its error to [next]:
    [protect], which is wrapped in [asyncHandler], and [authorize],
    which throws before it returns. *)
Definition middleware {A : Type} (r : Result AppError A) : M A :=
  fun w =>
    match r with
    | Ok a => (w, Ok a)
    | Err e => (w, Err (Thrown e))
    end.

Section Collaborators.

Variable delivers : Message -> bool.
Variable verify : string -> option Auth.Decoded.
Variable findById : string -> option Auth.User.

(** [POST /bank-transfer/initialize] *)
Definition initializeRoute (req : Auth.Request) (errorMessages : list string)
    (body : PaymentController.InitializeBody) : M Document.t :=
  user <- middleware (Auth.protect verify findById req) ;;
  _ <- validate errorMessages ;;
  PaymentController.initializeBankTransfer delivers (Auth.user_id user) body.

(** [POST /bank-transfer/verify/:shipmentId] *)
Definition verifyRoute (req : Auth.Request) (errorMessages : list string)
    (shipmentId : string) (verified : bool)
    (notes rejectionReason : option string) : M Document.t :=
  user <- middleware (Auth.protect verify findById req) ;;
  _ <- middleware (Auth.authorize ["admin"] user) ;;
  _ <- validate errorMessages ;;
  PaymentController.verifyBankTransfer delivers (Auth.user_id user) shipmentId
    verified notes rejectionReason.

(** [POST /:shipmentId/refund] *)
Definition refundRoute (req : Auth.Request) (errorMessages : list string)
    (shipmentId : string) (reason : string) (amount : option float)
    : M Document.t :=
  user <- middleware (Auth.protect verify findById req) ;;
  _ <- middleware (Auth.authorize ["admin"] user) ;;
  _ <- validate errorMessages ;;
  PaymentController.processRefund delivers (Auth.user_id user) shipmentId
    reason amount.

(** [GET /:shipmentId/status] *)
Definition statusRoute (req : Auth.Request) (shipmentId : string)
    : M PaymentStatusView :=
  user <- middleware (Auth.protect verify findById req) ;;
  PaymentQueries.getPaymentStatus (Auth.user_id user) shipmentId.

(** A request to one of the four routes, with what the handler reads. *)
Inductive Call :=
| InitializeCall (body : PaymentController.InitializeBody)
| VerifyCall (shipmentId : string) (verified : bool)
    (notes rejectionReason : option string)
| RefundCall (shipmentId : string) (reason : string) (amount : option float)
| StatusCall (shipmentId : string).

(** The run of a request through its route, without the value it
    resolves to. *)
Definition run (req : Auth.Request) (errorMessages : list string)
    (call : Call) : M unit :=
  match call with
  | InitializeCall body =>
      _ <- initializeRoute req errorMessages body ;; ret tt
  | VerifyCall shipmentId verified notes rejectionReason =>
      _ <- verifyRoute req errorMessages shipmentId verified notes
             rejectionReason ;;
      ret tt
  | RefundCall shipmentId reason amount =>
      _ <- refundRoute req errorMessages shipmentId reason amount ;; ret tt
  | StatusCall shipmentId =>
      _ <- statusRoute req shipmentId ;; ret tt
  end.

End Collaborators.

End PaymentRoutes.

(** ** Tracking numbers ([src/utils/trackingNumber.js]) *)

Module TrackingNumber.
Import JS JSString ShipmentService.

(** *** Regular expressions *)

(** The fragment of regular expressions used here. *)
Inductive regex :=
| Eps
| Chr (c : ascii)
| Digit
| Seq (r1 r2 : regex)
| Alt (r1 r2 : regex).

(** Backtracking matcher: [k] is what has to match the rest. *)
Fixpoint matches (r : regex) (s : string) (k : string -> bool) : bool :=
  match r with
  | Eps => k s
  | Chr c =>
      match s with
      | String a rest => Ascii.eqb a c && k rest
      | EmptyString => false
      end
  | Digit =>
      match s with
      | String a rest => isDigit a && k rest
      | EmptyString => false
      end
  | Seq r1 r2 => matches r1 s (fun rest => matches r2 rest k)
  | Alt r1 r2 => matches r1 s k || matches r2 s k
  end.

Fixpoint lit (s : string) : regex :=
  match s with
  | EmptyString => Eps
  | String c rest => Seq (Chr c) (lit rest)
  end.

(** [r{n}] *)
Fixpoint times (n : nat) (r : regex) : regex :=
  match n with
  | O => Eps
  | S n' => Seq r (times n' r)
  end.

(** [/^r$/.test(s)] *)
Definition test (r : regex) (s : string) : bool :=
  matches r s (fun rest => String.eqb rest EmptyString).

(** *** The module *)

(** The calendar fields of a date in local time: [getFullYear()],
    [getMonth()] (0 to 11) and [getDate()]. *)
Record CalendarDate := { fullYear : Z; month : nat; date : nat }.

Definition prefixOf (type : ShipmentType) : string :=
  match type with
  | international => "INT"
  | local => "LOC"
  end.

(** [generateTrackingNumber(type)], called on the day [now]; [random] is
    the value of [Math.floor(Math.random() * 1000)], a number from 0 to
    999. The type is one of the two of the shipment schema, which
    [toLowerCase] leaves as they are. *)
Definition generateTrackingNumber (now : CalendarDate) (random : nat)
    (type : ShipmentType) : string :=
  let year := fullYear now in
  let month := padStart0 2 (string_of_nat (month now + 1)) in
  let day := padStart0 2 (string_of_nat (date now)) in
  let dateString := (string_of_int year ++ month ++ day)%string in
  let prefix := prefixOf type in
  let random := padStart0 3 (string_of_nat random) in
  (prefix ++ "-" ++ dateString ++ "-" ++ random)%string.

(** [/^(INT|LOC)-\d{8}-\d{3}$/] *)
Definition pattern : regex :=
  Seq (Alt (lit "INT") (lit "LOC"))
    (Seq (Chr "-")
       (Seq (times 8 Digit)
          (Seq (Chr "-") (times 3 Digit)))).

Definition isValidTrackingNumber (trackingNumber : string) : bool :=
  test pattern trackingNumber.

(** A thrown [Error], with its message. *)
Definition invalid {A : Type} : Result string A :=
  Err "Invalid tracking number format".

(** Reading a part of an array that is not there, and then a property
    of it. *)
Definition typeError {A : Type} : Result string A := Err "TypeError".

Definition typeOfPrefix (prefix : option string) : ShipmentType :=
  match prefix with
  | Some p => if String.eqb p "INT" then international else local
  | None => local
  end.

Definition getShipmentTypeFromTracking (trackingNumber : string)
    : Result string ShipmentType :=
  if negb (isValidTrackingNumber trackingNumber) then invalid
  else
    let prefix := split "-" trackingNumber !! 0%nat in
    Ok (typeOfPrefix prefix).

(** The arguments of [new Date(year, month, day)]; [None] is [NaN]. *)
Record DateArguments := {
  arg_year : option Z;
  arg_month : option Z;
  arg_day : option Z
}.

Definition getDateFromTracking (trackingNumber : string)
    : Result string DateArguments :=
  if negb (isValidTrackingNumber trackingNumber) then invalid
  else
    match split "-" trackingNumber !! 1%nat with
    | None => typeError
    | Some dateString =>
        let year := parseInt (substring 0 4 dateString) in
        let month :=
          option_map (fun m => m - 1) (parseInt (substring 4 6 dateString)) in
        let day := parseInt (substring 6 8 dateString) in
        Ok {| arg_year := year; arg_month := month; arg_day := day |}
    end.

(** A template literal writes a missing part as [undefined]. *)
Definition template_part (part : option string) : string :=
  match part with
  | Some s => s
  | None => "undefined"
  end.

Definition formatTrackingNumber (trackingNumber : string)
    : Result string string :=
  if negb (isValidTrackingNumber trackingNumber) then invalid
  else
    let parts := split "-" trackingNumber in
    let prefix := parts !! 0%nat in
    let date := parts !! 1%nat in
    let sequence := parts !! 2%nat in
    match date with
    | None => typeError
    | Some date =>
        let formattedDate :=
          (substring 0 4 date ++ "-" ++ substring 4 6 date ++ "-"
             ++ substring 6 8 date)%string in
        Ok (template_part prefix ++ "-" ++ formattedDate ++ "-"
              ++ template_part sequence)%string
    end.

Record Parsed := {
  parsed_type : ShipmentType;
  parsed_date : DateArguments;
  parsed_sequence : option Z;
  parsed_formatted : string
}.

Definition parseTrackingNumber (trackingNumber : string)
    : Result string Parsed :=
  if negb (isValidTrackingNumber trackingNumber) then invalid
  else
    let parts := split "-" trackingNumber in
    let prefix := parts !! 0%nat in
    let sequence := parts !! 2%nat in
    match getDateFromTracking trackingNumber with
    | Err e => Err e
    | Ok date =>
        match formatTrackingNumber trackingNumber with
        | Err e => Err e
        | Ok formatted =>
            Ok {| parsed_type := typeOfPrefix prefix;
                  parsed_date := date;
                  parsed_sequence := parseInt (template_part sequence);
                  parsed_formatted := formatted |}
        end
    end.

(** *** The pre-save hook of the shipment model *)

(** The fields of a shipment document that the hook reads and writes. *)
Record Document := {
  trackingNumber : option string;
  isDraft : bool;
  doc_type : ShipmentType
}.

(** [shipmentSchema.pre('save', ...)] *)
Definition preSave (now : CalendarDate) (random : nat) (this : Document)
    : Document :=
  if negb (truthy (trackingNumber this)) && negb (isDraft this) then
    {| trackingNumber := Some (generateTrackingNumber now random (doc_type this));
       isDraft := isDraft this;
       doc_type := doc_type this |}
  else this.

End TrackingNumber.

(** ** Responses ([utils/responseHandler.js]) *)

Module ResponseHandler.
Import JS JSString.

(** The [code] of an error: a number or a string. *)
Inductive Code :=
| NumberCode (n : Z)
| StringCode (s : string).

(** An error object as the handlers read it. An [Error] of this code
    has the name [Error] and no [code]; one made by [new Error] has no
    status code, no status and is not operational. The errors of the
    libraries have a name of their own, a [code], the messages of
    [errors] or the keys of [keyValue]. *)
Record ErrorObject := {
  err_name : string;
  err_message : string;
  err_statusCode : option Z;
  err_status : option string;
  err_isOperational : bool;
  err_code : option Code;
  err_errors : option (list string);
  err_keyValue : option (list string)
}.

(** [new AppError(message, statusCode)] *)
Definition newAppError (message : string) (statusCode : Z) : ErrorObject :=
  {| err_name := "Error";
     err_message := message;
     err_statusCode := Some statusCode;
     err_status :=
       Some (if startsWith "4" (string_of_int statusCode) then "fail"
             else "error");
     err_isOperational := true;
     err_code := None;
     err_errors := None;
     err_keyValue := None |}.

(** [new Error(message)] *)
Definition newError (message : string) : ErrorObject :=
  {| err_name := "Error";
     err_message := message;
     err_statusCode := None;
     err_status := None;
     err_isOperational := false;
     err_code := None;
     err_errors := None;
     err_keyValue := None |}.

(** What is sent: the HTTP status and the JSON body. *)
Record Response := {
  res_statusCode : Z;
  res_success : bool;
  res_error : string;
  res_errors : option (gmap string (list string))
}.

Definition errorResponse (statusCode : Z) (message : string)
    (errors : option (gmap string (list string))) : Response :=
  {| res_statusCode := statusCode;
     res_success := false;
     res_error := message;
     res_errors := errors |}.

(** [globalErrorHandler]; [development] is whether [NODE_ENV] is
    [development]. *)
Definition globalErrorHandler (development : bool) (err : ErrorObject)
    : Response :=
  let statusCode :=
    match err_statusCode err with
    | Some c => if c =? 0 then 500 else c
    | None => 500
    end in
  if err_isOperational err then
    errorResponse statusCode (err_message err) None
  else
    errorResponse 500
      (if development then err_message err
       else "Something went wrong! Please try again later.")
      None.

(** An error of express-validator. *)
Record ValidationError := { path : string; msg : string }.

(** The names of the properties of [Object.prototype], which every
    object written as a literal inherits: ten methods, [constructor]
    and the accessor [__proto__]. Each of them reads as a function or an
    object, so as truthy. *)
Definition objectPrototype : list string :=
  ["constructor"; "__defineGetter__"; "__defineSetter__"; "hasOwnProperty";
   "__lookupGetter__"; "__lookupSetter__"; "isPrototypeOf";
   "propertyIsEnumerable"; "toString"; "valueOf"; "__proto__";
   "toLocaleString"].

Definition inherited (field : string) : bool :=
  existsb (String.eqb field) objectPrototype.

(** What [formattedErrors[field]] reads: an array that the function
    has put there, a property of the prototype, or [undefined]. *)
Inductive Property :=
| Messages (messages : list string)
| Inherited.

Definition get (formattedErrors : gmap string (list string)) (field : string)
    : option Property :=
  match formattedErrors !! field with
  | Some messages => Some (Messages messages)
  | None => if inherited field then Some Inherited else None
  end.

Record TypeError := { te_message : string }.

(** The callback of the [forEach]: what it throws, or the object as it
    leaves it. A property of the prototype is truthy, so no array is put
    in its place, and it has no [push]. *)
Definition addError (formattedErrors : gmap string (list string))
    (error : ValidationError) : Result TypeError (gmap string (list string)) :=
  let field := path error in
  let formattedErrors :=
    match get formattedErrors field with
    | Some _ => formattedErrors
    | None => <[field := []]> formattedErrors
    end in
  match get formattedErrors field with
  | Some (Messages messages) =>
      Ok (<[field := (messages ++ [msg error])%list]> formattedErrors)
  | Some Inherited =>
      Err {| te_message := "formattedErrors[field].push is not a function" |}
  | None =>
      Err {| te_message := "Cannot read properties of undefined" |}
  end.

(** [errors.forEach(callback)]: the first exception ends the iteration. *)
Fixpoint addErrors (formattedErrors : gmap string (list string))
    (errors : list ValidationError)
    : Result TypeError (gmap string (list string)) :=
  match errors with
  | [] => Ok formattedErrors
  | error :: rest =>
      match addError formattedErrors error with
      | Ok formattedErrors => addErrors formattedErrors rest
      | Err e => Err e
      end
  end.

(** [formatValidationErrors]: the messages by field, in an object that
    starts as [{}]. *)
Definition formatValidationErrors (errors : list ValidationError)
    : Result TypeError (gmap string (list string)) :=
  addErrors empty errors.

(** The messages of the errors of one field, in the order of the errors. *)
Definition messagesFor (field : string) (errors : list ValidationError)
    : list string :=
  map msg (List.filter (fun error => String.eqb (path error) field) errors).

(** [handleValidationErrors] *)
Definition handleValidationErrors (errors : list ValidationError)
    : Result TypeError Response :=
  match formatValidationErrors errors with
  | Ok formattedErrors =>
      Ok (errorResponse 400 "Validation failed" (Some formattedErrors))
  | Err e => Err e
  end.

End ResponseHandler.

(** ** The error middleware of the server ([server.js]) *)

Module Server.
Import JS JSString ResponseHandler.

(** The [error] of a response body: a text or an array of texts. *)
Inductive ErrorBody :=
| Text (s : string)
| Texts (l : list string).

Record Response := { status : Z; error : ErrorBody }.

(** [field.charAt(0).toUpperCase() + field.slice(1)] *)
Definition capitalize (field : string) : string :=
  match field with
  | String c rest => String (toUpperCase c) rest
  | EmptyString => EmptyString
  end.

Definition code_is (code : option Code) (c : Code) : bool :=
  match code, c with
  | Some (NumberCode a), NumberCode b => a =? b
  | Some (StringCode a), StringCode b => String.eqb a b
  | _, _ => false
  end.

(** The error-handling middleware that the server installs; [None] when
    the handler itself fails on a property of [undefined]. *)
Definition errorMiddleware (development : bool) (err : ErrorObject)
    : option Response :=
  if String.eqb (err_name err) "ValidationError" then
    match err_errors err with
    | Some messages => Some {| status := 400; error := Texts messages |}
    | None => None
    end
  else if code_is (err_code err) (NumberCode 11000) then
    match err_keyValue err with
    | Some (field :: _) =>
        Some {| status := 400;
                error := Text (capitalize field ++ " already exists") |}
    | _ => None
    end
  else if String.eqb (err_name err) "JsonWebTokenError" then
    Some {| status := 401; error := Text "Invalid token" |}
  else if String.eqb (err_name err) "TokenExpiredError" then
    Some {| status := 401; error := Text "Token expired" |}
  else if code_is (err_code err) (StringCode "LIMIT_FILE_SIZE") then
    Some {| status := 400; error := Text "File size cannot exceed 10MB" |}
  else
    Some {| status :=
              match err_statusCode err with
              | Some c => if c =? 0 then 500 else c
              | None => 500
              end;
            error :=
              Text (if development then err_message err
                    else "Server Error") |}.

End Server.

(** ** Status updates by an administrator
       ([updateShipmentStatus] of [src/controllers/shipment.js]) *)

Module StatusUpdates.
Import JS Shipment PaymentService.

(** [shipmentService.formatStatusUpdate(status)], for the seven statuses
    that the route admits; each has a message, so the fallback to the
    status itself is not taken. *)
Definition formatStatusUpdate (status : ShipmentStatus.t)
    : ShipmentStatus.t * string :=
  (status,
   match status with
   | ShipmentStatus.pending => "Shipment created and pending payment"
   | ShipmentStatus.awaiting_pickup => "Ready for pickup"
   | ShipmentStatus.picked_up => "Package has been picked up"
   | ShipmentStatus.in_transit => "Package is in transit"
   | ShipmentStatus.out_for_delivery => "Package is out for delivery"
   | ShipmentStatus.delivered => "Package has been delivered"
   | ShipmentStatus.cancelled => "Shipment has been cancelled"
   end).

(** [description || fallback] *)
Definition description_or (description : option string) (fallback : string)
    : string :=
  match description with
  | Some (String c rest) => String c rest
  | _ => fallback
  end.


Section Collaborators.

Variable delivers : Message -> bool.

(** Which documents are drafts, and which users exist; neither is
    changed by the handlers of the model. *)
Variable isDraft : string -> bool.
Variable userExists : string -> bool.

(** [Shipment.findOne({ _id: id, isDraft: false })] *)
Definition findOne (id : string) : M (option Document.t) :=
  fun w =>
    (w, Ok (if isDraft id then None
            else option_map Document.hydrate (shipments w !! id))).

(** [updateShipmentStatus]; the date of delivery that it also records is
    not a field of the model. *)
Definition updateShipmentStatus (id : string) (status : ShipmentStatus.t)
    (location description : option string) : M Document.t :=
  found <- findOne id ;;
  match found with
  | None => throw (mkAppError "Shipment not found" 404)
  | Some shipment =>
      let shipment := Document.set_shp_status status shipment in
      let statusUpdate := formatStatusUpdate status in
      shipment <- addTimelineEntry shipment status location
                    (description_or description (snd statusUpdate)) ;;
      _ <- match Document.userId shipment with
           | Some u =>
               _ <- await delivers (UserFindById u) ;;
               if userExists u then
                 await delivers
                   (SendEmail "sendStatusUpdateEmail" (Document._id shipment))
               else ret tt
           | None => ret tt
           end ;;
      ret shipment
  end.

End Collaborators.

End StatusUpdates.

(** ** The shipment routes ([src/routes/shipment.js]) *)

Module ShipmentRoutes.
Import JS JSString.

Inductive Method := GET | POST | PUT.

Inductive Handler :=
| trackShipment | calculateCost | initializeShipment | createShipment
| getShipment | saveShipmentDraft | getShipmentDraft
| updatePackageDetails | updateDeliveryOptions | updateSenderInfo
| updateRecipientInfo | updatePickupLocation | updateInsurance
| getShipments | getShipmentStats | updateShipmentStatus.

(** A segment of a route path: a literal, or a parameter such as [:id]. *)
Inductive Segment :=
| Lit (s : string)
| Param (name : string).

Record Route := {
  route_method : Method;
  route_path : list Segment;
  route_handler : Handler
}.

(** The routes in the order in which the router registers them; the
    middleware in front of a handler is left out. *)
Definition routes : list Route :=
  [ {| route_method := GET;
       route_path := [Lit "track"; Param "trackingNumber"];
       route_handler := trackShipment |};
    {| route_method := POST; route_path := [Lit "calculate-cost"];
       route_handler := calculateCost |};
    {| route_method := POST; route_path := [Lit "initialize"];
       route_handler := initializeShipment |};
    {| route_method := POST; route_path := [];
       route_handler := createShipment |};
    {| route_method := GET; route_path := [Param "id"];
       route_handler := getShipment |};
    {| route_method := POST; route_path := [Lit "draft"];
       route_handler := saveShipmentDraft |};
    {| route_method := GET; route_path := [Lit "draft"; Param "id"];
       route_handler := getShipmentDraft |};
    {| route_method := PUT; route_path := [Param "id"; Lit "package"];
       route_handler := updatePackageDetails |};
    {| route_method := PUT; route_path := [Param "id"; Lit "delivery"];
       route_handler := updateDeliveryOptions |};
    {| route_method := PUT; route_path := [Param "id"; Lit "sender"];
       route_handler := updateSenderInfo |};
    {| route_method := PUT; route_path := [Param "id"; Lit "recipient"];
       route_handler := updateRecipientInfo |};
    {| route_method := PUT; route_path := [Param "id"; Lit "pickup"];
       route_handler := updatePickupLocation |};
    {| route_method := PUT; route_path := [Param "id"; Lit "insurance"];
       route_handler := updateInsurance |};
    {| route_method := GET; route_path := [];
       route_handler := getShipments |};
    {| route_method := GET; route_path := [Lit "stats"];
       route_handler := getShipmentStats |};
    {| route_method := PUT; route_path := [Param "id"; Lit "status"];
       route_handler := updateShipmentStatus |} ].

Definition method_eqb (a b : Method) : bool :=
  match a, b with
  | GET, GET | POST, POST | PUT, PUT => true
  | _, _ => false
  end.

(** Equality of strings up to the case of the letters, as the router
    compares literals by default. *)
Fixpoint eqb_nocase (a b : string) : bool :=
  match a, b with
  | EmptyString, EmptyString => true
  | String x a', String y b' =>
      Ascii.eqb (toUpperCase x) (toUpperCase y) && eqb_nocase a' b'
  | _, _ => false
  end.

(** A parameter stands for one segment that is not empty. *)
Definition matchSegment (pattern : Segment) (segment : string) : bool :=
  match pattern with
  | Lit s => eqb_nocase s segment
  | Param _ => negb (String.eqb segment EmptyString)
  end.

Fixpoint matchPath (pattern : list Segment) (path : list string) : bool :=
  match pattern, path with
  | [], [] => true
  | p :: pattern', s :: path' => matchSegment p s && matchPath pattern' path'
  | _, _ => false
  end.

(** The handler that answers a request: that of the first route, in the
    order of registration, whose method and path match. The handlers of
    this router end the request, so no later route is tried. *)
Definition select (method : Method) (path : list string) : option Handler :=
  option_map route_handler
    (List.find
       (fun r => method_eqb (route_method r) method
                 && matchPath (route_path r) path)
       routes).

End ShipmentRoutes.

(** ** The socket rooms ([src/services/socketService.js]) *)

Module SocketService.
Import JS JSString.

(** [this.userSockets]: a [Map] from user ids to [Set]s of socket ids.
    A [Map] keeps its keys in the order in which they were first set,
    and [removeSocket] goes through it in that order. *)
Definition UserSockets := list (string * gset string).

Fixpoint Map_get (userId : string) (m : UserSockets) : option (gset string) :=
  match m with
  | [] => None
  | (u, sockets) :: rest =>
      if String.eqb u userId then Some sockets else Map_get userId rest
  end.

Definition Map_has (userId : string) (m : UserSockets) : bool :=
  match Map_get userId m with
  | Some _ => true
  | None => false
  end.

(** [map.set(key, value)]: a known key keeps its place, a new one goes
    to the end. *)
Fixpoint Map_set (userId : string) (sockets : gset string)
    (m : UserSockets) : UserSockets :=
  match m with
  | [] => [(userId, sockets)]
  | (u, s) :: rest =>
      if String.eqb u userId then (u, sockets) :: rest
      else (u, s) :: Map_set userId sockets rest
  end.

Definition addUserSocket (userId socketId : string) (m : UserSockets)
    : UserSockets :=
  let m := if negb (Map_has userId m) then Map_set userId empty m else m in
  match Map_get userId m with
  | Some sockets => Map_set userId (union sockets {[ socketId ]}) m
  | None => m
  end.

(** The loop of [removeSocket] stops at the first user who has the
    socket. *)
Fixpoint removeSocket (socketId : string) (m : UserSockets) : UserSockets :=
  match m with
  | [] => []
  | (userId, sockets) :: rest =>
      if decide (elem_of socketId sockets) then
        let sockets := difference sockets {[ socketId ]} in
        if (size sockets =? 0)%nat then rest else (userId, sockets) :: rest
      else (userId, sockets) :: removeSocket socketId rest
  end.

Definition getUserSockets (userId : string) (m : UserSockets) : gset string :=
  match Map_get userId m with
  | Some sockets => sockets
  | None => empty
  end.

Definition isUserOnline (userId : string) (m : UserSockets) : bool :=
  match Map_get userId m with
  | Some sockets => (0 <? size sockets)%nat
  | None => false
  end.

(** What a client can send on its socket. *)
Inductive Event :=
| Join (socketId : string) (userId : string)
| Disconnect (socketId : string).

(** The handlers of [initialize]; an empty user id is falsy. *)
Definition handle (m : UserSockets) (e : Event) : UserSockets :=
  match e with
  | Join socketId userId =>
      if truthy (Some userId) then addUserSocket userId socketId m else m
  | Disconnect socketId => removeSocket socketId m
  end.

Definition run (events : list Event) : UserSockets :=
  fold_left handle events [].

(** The number of users with whom a socket is registered. *)
Definition holders (socketId : string) (m : UserSockets) : nat :=
  length (List.filter (fun p => bool_decide (elem_of socketId (snd p))) m).

(** No user is kept with an empty set, and no user twice. *)
Definition tidy (m : UserSockets) : Prop :=
  NoDup (map fst m) /\ Forall (fun p => snd p <> empty) m.

End SocketService.

(** ** Reading a shipment ([getShipment] of [src/controllers/shipment.js]) *)

Module ShipmentQueries.
Import JS Document PaymentService.

(** [shipment.userId && shipment.userId.toString() !== req.user?.id
    && req.user?.role !== 'admin'], for the user that [optionalAuth] has
    attached, if any. *)
Definition refused (shipment : Document.t) (user : option Auth.User) : bool :=
  match userId shipment with
  | Some owner =>
      negb (match user with
            | Some u => String.eqb owner (Auth.user_id u)
            | None => false
            end)
      && negb (match user with
               | Some u => String.eqb (Auth.role u) "admin"
               | None => false
               end)
  | None => false
  end.

Definition getShipment (isDraft : string -> bool) (user : option Auth.User)
    (id : string) : M Document.t :=
  found <- StatusUpdates.findOne isDraft id ;;
  match found with
  | None => throw (mkAppError "Shipment not found" 404)
  | Some shipment =>
      if refused shipment user then
        throw (mkAppError "Not authorized to access this shipment" 403)
      else ret shipment
  end.

End ShipmentQueries.

(** ** Concrete inputs used by the examples below *)

Module Examples.
Import JS ShipmentService Shipment PaymentService.

Definition box (l w h : float) : Dimensions :=
  {| dim_length := l; width := w; height := h |}.

Definition plain (kg : float) (d : Dimensions) : Package :=
  {| pkg_type := parcel; weight := kg; dimensions := d;
     isFragile := false; isPerishable := false; isHazardous := false |}.

(** A fragile and a hazardous parcel, 10 x 10 x 10 cm each. *)
Definition fragileParcel : Package :=
  {| pkg_type := parcel; weight := 0.20032051282051277;
     dimensions := box 10 10 10;
     isFragile := true; isPerishable := false; isHazardous := false |}.

Definition hazardousParcel : Package :=
  {| pkg_type := parcel; weight := 1;
     dimensions := box 10 10 10;
     isFragile := false; isPerishable := false; isHazardous := true |}.

(** A local shipment of one 0.7 kg parcel with basic insurance. *)
Definition smallInsured : ShipmentData :=
  {| shp_type := local;
     packages := [plain 0.7 (box 10 10 10)];
     insurance := Some {| ins_type := Some basic; coverage := 0 |};
     pickup_date := Some 0 |}.

(** A 1 kg parcel that is half a centimetre long. *)
Definition thinParcel : Package := plain 1 (box 0.5 10 10).

(** Thursday 1 January 1970, 00:00. *)
Definition thursday : Date := 0.

(** Monday 5 January 1970, 00:00. *)
Definition monday : Date := 4 * msPerDay.

Definition localParcelFrom (pickup : Date) : ShipmentData :=
  {| shp_type := local;
     packages := [plain 1 (box 10 10 10)];
     insurance := None;
     pickup_date := Some pickup |}.

(** A zone that changes its offset twice a year, here as Berlin does in
    2025: one hour ahead of UTC until 30 March, 01:00 UTC, two hours
    until 26 October, 01:00 UTC, one hour after that. A local time in
    the skipped or in the repeated hour is read with the offset before
    the change. *)
Definition springForward : Z := 1743296400000.
Definition fallBack : Z := 1761440400000.
Definition hour : Z := 3600000.

Definition berlin2025 (t : Z) (isUTC : bool) : Z :=
  if isUTC then
    if t <? springForward then hour
    else if t <? fallBack then 2 * hour
    else hour
  else
    if t <? springForward + 2 * hour then hour
    else if t <? fallBack + 2 * hour then 2 * hour
    else hour.

(** Tuesday 25 March 2025, 10:00 in Berlin. *)
Definition tuesdayInMarch : Date := 1742893200000.

(** Three local parcels, one of them fragile, picked up that day. *)
Definition threeParcels : ShipmentData :=
  {| shp_type := local;
     packages :=
       [plain 1 (box 10 10 10); fragileParcel; plain 2 (box 10 10 10)];
     insurance := None;
     pickup_date := Some tuesdayInMarch |}.

(** A stored payment in a given state. *)
Definition paymentIn (st : PaymentStatus.t) : Payment :=
  {| status := st; transactionId := None; paidAt := None;
     refundReason := None |}.

Definition shipmentWith (id : string) (owner : option string) (p : Payment)
    : Shipment.t :=
  {| _id := id;
     userId := owner;
     shp_status := ShipmentStatus.pending;
     cost := {| baseAmount := 7; cost_insurance := 0.07; vat := 0.53;
                total := 7.6 |};
     payment := p;
     timeline := [] |}.

(** A collection holding one shipment, at time 2000. *)
Definition worldWith (s : Shipment.t) : World :=
  {| shipments := {[ _id s := s ]}; clock := 2000; outbox := [] |}.

(** Shipment s1 of user u1: not paid yet, paid, with a failed payment. *)
Definition unpaid : Shipment.t :=
  shipmentWith "s1" (Some "u1") (paymentIn PaymentStatus.pending).

Definition paid : Shipment.t :=
  shipmentWith "s1" (Some "u1") (paymentIn PaymentStatus.completed).

Definition rejected : Shipment.t :=
  shipmentWith "s1" (Some "u1") (paymentIn PaymentStatus.failed).

Definition approve : VerificationDetails :=
  {| v_verified := true; v_notes := Some "seen on statement";
     v_rejectionReason := None; v_adminId := "admin" |}.

Definition refundAll : RefundDetails :=
  {| r_reason := "damaged"; r_amount := None; r_adminId := "admin" |}.

Definition refundAgain : RefundDetails :=
  {| r_reason := "asked twice"; r_amount := None; r_adminId := "admin" |}.

Definition bankForm : PaymentDetails :=
  {| p_accountName := Some "A. Sender"; p_bankName := Some "First Bank" |}.

Definition bankBody : PaymentController.InitializeBody :=
  {| PaymentController.b_shipmentId := "s1";
     PaymentController.b_accountName := Some "A. Sender";
     PaymentController.b_bankName := Some "First Bank" |}.

(** Collaborators that always deliver, and that never do. *)
Definition reliable (m : Message) : bool := true.

(** The paid shipment after the refund of [refundAll] at time 2000, and
    after the refund of [refundAgain] on top of it at time 3000. *)
Definition refundedOnce : Shipment.t :=
  Lifecycle.refundedDocument paid refundAll 2000.

Definition refundedTwice : Shipment.t :=
  Lifecycle.refundedDocument refundedOnce refundAgain 3000.

(** The owner asks to pay, an administrator approves, then refunds. *)
Definition requests : list (Date * PaymentController.Request) :=
  [ (3000, PaymentController.Initialize "u1" bankBody);
    (4000, PaymentController.Verify "admin" "s1" true None None);
    (5000, PaymentController.Refund "admin" "s1" "damaged" None) ].

End Examples.
(** ** Further concrete inputs *)

Module Samples.
Import JS ShipmentService Shipment PaymentService.

(** A local parcel within Nigeria, to be picked up on Friday
    28 March 2025 at 10:00 in Berlin, two days before the clocks go
    forward there; the request arrives on the Monday before, without a
    login, and names user u9 as the owner. *)
Definition mondayInMarch : Date := 1742806800000.
Definition fridayInMarch : Date := 1743152400000.

Definition localBody : ShipmentController.Body :=
  {| ShipmentController.req_type := local;
     ShipmentController.req_senderCountry := "NG";
     ShipmentController.req_recipientCountry := "NG";
     ShipmentController.req_packages :=
       Some [Examples.plain 1 (Examples.box 10 10 10)];
     ShipmentController.req_insurance := None;
     ShipmentController.req_pickupDate := Some fridayInMarch;
     ShipmentController.req_userId := Some "u9" |}.

(** What [createShipment] makes of it: delivery on Monday 31 March at
    10:00 in Berlin, which is 08:00 UTC. *)
Definition localShipment : ShipmentController.NewShipment :=
  {| ShipmentController.new_cost :=
       calculateShippingCost defaultService
         (ShipmentController.shipmentData localBody);
     ShipmentController.new_estimatedDate := Some 1743408000000;
     ShipmentController.new_isDraft := false;
     ShipmentController.new_userId := Some "u9" |}.

(** 5 February 2025. *)
Definition february5 : TrackingNumber.CalendarDate :=
  {| TrackingNumber.fullYear := 2025;
     TrackingNumber.month := 1;
     TrackingNumber.date := 5 |}.

(** A request without token, and collaborators that know nobody. *)
Definition anonymous : Auth.Request :=
  {| Auth.authorization := None; Auth.cookie_token := None |}.

Definition noToken (token : string) : option Auth.Decoded := None.
Definition noUser (id : string) : option Auth.User := None.

(** A request with the token of user u1, and collaborators that know
    the token and the user. *)
Definition withToken : Auth.Request :=
  {| Auth.authorization := Some "Bearer t1"; Auth.cookie_token := None |}.

Definition oneToken (token : string) : option Auth.Decoded :=
  if String.eqb token "t1" then
    Some {| Auth.decoded_id := "u1"; Auth.iat := 0 |}
  else None.

Definition oneUser (id : string) : option Auth.User :=
  if String.eqb id "u1" then
    Some {| Auth.user_id := "u1"; Auth.role := "user";
            Auth.isVerified := true; Auth.passwordChangedAt := None |}
  else None.

End Samples.

(** * Properties *)

(** ** Cost calculator *)

Section CostCalculator.
Import JS ShipmentService.

Lemma fold_left_map_add (f : Package -> float) (pkgs : list Package) (acc : float) :
  fold_left (fun total pkg => (total + f pkg)%float) pkgs acc
  = fold_left add (map f pkgs) acc.
Proof.
  revert acc. induction pkgs as [|p pkgs IH]; intros acc; simpl.
  - reflexivity.
  - apply IH.
Qed.

Lemma totalChargeableWeight_sum (pkgs : list Package) :
  calculateTotalChargeableWeight pkgs = Spec.totalChargeableWeight pkgs.
Proof. apply fold_left_map_add. Qed.

Lemma applySpecialHandling_surcharges (cost : float) (pkg : Package) :
  applySpecialHandling cost pkg = fold_left mul (Spec.surcharges pkg) cost.
Proof.
  unfold applySpecialHandling, Spec.surcharges.
  destruct (isFragile pkg), (isPerishable pkg), (isHazardous pkg); reflexivity.
Qed.

Lemma forEach_surcharges (pkgs : list Package) (cost : float) :
  fold_left applySpecialHandling pkgs cost
  = fold_left mul (flat_map Spec.surcharges pkgs) cost.
Proof.
  revert cost. induction pkgs as [|p pkgs IH]; intros cost; simpl.
  - reflexivity.
  - rewrite fold_left_app, <- applySpecialHandling_surcharges. apply IH.
Qed.

Lemma float_neq (x y : float) :
  (x =? y)%float = false -> (y =? y)%float = true -> x <> y.
Proof. intros H1 H2 E. subst x. congruence. Qed.

(** The worked example of the specification: one 10 kg parcel of
    50 x 40 x 30 cm, international, base rate 20: volumetric weight 12,
    base cost 12 * 20 * 1.5 = 360. *)
Example base_cost_international_360 :
  calculateBaseShippingCost defaultService international
    [Examples.plain 10 (Examples.box 50 40 30)] = 360%float.
Proof. vm_compute. reflexivity. Qed.

(** Swapping a fragile and a hazardous parcel changes the rounded base
    cost: 18.73 one way, 18.72 the other. *)
Example base_cost_order_sensitive :
  calculateBaseShippingCost defaultService local
    [Examples.fragileParcel; Examples.hazardousParcel] = 18.73%float
  /\ calculateBaseShippingCost defaultService local
    [Examples.hazardousParcel; Examples.fragileParcel] = 18.72%float.
Proof. split; vm_compute; reflexivity. Qed.

Lemma baseCost_refines (this : Service) (type : ShipmentType)
    (pkgs : list Package) :
  calculateBaseShippingCost this type pkgs
  = round2 (Spec.baseCostUnrounded this type pkgs).
Proof.
  unfold calculateBaseShippingCost, Spec.baseCostUnrounded.
  rewrite fold_left_app, forEach_surcharges, totalChargeableWeight_sum.
  destruct type; reflexivity.
Qed.

(** C1. For every shipment type and every list of packages (empty or
    not), [calculateBaseShippingCost] returns [round2 w], where [w] is the
    total chargeable weight times the base rate of the type, multiplied
    once by 1.5 for an international shipment and then, package by
    package in list order, by 1.2 for a fragile, 1.15 for a perishable and
    1.3 for a hazardous package. The factors compound on the running
    aggregate, and the rounded result does depend on the order of the
    packages. *)
Theorem calculateBaseShippingCost_spec :
  (forall (this : Service) (type : ShipmentType) (pkgs : list Package),
      calculateBaseShippingCost this type pkgs
      = round2 (Spec.baseCostUnrounded this type pkgs))
  /\ (exists (this : Service) (type : ShipmentType) (p q : Package),
        calculateBaseShippingCost this type [p; q]
        <> calculateBaseShippingCost this type [q; p]).
Proof.
  split.
  - exact baseCost_refines.
  - exists defaultService, local, Examples.fragileParcel, Examples.hazardousParcel.
    destruct base_cost_order_sensitive as [-> ->].
    apply float_neq; reflexivity.
Qed.

(** The invariant "total = baseAmount + insurance + vat" does not hold
    between the returned numbers: for a local 0.7 kg parcel with basic
    insurance the components are 7, 0.07 and 0.53, their sum in binary64
    is 7.6000000000000005, and the total is 7.6. *)
Example shipping_cost_small_insured :
  calculateShippingCost defaultService Examples.smallInsured
  = {| baseAmount := 7; cost_insurance := 0.07; vat := 0.53; total := 7.6 |}
  /\ (7 + 0.07 + 0.53)%float = 7.6000000000000005%float.
Proof. split; vm_compute; reflexivity. Qed.

(** C2, as stated, fails: for that shipment the total is not the sum of
    the three rounded components, neither as the binary64 sum that the
    program would compute nor as the exact sum of the numbers they
    denote. *)
Lemma total_is_not_the_sum :
  let c := calculateShippingCost defaultService Examples.smallInsured in
  total c <> (baseAmount c + cost_insurance c + vat c)%float
  /\ Spec.totalIsExactSum c = Some false.
Proof.
  destruct shipping_cost_small_insured as [E S].
  cbv zeta. rewrite E. cbn [total baseAmount cost_insurance vat].
  split.
  - rewrite S. apply float_neq; reflexivity.
  - vm_compute. reflexivity.
Qed.

(** C2, amended. [calculateShippingCost] returns four numbers, each the
    result of a rounding to two decimals: the base amount (the rounded
    base cost of C1), the insurance (0 for type none, otherwise the
    rounded product of the base amount and the insurance rate), the VAT
    (the rounded product of the base amount and the VAT rate) and the
    total, which is the binary64 sum of these three rounded components,
    rounded once more. *)
Theorem calculateShippingCost_components (this : Service) (data : ShipmentData) :
  let c := calculateShippingCost this data in
  baseAmount c
  = round2 (Spec.baseCostUnrounded this (shp_type data) (packages data))
  /\ cost_insurance c
     = match insuranceTypeOf data with
       | none => 0%float
       | basic => round2 (baseAmount c * insuranceRates_basic this)%float
       | premium => round2 (baseAmount c * insuranceRates_premium this)%float
       end
  /\ vat c = round2 (baseAmount c * vatRate this)%float
  /\ total c = round2 (baseAmount c + cost_insurance c + vat c)%float.
Proof.
  cbv zeta. unfold calculateShippingCost, calculateInsuranceCost.
  cbn [baseAmount cost_insurance vat total].
  split; [apply baseCost_refines|].
  split; [destruct (insuranceTypeOf data); reflexivity|].
  split; reflexivity.
Qed.

End CostCalculator.

(** ** Delivery estimator and pickup date *)

Section DeliveryEstimator.
Import JS ShipmentService.

(** The integer that the code computes for [Math.ceil(n / 2)] is the
    ceiling of the rational number. *)
Lemma ceil_half_spec (n : nat) : ceil_half (Z.of_nat n) = Spec.ceilOfHalf n.
Proof.
  unfold ceil_half, Spec.ceilOfHalf, Qround.Qceiling, Qround.Qfloor.
  cbn [QArith_base.Qopp QArith_base.Qnum QArith_base.Qden].
  generalize (Z.of_nat n). intros z.
  Z.div_mod_to_equations. lia.
Qed.

Lemma deliveryDays_spec (data : ShipmentData) :
  deliveryDays data = Spec.deliveryDays data.
Proof.
  unfold deliveryDays, Spec.deliveryDays, hasSpecialHandling.
  rewrite ceil_half_spec.
  destruct (shp_type data), (1 <? Z.of_nat (length (packages data))),
    (existsb _ (packages data)); lia.
Qed.

Variable LocalTZA : Z -> bool -> Z.

(** [setDate(getDate() + n)] moves a date by [n] calendar days. *)
Lemma setDate_getDate_plus_daysAfter (d : Date) (n : Z) :
  setDate_getDate_plus LocalTZA d n = Spec.daysAfter LocalTZA d n.
Proof.
  unfold setDate_getDate_plus, Spec.daysAfter, MakeDate, Day, TimeWithinDay.
  f_equal.
  pose proof (Z.div_mod (LocalTime LocalTZA d) msPerDay) as H.
  unfold msPerDay in *. lia.
Qed.

(** In terms of the time that passes, [n] calendar days are [n] times
    24 hours and the difference of the two offsets. *)
Lemma daysAfter_elapsed (d : Date) (n : Z) :
  Spec.daysAfter LocalTZA d n
  = d + n * msPerDay
    + (LocalTZA d true
       - LocalTZA (LocalTime LocalTZA d + n * msPerDay) false).
Proof. unfold Spec.daysAfter, UTC, LocalTime. lia. Qed.

Lemma getDay_range (d : Date) : 0 <= getDay LocalTZA d < 7.
Proof. unfold getDay, WeekDay. apply Z.mod_pos_bound. lia. Qed.

Section KeepsTheDay.

Hypothesis zone : keepsTheDay LocalTZA.

Lemma calendarDay_daysAfter (d : Date) (n : Z) :
  Spec.calendarDay LocalTZA (Spec.daysAfter LocalTZA d n)
  = Spec.calendarDay LocalTZA d + n.
Proof.
  unfold Spec.calendarDay, Spec.daysAfter. rewrite zone.
  unfold Day. rewrite Z.div_add by (unfold msPerDay; lia). reflexivity.
Qed.

Lemma getDay_calendarDay (d : Date) :
  getDay LocalTZA d = (Spec.calendarDay LocalTZA d + 4) mod 7.
Proof. reflexivity. Qed.

Lemma getDay_daysAfter (d : Date) (n : Z) :
  getDay LocalTZA (Spec.daysAfter LocalTZA d n) = (getDay LocalTZA d + n) mod 7.
Proof.
  pose proof (calendarDay_daysAfter d n) as H.
  unfold Spec.calendarDay in H.
  unfold getDay, WeekDay. rewrite H, Zplus_mod_idemp_l. f_equal. ring.
Qed.

Lemma calendarDay_iter (k : nat) (d : Date) :
  Spec.calendarDay LocalTZA
    (Nat.iter k (fun x => Spec.daysAfter LocalTZA x 1) d)
  = Spec.calendarDay LocalTZA d + Z.of_nat k.
Proof.
  induction k as [|k IH]; [cbn; lia|].
  rewrite Nat.iter_succ. cbv beta.
  rewrite calendarDay_daysAfter, IH. lia.
Qed.

End KeepsTheDay.

Lemma isWeekend_spec (d : Date) :
  isWeekend LocalTZA (Some d) = true
  <-> getDay LocalTZA d = 0 \/ getDay LocalTZA d = 6.
Proof.
  unfold isWeekend. cbn. rewrite orb_true_iff, !Z.eqb_eq. reflexivity.
Qed.

Lemma isWeekend_false (d : Date) :
  isWeekend LocalTZA (Some d) = false
  <-> getDay LocalTZA d <> 0 /\ getDay LocalTZA d <> 6.
Proof.
  unfold isWeekend. cbn. rewrite orb_false_iff, !Z.eqb_neq. reflexivity.
Qed.

(** The weekend loop, started on any date with at least three units of
    fuel, ends after [k <= 2] steps of one day on the first date that is
    not on a weekend. *)
Lemma weekend_loop (fuel : nat) (raw : Date) :
  keepsTheDay LocalTZA ->
  (3 <= fuel)%nat ->
  let step := fun x => Spec.daysAfter LocalTZA x 1 in
  exists k : nat,
    while_loop fuel (isWeekend LocalTZA)
      (fun d => setDate_getDate_plus_of LocalTZA d 1) (Some raw)
    = Some (Some (Nat.iter k step raw))
    /\ (k <= 2)%nat
    /\ isWeekend LocalTZA (Some (Nat.iter k step raw)) = false
    /\ (forall j, (j < k)%nat ->
          isWeekend LocalTZA (Some (Nat.iter j step raw)) = true)
    /\ (getDay LocalTZA raw = 6 -> k = 2%nat)
    /\ (getDay LocalTZA raw = 0 -> k = 1%nat).
Proof.
  intros zone Hfuel step.
  destruct fuel as [|[|[|fuel]]]; try lia.
  pose proof (getDay_range raw) as Hr.
  assert (H1 : getDay LocalTZA (step raw) = (getDay LocalTZA raw + 1) mod 7)
    by apply (getDay_daysAfter zone).
  assert (H2 : getDay LocalTZA (step (step raw))
               = (getDay LocalTZA (step raw) + 1) mod 7)
    by apply (getDay_daysAfter zone).
  cbn [while_loop setDate_getDate_plus_of option_map].
  rewrite !setDate_getDate_plus_daysAfter. subst step. cbv beta in H1, H2.
  destruct (isWeekend LocalTZA (Some raw)) eqn:W0.
  - apply isWeekend_spec in W0.
    destruct (isWeekend LocalTZA (Some (Spec.daysAfter LocalTZA raw 1))) eqn:W1.
    + apply isWeekend_spec in W1. rewrite H1 in W1.
      assert (Hsat : getDay LocalTZA raw = 6).
      { destruct W0 as [E|E]; [|exact E]. rewrite E in W1.
        change ((0 + 1) mod 7) with 1 in W1. lia. }
      assert (W2 : isWeekend LocalTZA
                     (Some (Spec.daysAfter LocalTZA
                              (Spec.daysAfter LocalTZA raw 1) 1)) = false).
      { apply isWeekend_false. rewrite H2, H1, Hsat.
        change (((6 + 1) mod 7 + 1) mod 7) with 1. lia. }
      rewrite W2. exists 2%nat. cbn [Nat.iter nat_rect].
      repeat split; try lia; try assumption.
      intros j Hj. assert (j = 0 \/ j = 1)%nat as [-> | ->] by lia.
      * apply isWeekend_spec. cbn [Nat.iter nat_rect]. tauto.
      * apply isWeekend_spec. cbn [Nat.iter nat_rect]. rewrite H1. tauto.
    + exists 1%nat. cbn [Nat.iter nat_rect]. repeat split; try lia; try assumption.
      * intros j Hj. assert (j = 0)%nat as -> by lia.
        apply isWeekend_spec. cbn [Nat.iter nat_rect]. tauto.
      * intros Hsat. apply isWeekend_false in W1. rewrite H1, Hsat in W1.
        change ((6 + 1) mod 7) with 0 in W1. lia.
  - exists 0%nat. cbn [Nat.iter nat_rect]. repeat split; try lia; try assumption.
    + apply isWeekend_false in W0. lia.
    + apply isWeekend_false in W0. lia.
Qed.

(** What [estimateDeliveryDate] returns for a pickup date: the raw date
    moved on by [k] steps of one day, [k] at most 2. *)
Lemma estimateDeliveryDate_run (fuel : nat) (data : ShipmentData)
    (pickup : Date) :
  keepsTheDay LocalTZA ->
  (3 <= fuel)%nat ->
  pickup_date data = Some pickup ->
  let step := fun x => Spec.daysAfter LocalTZA x 1 in
  let raw := Spec.daysAfter LocalTZA pickup (Spec.deliveryDays data) in
  exists k : nat,
    estimateDeliveryDate LocalTZA fuel data = Some (Some (Nat.iter k step raw))
    /\ (k <= 2)%nat
    /\ isWeekend LocalTZA (Some (Nat.iter k step raw)) = false
    /\ (forall j, (j < k)%nat ->
          isWeekend LocalTZA (Some (Nat.iter j step raw)) = true)
    /\ (getDay LocalTZA raw = 6 -> k = 2%nat).
Proof.
  intros zone Hfuel Hpickup step raw.
  unfold estimateDeliveryDate. rewrite Hpickup.
  cbn [setDate_getDate_plus_of option_map].
  rewrite setDate_getDate_plus_daysAfter, deliveryDays_spec. fold raw.
  destruct (weekend_loop fuel raw zone Hfuel)
    as (k & Hloop & Hk & Hend & Hbefore & Hsat & _).
  exists k. repeat split; assumption.
Qed.

(** C5. In a time zone that keeps the day, with enough fuel for the
    weekend loop (three tests suffice), [estimateDeliveryDate] returns
    for a shipment with a pickup date a date [d]: the pickup date moved
    by [deliveryDays] calendar days (5 for international, 2 for local,
    plus ceil(n/2) for n > 1 packages, plus 1 if any package is fragile,
    perishable or hazardous), then moved forward one day at a time, [k]
    times, while it falls on a Saturday or Sunday. [d] is never on a
    weekend, and a raw date on a Saturday gives the following Monday. *)
Theorem estimateDeliveryDate_spec (fuel : nat) (data : ShipmentData)
    (pickup : Date) :
  keepsTheDay LocalTZA ->
  (3 <= fuel)%nat ->
  pickup_date data = Some pickup ->
  let step := fun x => Spec.daysAfter LocalTZA x 1 in
  let raw := Spec.daysAfter LocalTZA pickup (Spec.deliveryDays data) in
  exists (d : Date) (k : nat),
    estimateDeliveryDate LocalTZA fuel data = Some (Some d)
    /\ d = Nat.iter k step raw
    /\ Spec.calendarDay LocalTZA d
       = Spec.calendarDay LocalTZA pickup + Spec.deliveryDays data + Z.of_nat k
    /\ (forall j, (j < k)%nat ->
          isWeekend LocalTZA (Some (Nat.iter j step raw)) = true)
    /\ getDay LocalTZA d <> 0 /\ getDay LocalTZA d <> 6
    /\ (getDay LocalTZA raw = 6 -> k = 2%nat /\ getDay LocalTZA d = 1).
Proof.
  intros zone Hfuel Hpickup step raw.
  destruct (estimateDeliveryDate_run fuel data pickup zone Hfuel Hpickup)
    as (k & Hrun & Hk & Hend & Hbefore & Hsat).
  fold step raw in Hrun, Hend, Hbefore, Hsat.
  exists (Nat.iter k step raw), k.
  apply isWeekend_false in Hend. destruct Hend as [Hsun Hsatd].
  split; [exact Hrun|]. split; [reflexivity|].
  split.
  { unfold step. rewrite (calendarDay_iter zone). unfold raw.
    rewrite (calendarDay_daysAfter zone). reflexivity. }
  split; [exact Hbefore|]. split; [exact Hsun|]. split; [exact Hsatd|].
  intros H. split; [exact (Hsat H)|].
  rewrite (Hsat H). cbn [Nat.iter nat_rect]. unfold step.
  rewrite !(getDay_daysAfter zone), H. reflexivity.
Qed.

(** When [validatePickupDate] accepts. *)
Lemma validatePickupDate_ok (now : Date) (date : option Date) :
  validatePickupDate LocalTZA now date = Ok tt
  <-> forall d, date = Some d ->
        now <= d <= Spec.daysAfter LocalTZA now 30
        /\ getDay LocalTZA d <> 0 /\ getDay LocalTZA d <> 6.
Proof.
  unfold validatePickupDate. rewrite setDate_getDate_plus_daysAfter.
  destruct date as [date|]; cbn [Date_lt getDay_of option_map is_number].
  2:{ split; [intros _ d; discriminate | reflexivity]. }
  destruct (Z.ltb_spec date now).
  { split; [discriminate | intros H'; destruct (H' date eq_refl); lia]. }
  destruct (Z.ltb_spec (Spec.daysAfter LocalTZA now 30) date).
  { split; [discriminate | intros H'; destruct (H' date eq_refl); lia]. }
  destruct (Z.eqb_spec (getDay LocalTZA date) 0);
    destruct (Z.eqb_spec (getDay LocalTZA date) 6); cbn [orb];
    (split; [try discriminate; intros _ d [= <-]; lia
            | try reflexivity; intros H'; destruct (H' date eq_refl); lia]).
Qed.

Lemma validatePickupDate_status (now : Date) (date : option Date) (e : AppError) :
  validatePickupDate LocalTZA now date = Err e -> statusCode e = 400.
Proof.
  unfold validatePickupDate.
  repeat match goal with
         | |- context [if ?c then _ else _] => destruct c
         end; intros [= <-]; reflexivity.
Qed.

(** C9. [validatePickupDate] rejects, with status 400, exactly when the
    date is before now, more than 30 days after now, or on a Saturday or
    Sunday; it accepts every weekday date from now to 30 days ahead. The
    30 days are calendar days in the time zone of the host: the limit is
    the same time of day on the thirtieth day after today, which is 30
    times 24 hours ahead unless the offset of the zone changes in
    between. A value that is no date at all is none of the three and is
    accepted. It is a function of its arguments and changes nothing. *)
Theorem validatePickupDate_spec (now : Date) (date : option Date) :
  let maxDate := Spec.daysAfter LocalTZA now 30 in
  (validatePickupDate LocalTZA now date = Ok tt
   <-> forall d, date = Some d ->
         now <= d <= maxDate
         /\ getDay LocalTZA d <> 0 /\ getDay LocalTZA d <> 6)
  /\ ((exists e, validatePickupDate LocalTZA now date = Err e)
      <-> exists d, date = Some d
            /\ (d < now \/ maxDate < d
                \/ getDay LocalTZA d = 0 \/ getDay LocalTZA d = 6))
  /\ (forall e, validatePickupDate LocalTZA now date = Err e -> statusCode e = 400)
  /\ maxDate
     = now + 30 * msPerDay
       + (LocalTZA now true
          - LocalTZA (LocalTime LocalTZA now + 30 * msPerDay) false).
Proof.
  intros maxDate.
  pose proof (validatePickupDate_ok now date) as Hok. fold maxDate in Hok.
  split; [exact Hok|].
  split; [|split; [apply validatePickupDate_status | apply daysAfter_elapsed]].
  destruct (validatePickupDate LocalTZA now date) as [[]|e] eqn:E.
  - split; [intros [e He]; discriminate|].
    intros (d & Hd & Hbad).
    destruct (proj1 Hok eq_refl d Hd) as (H1 & H2 & H3). lia.
  - split; [|intros _; eauto]. intros _.
    destruct date as [d|].
    2:{ assert (H : @Err AppError unit e = Ok tt)
          by (apply Hok; intros d; discriminate).
        discriminate. }
    exists d. split; [reflexivity|].
    destruct (Z_lt_dec d now); [lia|].
    destruct (Z_lt_dec maxDate d); [lia|].
    destruct (Z.eq_dec (getDay LocalTZA d) 0); [lia|].
    destruct (Z.eq_dec (getDay LocalTZA d) 6); [lia|].
    assert (H : @Err AppError unit e = Ok tt).
    { apply Hok. intros d' [= <-]. lia. }
    discriminate.
Qed.

End DeliveryEstimator.
(** The zone of the examples keeps the day: the hour that it skips in
    March lies between 2 and 3 o'clock. *)
Lemma berlin2025_keepsTheDay : JS.keepsTheDay Examples.berlin2025.
Proof.
  intros t.
  unfold JS.LocalTime, JS.UTC, JS.Day, Examples.berlin2025,
    Examples.springForward, Examples.fallBack, Examples.hour, JS.msPerDay.
  repeat match goal with
         | |- context [?a <? ?b] =>
             let H := fresh in
             destruct (a <? b) eqn:H;
             [apply Z.ltb_lt in H | apply Z.ltb_ge in H]
         end; try lia; try (f_equal; lia).
  Z.div_mod_to_equations. lia.
Qed.

Lemma fixedOffset_keepsTheDay (offset : Z) :
  JS.keepsTheDay (JS.fixedOffset offset).
Proof.
  intros t. unfold JS.LocalTime, JS.UTC, JS.fixedOffset. f_equal. lia.
Qed.

(** Without daylight saving, [n] days are [n] times 24 hours. *)
Lemma daysAfter_fixedOffset (offset : Z) (d : JS.Date) (n : Z) :
  Spec.daysAfter (JS.fixedOffset offset) d n = d + n * JS.msPerDay.
Proof.
  unfold Spec.daysAfter, JS.UTC, JS.LocalTime, JS.fixedOffset. lia.
Qed.

(** Pickup on a Monday, one plain local parcel: delivery two days later,
    on the Wednesday. *)
Example estimate_from_monday :
  JS.WeekDay Examples.monday = 1
  /\ ShipmentService.estimateDeliveryDate (JS.fixedOffset 0) 3
       (Examples.localParcelFrom Examples.monday)
     = Some (Some (6 * JS.msPerDay))
  /\ JS.WeekDay (6 * JS.msPerDay) = 3.
Proof. repeat split. Qed.

(** Pickup on a Thursday: the raw date is the Saturday, the estimate the
    Monday after it. *)
Example estimate_from_thursday :
  JS.WeekDay (Examples.thursday + 2 * JS.msPerDay) = 6
  /\ ShipmentService.estimateDeliveryDate (JS.fixedOffset 0) 3
       (Examples.localParcelFrom Examples.thursday)
     = Some (Some (4 * JS.msPerDay))
  /\ JS.WeekDay (4 * JS.msPerDay) = 1.
Proof. repeat split. Qed.

(** Three parcels, one fragile, picked up in Berlin on Tuesday 25 March
    2025 at 10:00: 2 + 2 + 1 days give Sunday 30 March, the day of the
    change to summer time, and the estimate is Monday 31 March at 10:00,
    which is six days less one hour after the pickup. *)
Example estimate_over_the_change_of_offset :
  ShipmentService.deliveryDays Examples.threeParcels = 5
  /\ ShipmentService.estimateDeliveryDate Examples.berlin2025 3
       Examples.threeParcels
     = Some (Some (Examples.tuesdayInMarch + 6 * JS.msPerDay - Examples.hour))
  /\ JS.getDay Examples.berlin2025
       (Examples.tuesdayInMarch + 6 * JS.msPerDay - Examples.hour) = 1.
Proof. repeat split. Qed.

(** An invalid pickup date gives an invalid estimate, at once. *)
Example estimate_from_invalid_date :
  ShipmentService.estimateDeliveryDate Examples.berlin2025 1
    {| ShipmentService.shp_type := ShipmentService.local;
       ShipmentService.packages := [];
       ShipmentService.insurance := None;
       ShipmentService.pickup_date := None |}
  = Some None.
Proof. reflexivity. Qed.

(** In Berlin on 10 March 2025 at 13:00, the last pickup time is
    9 April at 13:00, which is an hour less than 30 times 24 hours
    ahead: half an hour later the date is rejected. *)
Example pickup_limit_over_the_change_of_offset :
  let now := 1741608000000 in
  Spec.daysAfter Examples.berlin2025 now 30 = now + 30 * JS.msPerDay - Examples.hour
  /\ ShipmentService.validatePickupDate Examples.berlin2025 now
       (Some (now + 30 * JS.msPerDay - Examples.hour))
     = Ok tt
  /\ ShipmentService.validatePickupDate Examples.berlin2025 now
       (Some (now + 30 * JS.msPerDay - 1800000))
     = Err (mkAppError
              "Pickup date cannot be more than 30 days in the future" 400).
Proof. repeat split. Qed.

Lemma estimateDeliveryDate_spec_witness :
  JS.keepsTheDay Examples.berlin2025
  /\ (3 <= 3)%nat
  /\ ShipmentService.pickup_date Examples.threeParcels
     = Some Examples.tuesdayInMarch
  /\ let data := Examples.threeParcels in
     let step := fun x => Spec.daysAfter Examples.berlin2025 x 1 in
     let raw :=
       Spec.daysAfter Examples.berlin2025 Examples.tuesdayInMarch
         (Spec.deliveryDays data) in
     exists (d : JS.Date) (k : nat),
       ShipmentService.estimateDeliveryDate Examples.berlin2025 3 data
       = Some (Some d)
       /\ d = Nat.iter k step raw
       /\ Spec.calendarDay Examples.berlin2025 d
          = Spec.calendarDay Examples.berlin2025 Examples.tuesdayInMarch
            + Spec.deliveryDays data + Z.of_nat k
       /\ (forall j, (j < k)%nat ->
             ShipmentService.isWeekend Examples.berlin2025
               (Some (Nat.iter j step raw)) = true)
       /\ JS.getDay Examples.berlin2025 d <> 0
       /\ JS.getDay Examples.berlin2025 d <> 6
       /\ (JS.getDay Examples.berlin2025 raw = 6 ->
           k = 2%nat /\ JS.getDay Examples.berlin2025 d = 1).
Proof.
  split; [exact berlin2025_keepsTheDay|].
  split; [lia|]. split; [reflexivity|].
  apply (estimateDeliveryDate_spec Examples.berlin2025 3 Examples.threeParcels
           Examples.tuesdayInMarch berlin2025_keepsTheDay).
  - lia.
  - reflexivity.
Defined.

(** ** Package validation *)

Section PackageValidation.
Import JS ShipmentService.

Lemma number_of_maxDimension : number_of_Z maxDimension = 150%float.
Proof. reflexivity. Qed.

Lemma number_of_maxWeight (pkg : Package) :
  number_of_Z (maxWeight pkg)
  = match pkg_type pkg with documents => 5%float | _ => 70%float end.
Proof. unfold maxWeight. destruct (pkg_type pkg); reflexivity. Qed.

Lemma validatePackage_ok (pkg : Package) (index : nat) :
  validatePackage pkg index = Ok tt <-> Spec.offending pkg = false.
Proof.
  unfold validatePackage, Spec.offending. rewrite number_of_maxDimension.
  destruct (weight pkg <=? 0)%float,
    (number_of_Z (maxWeight pkg) <? weight pkg)%float,
    (dim_length (dimensions pkg) <=? 0)%float,
    (width (dimensions pkg) <=? 0)%float,
    (height (dimensions pkg) <=? 0)%float,
    (150 <? dim_length (dimensions pkg))%float,
    (150 <? width (dimensions pkg))%float,
    (150 <? height (dimensions pkg))%float; cbn; split; congruence.
Qed.

Lemma validatePackage_err (pkg : Package) (index : nat) (e : AppError) :
  validatePackage pkg index = Err e ->
  statusCode e = 400
  /\ exists c, Spec.violates pkg c
       /\ message e = "Package " ++ string_of_nat (index + 1) ++ ": " ++ c.
Proof.
  unfold validatePackage, Spec.violates.
  rewrite number_of_maxDimension, number_of_maxWeight.
  destruct (weight pkg <=? 0)%float eqn:W0.
  { intros [= <-]. split; [reflexivity|]. eexists. split; [left; eauto|]. reflexivity. }
  destruct ((dim_length (dimensions pkg) <=? 0)%float
            || (width (dimensions pkg) <=? 0)%float
            || (height (dimensions pkg) <=? 0)%float)%bool eqn:D0.
  { intros [= <-]. split; [reflexivity|]. eexists.
    split; [right; left; eauto|]. reflexivity. }
  destruct ((150 <? dim_length (dimensions pkg))%float
            || (150 <? width (dimensions pkg))%float
            || (150 <? height (dimensions pkg))%float)%bool eqn:D1.
  { intros [= <-]. split; [reflexivity|]. eexists.
    split; [right; right; left; eauto|]. reflexivity. }
  unfold maxWeight.
  destruct (pkg_type pkg) eqn:T;
    match goal with
    | |- context [(?m <? weight pkg)%float] =>
        destruct (m <? weight pkg)%float eqn:W1
    end; try discriminate;
    intros [= <-]; (split; [reflexivity|]); eexists;
    (split; [do 3 right|reflexivity]).
  - right. split; [reflexivity|]. split; [discriminate|reflexivity].
  - left. split; [reflexivity|]. split; [reflexivity|reflexivity].
  - right. split; [reflexivity|]. split; [discriminate|reflexivity].
  - right. split; [reflexivity|]. split; [discriminate|reflexivity].
  - right. split; [reflexivity|]. split; [discriminate|reflexivity].
Qed.

Lemma forEach_validatePackage_ok (l : list Package) (index : nat) :
  forEach validatePackage l index = Ok tt
  <-> Forall (fun p => Spec.offending p = false) l.
Proof.
  revert index. induction l as [|p l IH]; intros index; cbn [forEach].
  - split; [constructor | reflexivity].
  - destruct (validatePackage p index) as [[]|e] eqn:Hp.
    + rewrite IH. apply validatePackage_ok in Hp. split.
      * intros Hl. constructor; assumption.
      * intros Hl. inversion Hl; assumption.
    + split; [discriminate|]. intros Hl. inversion Hl as [|? ? Hp' _]; subst.
      apply (validatePackage_ok p index) in Hp'. congruence.
Qed.

Lemma forEach_validatePackage_err (l : list Package) (index : nat) (e : AppError) :
  forEach validatePackage l index = Err e ->
  exists (j : nat) (p : Package),
    l !! j = Some p
    /\ (forall j' p', (j' < j)%nat -> l !! j' = Some p' -> Spec.offending p' = false)
    /\ validatePackage p (index + j) = Err e.
Proof.
  revert index. induction l as [|p l IH]; intros index; cbn [forEach].
  - discriminate.
  - destruct (validatePackage p index) as [[]|e'] eqn:Hp.
    + intros H. destruct (IH _ H) as (j & q & Hq & Hbefore & Hv).
      exists (S j), q. split; [exact Hq|]. split.
      * intros [|j'] p' Hlt Hp'.
        -- cbn in Hp'. injection Hp' as <-. apply (validatePackage_ok p index), Hp.
        -- apply (Hbefore j'); [lia | exact Hp'].
      * replace (index + S j)%nat with (S index + j)%nat by lia. exact Hv.
    + intros [= ->]. exists 0%nat, p. split; [reflexivity|]. split.
      * intros j' p' Hlt. lia.
      * rewrite Nat.add_0_r. exact Hp.
Qed.

(** A dimension of half a centimetre is outside the range 1-150 of the
    data model, and [validatePackages] accepts the package. *)
Lemma validatePackages_accepts_half_centimetre :
  validatePackages (Some [Examples.thinParcel]) = Ok tt
  /\ Spec.dimensionInRange (dim_length (dimensions Examples.thinParcel)) = false.
Proof. split; reflexivity. Qed.

(** C8, amended. [validatePackages] accepts exactly the lists of 1 to 10
    packages none of which is offending, where a package is offending
    when its weight is <= 0 or above its ceiling (5 kg for documents, 70
    kg otherwise) or one of its dimensions is <= 0 or above 150 cm. Every
    rejection is a single error with status 400: for a missing or empty
    list, for more than 10 packages, or for the first offending package,
    whose 1-based index and one broken constraint the message names. *)
Theorem validatePackages_spec (pkgs : option (list Package)) :
  (validatePackages pkgs = Ok tt
   <-> exists l, pkgs = Some l /\ (1 <= length l <= 10)%nat
         /\ Forall (fun p => Spec.offending p = false) l)
  /\ ((exists e, validatePackages pkgs = Err e)
      <-> pkgs = None
          \/ exists l, pkgs = Some l
               /\ (l = [] \/ (10 < length l)%nat
                   \/ Exists (fun p => Spec.offending p = true) l))
  /\ (forall e, validatePackages pkgs = Err e ->
        statusCode e = 400
        /\ ((message e = "At least one package is required"
             /\ (pkgs = None \/ pkgs = Some []))
            \/ (message e = "Maximum 10 packages allowed per shipment"
                /\ exists l, pkgs = Some l /\ (10 < length l)%nat)
            \/ (exists (l : list Package) (j : nat) (p : Package) (c : string),
                  pkgs = Some l /\ l !! j = Some p
                  /\ (forall j' p', (j' < j)%nat -> l !! j' = Some p' ->
                        Spec.offending p' = false)
                  /\ Spec.offending p = true
                  /\ Spec.violates p c
                  /\ message e
                     = "Package " ++ string_of_nat (j + 1) ++ ": " ++ c))).
Proof.
  destruct pkgs as [l|]; cbn [validatePackages].
  2:{ split; [|split].
      - split; [discriminate | intros (l & H & _); discriminate].
      - split; [intros _; left; reflexivity | intros _; eauto].
      - intros e [= <-]. split; [reflexivity|]. left. split; [reflexivity|].
        left; reflexivity. }
  destruct (length l =? 0)%nat eqn:H0.
  { apply Nat.eqb_eq in H0. destruct l; [|discriminate]. split; [|split].
    - split; [discriminate|]. intros (l & [= <-] & Hlen & _). cbn in Hlen. lia.
    - split; [|intros _; eauto]. intros _. right. exists []. eauto.
    - intros e [= <-]. split; [reflexivity|]. left. split; [reflexivity|].
      right; reflexivity. }
  apply Nat.eqb_neq in H0.
  destruct (10 <? length l)%nat eqn:H10.
  { apply Nat.ltb_lt in H10. split; [|split].
    - split; [discriminate|]. intros (l' & [= <-] & Hlen & _). lia.
    - split; [|intros _; eauto]. intros _. right. exists l. eauto.
    - intros e [= <-]. split; [reflexivity|]. right; left.
      split; [reflexivity|]. eauto. }
  apply Nat.ltb_ge in H10.
  split; [|split].
  - rewrite forEach_validatePackage_ok. split.
    + intros Hall. exists l. repeat split; [lia | lia | exact Hall].
    + intros (l' & [= <-] & _ & Hall). exact Hall.
  - split.
    + intros [e He]. right. exists l. split; [reflexivity|]. right; right.
      destruct (forEach_validatePackage_err _ _ _ He) as (j & p & Hj & _ & Hp).
      apply Exists_exists. exists p. split.
      * eapply list_elem_of_lookup_2. exact Hj.
      * destruct (Spec.offending p) eqn:Hoff; [reflexivity|].
        apply (validatePackage_ok p (0 + j)) in Hoff. congruence.
    + intros [|(l' & [= <-] & [-> | [Hlen | Hex]])]; try discriminate.
      * cbn in H0. lia.
      * lia.
      * destruct (forEach validatePackage l 0) as [[]|e] eqn:Hfe; [|eauto].
        apply forEach_validatePackage_ok in Hfe.
        apply Exists_exists in Hex. destruct Hex as (p & Hin & Hoff).
        rewrite Forall_forall in Hfe.
        rewrite (Hfe p Hin) in Hoff. discriminate.
  - intros e He.
    destruct (forEach_validatePackage_err _ _ _ He) as (j & p & Hj & Hbefore & Hp).
    destruct (validatePackage_err _ _ _ Hp) as (Hcode & c & Hc & Hmsg).
    split; [exact Hcode|]. right; right. exists l, j, p, c.
    repeat split; try assumption.
    destruct (Spec.offending p) eqn:Hoff; [reflexivity|].
    apply (validatePackage_ok p (0 + j)) in Hoff. congruence.
Qed.

End PackageValidation.

(** ** Payment lifecycle *)

Section PaymentLifecycle.
Import JS Shipment PaymentService.

Variable delivers : Message -> bool.

(** *** Loading and saving *)

Lemma to_string_not_awaiting (st : PaymentStatus.t) :
  String.eqb (PaymentStatus.to_string st) "awaiting_verification" = false.
Proof. destruct st; reflexivity. Qed.

Lemma to_string_completed (st : PaymentStatus.t) :
  String.eqb (PaymentStatus.to_string st) "completed" = true
  <-> st = PaymentStatus.completed.
Proof. destruct st; cbn; split; congruence. Qed.

Lemma to_string_pending (st : PaymentStatus.t) :
  String.eqb (PaymentStatus.to_string st) "pending" = true
  <-> st = PaymentStatus.pending.
Proof. destruct st; cbn; split; congruence. Qed.

Lemma of_string_to_string (st : PaymentStatus.t) :
  PaymentStatus.of_string (PaymentStatus.to_string st) = Some st.
Proof. destruct st; reflexivity. Qed.

(** The enum refuses the status that [initializeBankTransfer] assigns. *)
Lemma of_string_awaiting :
  PaymentStatus.of_string "awaiting_verification" = None.
Proof. reflexivity. Qed.

(** A document that is saved as it was loaded is written as it was. *)
Lemma validated_hydrate (s : Shipment.t) :
  Document.validated (Document.hydrate s) = Some s.
Proof.
  destruct s as [sid uid sst scost [st tx paid reason] tl].
  unfold Document.validated, Document.hydrate.
  cbn [Document.status Document.payment status payment].
  rewrite of_string_to_string. reflexivity.
Qed.

(** Unfold one service call down to the world it leaves. *)
Ltac run_service :=
  unfold verifyBankTransfer, processRefund, initializeBankTransfer,
    getPaymentStatus, addTimelineEntry, createNotification, User_findById,
    bind, findById, new_Date, save, throw, reject, ret.

(** Run the assignments, the validators and the string comparisons;
    the collection is left alone. *)
Ltac step :=
  cbv beta iota zeta delta
    [option_map Document.hydrate Document.validated Document.cast
     PaymentStatus.of_string PaymentStatus.to_string
     String.eqb Ascii.eqb Bool.eqb negb orb andb is_true missing
     Document.update_payment Document.set_payment Document.set_shp_status
     Document.set_timeline Document.set_status Document.set_verifiedAt
     Document.set_verifiedBy Document.set_notes Document.set_rejectionReason
     Document.set_refunded Document.set_refundedAt Document.set_refundedBy
     Document.set_refundReason Document.set_refundAmount
     Document._id Document.userId Document.shp_status Document.cost
     Document.payment Document.timeline
     Document.status Document.transactionId Document.paidAt
     Document.refundReason Document.verifiedAt Document.verifiedBy
     Document.notes Document.rejectionReason Document.refunded
     Document.refundedAt Document.refundedBy Document.refundAmount
     Document.lit_status
     _id userId shp_status cost payment timeline
     status transactionId paidAt refundReason
     NotificationService.createNotification NotificationService.invalidPaths
     NotificationService.notificationTemplates
     NotificationService.notificationTypes NotificationService.or_else
     NotificationService.n_userId NotificationService.n_type
     NotificationService.n_title NotificationService.n_message
     NotificationService.template_title NotificationService.template_message
     JSString.truthy existsb app
     shipments clock outbox fst snd
     await sendPaymentUpdate bind ret reject throw].

Lemma verifyBankTransfer_not_found (id : string) (d : VerificationDetails)
    (w : World) :
  shipments w !! id = None ->
  verifyBankTransfer delivers id d w
  = (w, Err (Thrown (mkAppError "Shipment not found" 404))).
Proof. intros H. run_service. rewrite H. reflexivity. Qed.

(** No stored payment awaits verification: the guard of
    [verifyBankTransfer] stops every call that finds its shipment. *)
Lemma verifyBankTransfer_found (id : string) (d : VerificationDetails)
    (w : World) (s : Shipment.t) :
  shipments w !! id = Some s ->
  verifyBankTransfer delivers id d w
  = (w, Err (Thrown (mkAppError "Payment is not awaiting verification" 400))).
Proof.
  intros H. run_service. rewrite H.
  cbn [option_map Document.hydrate Document.status Document.payment].
  rewrite to_string_not_awaiting. reflexivity.
Qed.

Lemma processRefund_not_found (id : string) (d : RefundDetails) (w : World) :
  shipments w !! id = None ->
  processRefund delivers id d w
  = (w, Err (Thrown (mkAppError "Shipment not found" 404))).
Proof. intros H. run_service. rewrite H. reflexivity. Qed.

Lemma processRefund_not_completed (id : string) (d : RefundDetails)
    (w : World) (s : Shipment.t) :
  shipments w !! id = Some s ->
  status (payment s) <> PaymentStatus.completed ->
  processRefund delivers id d w
  = (w, Err (Thrown (mkAppError "Payment must be completed to process refund" 400))).
Proof.
  intros H Hst. run_service. rewrite H.
  cbn [option_map Document.hydrate Document.status Document.payment].
  destruct (status (payment s)); try congruence; reflexivity.
Qed.

(** A refund of a completed payment is stored, by the two calls of
    [save], and then fails on its notification; the flag that the
    guard against a second refund reads is not loaded, so the guard
    lets every such call through. *)
Lemma processRefund_commits (id : string) (d : RefundDetails)
    (w : World) (s : Shipment.t) :
  shipments w !! id = Some s ->
  status (payment s) = PaymentStatus.completed ->
  processRefund delivers id d w
  = ({| shipments :=
          <[_id s := Lifecycle.refundedDocument s d (clock w)]> (shipments w);
        clock := clock w;
        outbox := outbox w |},
     Err (ValidationError "Notification"
            (Lifecycle.refundNotificationPaths (userId s)))).
Proof.
  intros H Hst. run_service. rewrite H.
  destruct s as [sid uid sst scost [st tx paid reason] tl].
  cbn [status payment] in Hst. subst st.
  unfold Lifecycle.refundedDocument, Lifecycle.refundNotificationPaths.
  destruct uid as [u|]; step; rewrite insert_insert_eq; reflexivity.
Qed.

Lemma initializeBankTransfer_missing_details (shipment : Document.t)
    (d : PaymentDetails) (w : World) :
  missing (p_accountName d) || missing (p_bankName d) = true ->
  initializeBankTransfer delivers shipment d w
  = (w, Err (Thrown (mkAppError "Account name and bank name are required" 400))).
Proof. intros H. run_service. rewrite H. reflexivity. Qed.

(** With both names given, [initializeBankTransfer] assigns a payment
    whose status the enum of the schema refuses: [save] rejects, nothing
    is written and nothing is sent. *)
Lemma initializeBankTransfer_refused (shipment : Document.t)
    (d : PaymentDetails) (w : World) :
  missing (p_accountName d) || missing (p_bankName d) = false ->
  initializeBankTransfer delivers shipment d w
  = (w, Err (ValidationError "Shipment" ["payment.status"])).
Proof. intros H. run_service. rewrite H. reflexivity. Qed.

(** C10. The rejections of [verifyBankTransfer] and [processRefund] that
    come from their checks - shipment not found, payment not awaiting
    verification, payment not completed, payment already refunded - are
    the ones raised as an [AppError], and each leaves the world as it
    was: the shipment collection, the clock and the outbox. The checks
    read the document as [findById] loads it. *)
Theorem precondition_rejections_are_atomic (id : string) (w : World) :
  (forall d,
      shipments w !! id = None
      \/ (exists s, shipments w !! id = Some s
                    /\ Document.status (Document.payment (Document.hydrate s))
                       <> "awaiting_verification") ->
      exists e, verifyBankTransfer delivers id d w = (w, Err (Thrown e)))
  /\ (forall d e,
        snd (verifyBankTransfer delivers id d w) = Err (Thrown e) ->
        fst (verifyBankTransfer delivers id d w) = w)
  /\ (forall d,
        shipments w !! id = None
        \/ (exists s, shipments w !! id = Some s
                      /\ (Document.status (Document.payment (Document.hydrate s))
                          <> "completed"
                          \/ Document.refunded
                               (Document.payment (Document.hydrate s))
                             = Some true)) ->
        exists e, processRefund delivers id d w = (w, Err (Thrown e)))
  /\ (forall d e,
        snd (processRefund delivers id d w) = Err (Thrown e) ->
        fst (processRefund delivers id d w) = w).
Proof.
  split; [|split; [|split]].
  - intros d [H | (s & H & _)].
    + eexists. apply verifyBankTransfer_not_found, H.
    + eexists. eapply verifyBankTransfer_found, H.
  - intros d e _.
    destruct (shipments w !! id) as [s|] eqn:H.
    + rewrite (verifyBankTransfer_found id d w s H). reflexivity.
    + rewrite (verifyBankTransfer_not_found id d w H). reflexivity.
  - intros d [H | (s & H & Hst)].
    + eexists. apply processRefund_not_found, H.
    + destruct Hst as [Hst | Hr]; [|discriminate Hr].
      eexists. eapply processRefund_not_completed; [eassumption|].
      intros E. apply Hst. cbn. rewrite E. reflexivity.
  - intros d e He.
    destruct (shipments w !! id) as [s|] eqn:H.
    2:{ rewrite (processRefund_not_found id d w H). reflexivity. }
    destruct (status (payment s)) eqn:Hst;
      try (rewrite (processRefund_not_completed id d w s H);
           [reflexivity | congruence]).
    revert He. run_service. rewrite H.
    destruct s as [sid uid sst scost [st tx paid reason] tl].
    cbn [status payment] in Hst. subst st.
    destruct uid as [u|]; step; discriminate.
Qed.

(** *** The request handlers *)

Lemma controller_initialize_rejects (u : string)
    (body : PaymentController.InitializeBody) (w : World) :
  (exists a, PaymentController.initializeBankTransfer delivers u body w
             = (w, Err (Thrown a))
             /\ In (statusCode a) [400; 403; 404])
  \/ PaymentController.initializeBankTransfer delivers u body w
     = (w, Err (ValidationError "Shipment" ["payment.status"])).
Proof.
  unfold PaymentController.initializeBankTransfer, bind, findById, throw.
  destruct (shipments w !! PaymentController.b_shipmentId body) as [s|];
    cbn [option_map].
  2:{ left. eexists. split; [reflexivity|]. cbn. tauto. }
  destruct (PaymentController.notOwner (Document.hydrate s) u).
  { left. eexists. split; [reflexivity|]. cbn. tauto. }
  destruct (negb _).
  { left. eexists. split; [reflexivity|]. cbn. tauto. }
  destruct (missing (PaymentController.b_accountName body)
            || missing (PaymentController.b_bankName body)) eqn:Hm.
  - rewrite initializeBankTransfer_missing_details by exact Hm.
    left. eexists. split; [reflexivity|]. cbn. tauto.
  - rewrite initializeBankTransfer_refused by exact Hm. right. reflexivity.
Qed.

(** Every request is rejected. An [AppError] and the validation error
    of the shipment leave the world as it was; the validation error of
    the notification comes after a refund has been stored. The clock
    and the outbox are never touched. *)
Lemma dispatch_rejects (r : PaymentController.Request) (w : World) :
  exists w' e,
    PaymentController.dispatch delivers r w = (w', Err e)
    /\ clock w' = clock w
    /\ outbox w' = outbox w
    /\ match e with
       | Thrown a => w' = w /\ In (statusCode a) [400; 403; 404]
       | ValidationError model paths =>
           (model = "Shipment" /\ w' = w
            /\ exists u body, r = PaymentController.Initialize u body)
           \/ (model = "Notification"
               /\ exists u id reason amount s,
                    r = PaymentController.Refund u id reason amount
                    /\ shipments w !! id = Some s
                    /\ status (payment s) = PaymentStatus.completed
                    /\ shipments w'
                       = <[_id s :=
                             Lifecycle.refundedDocument s
                               {| r_reason := reason; r_amount := amount;
                                  r_adminId := u |} (clock w)]> (shipments w))
       | _ => False
       end.
Proof.
  destruct r as [u body | u id verified notes reason | u id reason amount];
    cbn [PaymentController.dispatch].
  - destruct (controller_initialize_rejects u body w) as [(a & E & Ha) | E];
      rewrite E; eexists _, _; (split; [reflexivity|]);
      repeat split; eauto.
    left. repeat split. eauto.
  - unfold PaymentController.verifyBankTransfer.
    destruct (shipments w !! id) as [s|] eqn:H.
    + rewrite (verifyBankTransfer_found _ _ _ _ H).
      eexists _, _. split; [reflexivity|]. repeat split. cbn. tauto.
    + rewrite (verifyBankTransfer_not_found _ _ _ H).
      eexists _, _. split; [reflexivity|]. repeat split. cbn. tauto.
  - unfold PaymentController.processRefund.
    destruct (shipments w !! id) as [s|] eqn:H.
    2:{ rewrite (processRefund_not_found _ _ _ H).
        eexists _, _. split; [reflexivity|]. repeat split. cbn. tauto. }
    destruct (status (payment s)) eqn:Hst;
      try (rewrite (processRefund_not_completed _ _ _ _ H) by congruence;
           eexists _, _; (split; [reflexivity|]); repeat split; cbn; tauto).
    rewrite (processRefund_commits _ _ _ _ H Hst).
    eexists _, _. split; [reflexivity|]. repeat split.
    right. split; [reflexivity|]. exists u, id, reason, amount, s.
    repeat split; assumption.
Qed.

(** What a request does to the collection: nothing, or one refund. *)
Lemma dispatch_effect (r : PaymentController.Request) (w : World) :
  Spec.wellFormed w ->
  exists w' e,
    PaymentController.dispatch delivers r w = (w', Err e)
    /\ clock w' = clock w
    /\ outbox w' = outbox w
    /\ Lifecycle.steps (shipments w) (shipments w').
Proof.
  intros Hwf.
  destruct (dispatch_rejects r w) as (w' & e & E & Hc & Ho & He).
  exists w', e. repeat split; try assumption.
  destruct e as [a | model paths | | |]; try contradiction.
  - destruct He as [-> _]. left. reflexivity.
  - destruct He as [(_ & -> & _) | (_ & u & id & reason & amount & s & _ & H & Hst & E')].
    + left. reflexivity.
    + right. exists s. eexists _, _. rewrite (Hwf _ _ H) in *.
      repeat split; [exact H | exact Hst | exact E'].
Qed.



End PaymentLifecycle.
(** ** The payment lifecycle on concrete shipments *)

Section PaymentExamples.
Import JS Shipment PaymentService.

Lemma wellFormed_worldWith (s : Shipment.t) :
  Spec.wellFormed (Examples.worldWith s).
Proof.
  intros k x H. cbn in H. apply lookup_singleton_Some in H as [<- <-].
  reflexivity.
Qed.

Lemma reliable_delivers (m : Message) : Examples.reliable m = true.
Proof. reflexivity. Qed.

Lemma worldWith_lookup (s : Shipment.t) :
  shipments (Examples.worldWith s) !! _id s = Some s.
Proof. apply lookup_singleton_eq. Qed.


(** C4. For the paid shipment s1 an administrator refunds twice. Both
    calls store their refund and reject with the validation error of
    the notification: the first does not succeed, and the second is not
    stopped by the test of [payment.refunded], a property that is set on
    the document in memory and is no path of the schema. After the
    second call the timeline has two entries and the reason of the first
    refund is overwritten. *)
Lemma second_refund_is_stored :
  let w := Examples.worldWith Examples.paid in
  let failure :=
    Err (ValidationError "Notification" ["type"; "title"; "message"]) in
  let w1 :=
    {| shipments := {[ "s1" := Examples.refundedOnce ]};
       clock := 2000; outbox := [] |} in
  let w2 :=
    {| shipments := {[ "s1" := Examples.refundedTwice ]};
       clock := 3000; outbox := [] |} in
  processRefund Examples.reliable "s1" Examples.refundAll w = (w1, failure)
  /\ processRefund Examples.reliable "s1" Examples.refundAgain
       (PaymentController.at_time 3000 w1)
     = (w2, failure)
  /\ status (payment Examples.refundedTwice) = PaymentStatus.completed
  /\ refundReason (payment Examples.refundedTwice) = Some "asked twice"
  /\ length (timeline Examples.refundedTwice) = 2%nat.
Proof.
  cbv zeta.
  split.
  { rewrite (processRefund_commits Examples.reliable "s1" Examples.refundAll
               _ Examples.paid (worldWith_lookup Examples.paid) eq_refl).
    cbn [Examples.worldWith shipments clock outbox _id Examples.paid
         Examples.shipmentWith userId Lifecycle.refundNotificationPaths app].
    rewrite insert_singleton_eq. reflexivity. }
  split.
  { rewrite (processRefund_commits Examples.reliable "s1" Examples.refundAgain
               _ Examples.refundedOnce (lookup_singleton_eq _ _) eq_refl).
    cbn [PaymentController.at_time shipments clock outbox].
    change (_id Examples.refundedOnce) with "s1".
    rewrite insert_singleton_eq. reflexivity. }
  repeat split.
Qed.



Lemma precondition_rejections_are_atomic_witness :
  let w := Examples.worldWith Examples.rejected in
  snd (verifyBankTransfer Examples.reliable "s1" Examples.approve w)
  = Err (Thrown (mkAppError "Payment is not awaiting verification" 400))
  /\ fst (verifyBankTransfer Examples.reliable "s1" Examples.approve w) = w
  /\ snd (processRefund Examples.reliable "s1" Examples.refundAll w)
     = Err (Thrown (mkAppError "Payment must be completed to process refund" 400))
  /\ fst (processRefund Examples.reliable "s1" Examples.refundAll w) = w.
Proof.
  cbv zeta.
  destruct (precondition_rejections_are_atomic Examples.reliable "s1"
              (Examples.worldWith Examples.rejected)) as (_ & Hv & _ & Hr).
  split; [reflexivity|]. split; [exact (Hv Examples.approve _ eq_refl)|].
  split; [reflexivity|]. exact (Hr Examples.refundAll _ eq_refl).
Defined.

End PaymentExamples.
(** * Further properties of the code *)

(** ** Any sequence of payment requests *)

Section LifecycleLaws.
Import JS Shipment PaymentService.

Variable delivers : Message -> bool.

Lemma steps_wellFormed (w w' : World) :
  Spec.wellFormed w ->
  Lifecycle.steps (shipments w) (shipments w') ->
  Spec.wellFormed w'.
Proof.
  intros Hwf [E | (s & d & now & Hs & Hst & E)]; unfold Spec.wellFormed;
    rewrite E; [exact Hwf|].
  intros k x. destruct (decide (_id s = k)) as [<- | Hne].
  - rewrite lookup_insert_eq. intros [= <-]. reflexivity.
  - rewrite lookup_insert_ne by exact Hne. apply Hwf.
Qed.

Lemma handle_effect (w : World) (tr : Date * PaymentController.Request) :
  Spec.wellFormed w ->
  outbox (PaymentController.handle delivers w tr) = outbox w
  /\ Lifecycle.steps (shipments w)
       (shipments (PaymentController.handle delivers w tr)).
Proof.
  intros Hwf. unfold PaymentController.handle.
  destruct (dispatch_effect delivers (snd tr)
              (PaymentController.at_time (fst tr) w) Hwf)
    as (w' & e & E & _ & Ho & Hs).
  rewrite E. cbn [fst]. split; [exact Ho | exact Hs].
Qed.

(** The invariant rule: a property of documents that every refund of a
    completed payment keeps is kept by every sequence of requests; a
    reflexive and transitive relation that every such refund respects
    relates each document to what it becomes. *)
Lemma serve_invariant (P : Shipment.t -> Prop) (R : Shipment.t -> Shipment.t -> Prop) :
  (forall s, R s s) ->
  (forall a b c, R a b -> R b c -> R a c) ->
  (forall s d now,
      P s -> status (payment s) = PaymentStatus.completed ->
      P (Lifecycle.refundedDocument s d now)
      /\ R s (Lifecycle.refundedDocument s d now)) ->
  forall (rs : list (Date * PaymentController.Request)) (w : World),
    Spec.wellFormed w ->
    (forall k s, shipments w !! k = Some s -> P s) ->
    (forall k s, shipments (PaymentController.serve delivers rs w) !! k = Some s ->
                 P s)
    /\ (forall k s, shipments w !! k = Some s ->
          exists s', shipments (PaymentController.serve delivers rs w) !! k = Some s'
                     /\ R s s').
Proof.
  intros Hrefl Htrans Hstep rs. induction rs as [|tr rs IH]; intros w Hwf HP.
  - cbn. split; [exact HP|]. intros k s H. exists s. split; [exact H | apply Hrefl].
  - cbn [PaymentController.serve fold_left].
    destruct (handle_effect w tr Hwf) as [_ Hs].
    pose proof (steps_wellFormed _ _ Hwf Hs) as Hwf'.
    assert (HP' : forall k s,
               shipments (PaymentController.handle delivers w tr) !! k = Some s -> P s).
    { destruct Hs as [E | (s0 & d & now & H0 & Hst & E)]; rewrite E; [exact HP|].
      intros k s. destruct (decide (_id s0 = k)) as [<- | Hne].
      - rewrite lookup_insert_eq. intros [= <-].
        apply (Hstep s0 d now (HP _ _ H0) Hst).
      - rewrite lookup_insert_ne by exact Hne. apply HP. }
    destruct (IH _ Hwf' HP') as [IHP IHR]. split; [exact IHP|].
    intros k s H.
    assert (Hmid : exists m,
               shipments (PaymentController.handle delivers w tr) !! k = Some m
               /\ R s m).
    { destruct Hs as [E | (s0 & d & now & H0 & Hst & E)]; rewrite E.
      - exists s. split; [exact H | apply Hrefl].
      - destruct (decide (_id s0 = k)) as [<- | Hne].
        + rewrite lookup_insert_eq. eexists. split; [reflexivity|].
          rewrite H0 in H. injection H as <-.
          apply (Hstep s0 d now (HP _ _ H0) Hst).
        + rewrite lookup_insert_ne by exact Hne. exists s.
          split; [exact H | apply Hrefl]. }
    destruct Hmid as (m & Hm & Rm).
    destruct (IHR k m Hm) as (s' & Hs' & Rs').
    exists s'. split; [exact Hs' | exact (Htrans _ _ _ Rm Rs')].
Qed.

Lemma extends_refl (s : Shipment.t) : Lifecycle.extends s s.
Proof.
  do 6 (split; [reflexivity|]).
  exists []. split; [symmetry; apply app_nil_r | constructor].
Qed.

Lemma extends_trans (a b c : Shipment.t) :
  Lifecycle.extends a b -> Lifecycle.extends b c -> Lifecycle.extends a c.
Proof.
  intros (I1 & U1 & C1 & S1 & X1 & P1 & l1 & T1 & F1)
         (I2 & U2 & C2 & S2 & X2 & P2 & l2 & T2 & F2).
  do 6 (split; [congruence|]).
  exists (l1 ++ l2)%list. split.
  - rewrite T2, T1. symmetry. apply app_assoc.
  - apply Forall_app. split; assumption.
Qed.

Lemma refundedDocument_extends (s : Shipment.t) (d : RefundDetails) (now : Date) :
  Lifecycle.extends s (Lifecycle.refundedDocument s d now).
Proof.
  do 6 (split; [reflexivity|]).
  eexists. split; [reflexivity|].
  constructor; [split; reflexivity | constructor].
Qed.

(** X1. Whatever payment requests arrive, no shipment disappears from
    the collection, and each keeps its id, its owner, its cost and the
    status, the transaction and the date of its payment; its timeline
    is only ever extended at the end, by entries without location whose
    status is cancelled. *)
Theorem requests_keep_shipments
    (rs : list (Date * PaymentController.Request)) (w : World)
    (k : string) (s : Shipment.t) :
  Spec.wellFormed w ->
  shipments w !! k = Some s ->
  exists s',
    shipments (PaymentController.serve delivers rs w) !! k = Some s'
    /\ Lifecycle.extends s s'.
Proof.
  intros Hwf H.
  destruct (serve_invariant (fun _ => True) Lifecycle.extends
              extends_refl extends_trans) with (rs := rs) (w := w)
    as [_ HR]; auto.
  intros a d now _ _. split; [exact I | apply refundedDocument_extends].
Qed.

Lemma latest_of_appended (s : Shipment.t) (tl : list TimelineEntry)
    (e : TimelineEntry) :
  timeline s = (tl ++ [e])%list ->
  ShipmentMethods.getLatestTimelineEntry s = Some e.
Proof.
  intros E. unfold ShipmentMethods.getLatestTimelineEntry. rewrite E.
  rewrite length_app. cbn [length]. rewrite Nat.add_1_r.
  rewrite lookup_app_r by lia. rewrite Nat.sub_diag. reflexivity.
Qed.

(** X2. The shipment status stays in step with the timeline: if in every
    stored shipment the status is the status of the latest timeline
    entry, the same holds after any sequence of payment requests. *)
Theorem status_follows_timeline
    (rs : list (Date * PaymentController.Request)) (w : World) :
  Spec.wellFormed w ->
  (forall k s, shipments w !! k = Some s -> Lifecycle.statusFollowsTimeline s) ->
  forall k s,
    shipments (PaymentController.serve delivers rs w) !! k = Some s ->
    Lifecycle.statusFollowsTimeline s.
Proof.
  intros Hwf HP.
  destruct (serve_invariant Lifecycle.statusFollowsTimeline (fun _ _ => True))
    with (rs := rs) (w := w) as [H _]; auto.
  intros a d now Ha Hst. split; [|exact I].
  intros e He.
  rewrite (latest_of_appended _ (timeline a) _) in He by reflexivity.
  injection He as <-. reflexivity.
Qed.

(** X3. A payment request changes no shipment but one whose payment is
    completed. A shipment whose payment is pending, failed or refunded is
    stored exactly as it was after any sequence of payment requests: no
    request takes a payment out of pending, and failed and refunded are
    final. *)
Theorem only_completed_payments_are_touched
    (rs : list (Date * PaymentController.Request)) (w : World)
    (k : string) (s : Shipment.t) :
  Spec.wellFormed w ->
  shipments w !! k = Some s ->
  status (payment s) <> PaymentStatus.completed ->
  shipments (PaymentController.serve delivers rs w) !! k = Some s.
Proof.
  intros Hwf H Hst.
  destruct (serve_invariant (fun _ => True)
              (fun a b => b = a
                          \/ (status (payment a) = PaymentStatus.completed
                              /\ status (payment b) = PaymentStatus.completed)))
    with (rs := rs) (w := w) as [_ HR]; auto.
  - intros a b c [-> | [Ha Hb]] [-> | [Hb' Hc]]; auto.
  - destruct (HR k s H) as (s' & Hs' & [-> | [Ha _]]); [exact Hs' | contradiction].
Qed.


Lemma handle_outbox (w : World) (tr : Date * PaymentController.Request) :
  outbox (PaymentController.handle delivers w tr) = outbox w.
Proof.
  unfold PaymentController.handle.
  destruct (dispatch_rejects delivers (snd tr)
              (PaymentController.at_time (fst tr) w))
    as (w' & e & E & _ & Ho & _).
  rewrite E. exact Ho.
Qed.

(** X5. The payment requests send nothing. After any sequence of
    initialize, verify and refund requests the outbox is what it was:
    no notification has been stored, no e-mail sent and no payment
    status broadcast, although the service has code for all three. *)
Theorem payment_requests_send_nothing
    (rs : list (Date * PaymentController.Request)) (w : World) :
  outbox (PaymentController.serve delivers rs w) = outbox w.
Proof.
  revert w. induction rs as [|tr rs IH]; intros w; [reflexivity|].
  cbn [PaymentController.serve fold_left].
  unfold PaymentController.serve in IH. rewrite IH. apply handle_outbox.
Qed.



End LifecycleLaws.
Section Owners.
Import JS Shipment PaymentService.

Variable delivers : Message -> bool.


End Owners.

Section FurtherExamples.
Import JS Shipment PaymentService.

Lemma worldWith_all (P : Shipment.t -> Prop) (x : Shipment.t) :
  P x ->
  forall k s, shipments (Examples.worldWith x) !! k = Some s -> P s.
Proof.
  intros HP k s H. cbn in H. apply lookup_singleton_Some in H as [_ <-].
  exact HP.
Qed.

Lemma paid_statusFollowsTimeline :
  Lifecycle.statusFollowsTimeline Examples.paid.
Proof. intros e He. discriminate He. Qed.

Lemma requests_keep_shipments_witness :
  let w := Examples.worldWith Examples.paid in
  Spec.wellFormed w
  /\ shipments w !! "s1" = Some Examples.paid
  /\ exists s',
       shipments (PaymentController.serve Examples.reliable
                    Examples.requests w) !! "s1" = Some s'
       /\ Lifecycle.extends Examples.paid s'.
Proof.
  cbv zeta. split; [apply wellFormed_worldWith|]. split; [reflexivity|].
  apply (requests_keep_shipments Examples.reliable Examples.requests
           (Examples.worldWith Examples.paid) "s1" Examples.paid).
  - apply wellFormed_worldWith.
  - reflexivity.
Defined.

Lemma status_follows_timeline_witness :
  let w := Examples.worldWith Examples.paid in
  Spec.wellFormed w
  /\ (forall k s, shipments w !! k = Some s -> Lifecycle.statusFollowsTimeline s)
  /\ forall k s,
       shipments (PaymentController.serve Examples.reliable
                    Examples.requests w) !! k = Some s ->
       Lifecycle.statusFollowsTimeline s.
Proof.
  cbv zeta. split; [apply wellFormed_worldWith|].
  split; [apply worldWith_all, paid_statusFollowsTimeline|].
  apply (status_follows_timeline Examples.reliable Examples.requests
           (Examples.worldWith Examples.paid)).
  - apply wellFormed_worldWith.
  - apply worldWith_all, paid_statusFollowsTimeline.
Defined.

Lemma only_completed_payments_are_touched_witness :
  let w := Examples.worldWith Examples.unpaid in
  Spec.wellFormed w
  /\ shipments w !! "s1" = Some Examples.unpaid
  /\ status (payment Examples.unpaid) <> PaymentStatus.completed
  /\ shipments (PaymentController.serve Examples.reliable
                  Examples.requests w) !! "s1" = Some Examples.unpaid.
Proof.
  cbv zeta. split; [apply wellFormed_worldWith|]. split; [reflexivity|].
  split; [discriminate|].
  apply (only_completed_payments_are_touched Examples.reliable
           Examples.requests (Examples.worldWith Examples.unpaid) "s1"
           Examples.unpaid).
  - apply wellFormed_worldWith.
  - reflexivity.
  - discriminate.
Defined.



End FurtherExamples.

(** ** Creating a shipment *)

Section ShipmentCreation.
Import JS ShipmentService ShipmentController.

Variable LocalTZA : Z -> bool -> Z.
Variable this : Service.

Lemma validateAddresses_ok (body : Body) :
  validateAddresses body = Ok tt
  <-> (req_type body = international
       <-> req_senderCountry body <> req_recipientCountry body).
Proof.
  unfold validateAddresses.
  destruct (req_type body);
    destruct (String.eqb_spec (req_senderCountry body)
                (req_recipientCountry body)) as [E|E]; cbn [negb].
  - split; [discriminate|]. intros H. exfalso. apply (proj1 H eq_refl), E.
  - split; [intros _; split; [intros _; exact E | reflexivity] | reflexivity].
  - split; [intros _; split; [discriminate | intros H; contradiction]
           | reflexivity].
  - split; [discriminate|]. intros H. discriminate (proj2 H E).
Qed.

Lemma validatePackages_ok (pkgs : option (list Package)) :
  validatePackages pkgs = Ok tt
  <-> exists l, pkgs = Some l /\ (1 <= length l <= 10)%nat
                /\ Forall (fun p => Spec.offending p = false) l.
Proof.
  unfold validatePackages. destruct pkgs as [l|].
  - destruct (Nat.eqb_spec (length l) 0) as [E0|E0].
    { split; [discriminate|]. intros (l' & [= <-] & Hlen & _). lia. }
    destruct (Nat.ltb_spec 10 (length l)) as [E10|E10].
    { split; [discriminate|]. intros (l' & [= <-] & Hlen & _). lia. }
    rewrite forEach_validatePackage_ok. split.
    + intros H. exists l. split; [reflexivity|]. split; [lia | exact H].
    + intros (l' & [= <-] & _ & H). exact H.
  - split; [discriminate|]. intros (l & Hl & _). discriminate.
Qed.

Lemma deliveryDays_bounds (data : ShipmentData) :
  (length (packages data) <= 10)%nat ->
  2 <= deliveryDays data <= 11.
Proof.
  intros Hlen. unfold deliveryDays, ceil_half.
  assert (H : (Z.of_nat (length (packages data)) + 1) / 2 < 6).
  { apply Z.div_lt_upper_bound; lia. }
  assert (H0 : 0 <= (Z.of_nat (length (packages data)) + 1) / 2).
  { apply Z.div_pos; lia. }
  destruct (shp_type data), (1 <? Z.of_nat (length (packages data))),
    (hasSpecialHandling (packages data)); lia.
Qed.

(** X7. In a time zone that keeps the day, [createShipment] always gets
    as far as an answer when the weekend loop has fuel for three tests.
    It accepts exactly when the countries differ for an international
    and agree for a local shipment, there are 1 to 10 packages that all
    pass the package checks, and the pickup date, if it is a date at
    all, is a weekday from now to 30 calendar days ahead. What it then
    hands to [Shipment.create] is no draft, carries the cost of the
    calculator, and an estimated delivery date that is a weekday, at
    least 2 and at most 13 calendar days after the pickup date; a pickup
    date that is no date is accepted too and gives an estimate that is
    no date. Its owner is the user of the request; a request without
    user keeps the [userId] that its body names, so a guest decides
    whose shipment it is. *)
Theorem createShipment_accepts (fuel : nat) (now : Date)
    (user : option string) (body : Body) :
  keepsTheDay LocalTZA ->
  (3 <= fuel)%nat ->
  exists r,
    createShipment LocalTZA this fuel now user body = Some r
    /\ ((exists n, r = Ok n)
        <-> (req_type body = international
             <-> req_senderCountry body <> req_recipientCountry body)
            /\ (exists l, req_packages body = Some l
                          /\ (1 <= length l <= 10)%nat
                          /\ Forall (fun p => Spec.offending p = false) l)
            /\ (forall pickup, req_pickupDate body = Some pickup ->
                  now <= pickup <= Spec.daysAfter LocalTZA now 30
                  /\ getDay LocalTZA pickup <> 0
                  /\ getDay LocalTZA pickup <> 6))
    /\ (forall n, r = Ok n ->
          new_isDraft n = false
          /\ new_userId n = match user with
                            | Some id => Some id
                            | None => req_userId body
                            end
          /\ new_cost n = calculateShippingCost this (shipmentData body)
          /\ match req_pickupDate body with
             | Some pickup =>
                 exists estimated,
                   new_estimatedDate n = Some estimated
                   /\ Spec.calendarDay LocalTZA pickup + 2
                      <= Spec.calendarDay LocalTZA estimated
                      <= Spec.calendarDay LocalTZA pickup + 13
                   /\ getDay LocalTZA estimated <> 0
                   /\ getDay LocalTZA estimated <> 6
             | None => new_estimatedDate n = None
             end)
    /\ (forall e, r = Err e -> statusCode e = 400).
Proof.
  intros zone Hfuel. unfold createShipment.
  pose proof (validateAddresses_ok body) as HA.
  pose proof (validatePackages_ok (req_packages body)) as HP.
  pose proof (validatePickupDate_ok LocalTZA now (req_pickupDate body)) as HD.
  destruct (validateAddresses body) as [[]|ea] eqn:Ea.
  2:{ eexists. split; [reflexivity|]. split; [|split].
      - split; [intros [n Hn]; discriminate|].
        intros (H & _). apply HA in H. discriminate.
      - intros n Hn. discriminate.
      - intros e [= <-]. revert Ea. unfold validateAddresses.
        destruct (req_type body), (String.eqb _ _); cbn [negb];
          intros [= <-]; reflexivity. }
  destruct (validatePackages (req_packages body)) as [[]|ep] eqn:Ep.
  2:{ eexists. split; [reflexivity|]. split; [|split].
      - split; [intros [n Hn]; discriminate|].
        intros (_ & H & _). apply HP in H. discriminate.
      - intros n Hn. discriminate.
      - intros e [= <-]. revert Ep. unfold validatePackages.
        destruct (req_packages body) as [l|]; [|intros [= <-]; reflexivity].
        destruct (length l =? 0)%nat; [intros [= <-]; reflexivity|].
        destruct (10 <? length l)%nat; [intros [= <-]; reflexivity|].
        intros Hf. apply forEach_validatePackage_err in Hf
          as (j & p & _ & _ & Hv).
        revert Hv. unfold validatePackage.
        repeat match goal with
               | |- context [if ?c then _ else _] => destruct c
               end; intros [= <-]; reflexivity. }
  destruct (validatePickupDate LocalTZA now (req_pickupDate body))
    as [[]|ed] eqn:Ed.
  2:{ eexists. split; [reflexivity|]. split; [|split].
      - split; [intros [n Hn]; discriminate|].
        intros (_ & _ & H). apply HD in H. discriminate.
      - intros n Hn. discriminate.
      - intros e [= <-].
        exact (validatePickupDate_status LocalTZA now _ _ Ed). }
  apply proj1 in HA, HP, HD.
  specialize (HA eq_refl). specialize (HP eq_refl). specialize (HD eq_refl).
  destruct (req_pickupDate body) as [pickup|] eqn:Epick.
  - destruct (estimateDeliveryDate_run LocalTZA fuel (shipmentData body)
                pickup zone Hfuel)
      as (k & Hest & Hk & Hend & _).
    { unfold shipmentData. cbn [pickup_date]. exact Epick. }
    rewrite Hest. eexists. split; [reflexivity|]. split; [|split].
    + split; [intros _ | intros _; eexists; reflexivity].
      split; [exact HA|]. split; [exact HP|]. exact HD.
    + intros n [= <-]. cbn [new_isDraft new_userId new_cost new_estimatedDate].
      split; [reflexivity|]. split; [reflexivity|]. split; [reflexivity|].
      eexists. split; [reflexivity|].
      destruct HP as (l & Hl & Hlen & _).
      assert (Hb : 2 <= deliveryDays (shipmentData body) <= 11).
      { apply deliveryDays_bounds. unfold shipmentData. cbn [packages].
        rewrite Hl. lia. }
      rewrite deliveryDays_spec in Hb.
      rewrite (calendarDay_iter LocalTZA zone),
        (calendarDay_daysAfter LocalTZA zone).
      split; [lia|]. apply (isWeekend_false LocalTZA), Hend.
    + intros e He. discriminate.
  - unfold estimateDeliveryDate, shipmentData. cbn [pickup_date].
    rewrite Epick. cbn [setDate_getDate_plus_of option_map].
    destruct fuel as [|fuel]; [lia|]. cbn [while_loop isWeekend getDay_of
      option_map is_number orb].
    eexists. split; [reflexivity|]. split; [|split].
    + split; [intros _ | intros _; eexists; reflexivity].
      split; [exact HA|]. split; [exact HP|]. exact HD.
    + intros n [= <-]. cbn [new_isDraft new_userId new_cost new_estimatedDate].
      repeat split.
    + intros e He. discriminate.
Qed.

(** X8. The cost stored with a created shipment is the quote: whenever
    [createShipment] accepts a body, [calculateCost] accepts the same
    body and answers with the cost handed to [Shipment.create]. *)
Theorem created_cost_is_the_quote (fuel : nat) (now : Date)
    (user : option string) (body : Body) (n : NewShipment) :
  createShipment LocalTZA this fuel now user body = Some (Ok n) ->
  calculateCost this body = Ok (new_cost n).
Proof.
  unfold createShipment, calculateCost.
  destruct (validateAddresses body) as [[]|ea]; [|discriminate].
  destruct (validatePackages (req_packages body)) as [[]|ep]; [|discriminate].
  destruct (validatePickupDate LocalTZA now (req_pickupDate body))
    as [[]|ed]; [|discriminate].
  destruct (estimateDeliveryDate LocalTZA fuel (shipmentData body));
    [|discriminate].
  intros [= <-]. reflexivity.
Qed.

End ShipmentCreation.

(** ** Authentication and the payment routes *)

Section Authentication.
Import JS JSString Shipment PaymentService Auth.

Variable delivers : Message -> bool.
Variable verify : string -> option Decoded.
Variable findById : string -> option User.

Lemma truthy_Some (token : option string) :
  truthy token = true <-> exists t, token = Some t /\ t <> EmptyString.
Proof.
  unfold truthy. destruct token as [[|c t]|].
  - split; [discriminate | intros (t & [= <-] & H); contradiction].
  - split; [intros _; eexists; split; [reflexivity | discriminate]
           | reflexivity].
  - split; [discriminate | intros (t & H & _); discriminate].
Qed.

Lemma protect_body_ok (t : string) (u : User) :
  protect_body verify findById t = Ok u
  <-> exists d, verify t = Some d
                /\ findById (decoded_id d) = Some u
                /\ isVerified u = true
                /\ (forall c, passwordChangedAt u = Some c ->
                              seconds c <= iat d).
Proof.
  unfold protect_body. destruct (verify t) as [d|].
  2:{ split; [discriminate | intros (d & H & _); discriminate]. }
  destruct (findById (decoded_id d)) as [x|] eqn:Hx.
  2:{ split; [discriminate|]. intros (d' & [= <-] & H & _). congruence. }
  destruct (isVerified x) eqn:Hv; cbn [negb].
  2:{ split; [discriminate|].
      intros (d' & [= <-] & H & Hu & _). congruence. }
  destruct (passwordChangedAt x) as [c|] eqn:Hc.
  - destruct (Z.ltb_spec (iat d) (seconds c)).
    + split; [discriminate|].
      intros (d' & [= <-] & H' & _ & Hp).
      assert (u = x) as -> by congruence. specialize (Hp c Hc). lia.
    + split.
      * intros [= <-]. exists d. split; [reflexivity|].
        split; [exact Hx|]. split; [exact Hv|].
        intros c' Hc'. assert (c' = c) as -> by congruence. lia.
      * intros (d' & [= <-] & H' & _). congruence.
  - split.
    + intros [= <-]. exists d. split; [reflexivity|].
      split; [exact Hx|]. split; [exact Hv|]. intros c' Hc'. congruence.
    + intros (d' & [= <-] & H' & _). congruence.
Qed.

Lemma protect_ok (req : Request) (u : User) :
  protect verify findById req = Ok u
  <-> exists t d,
        tokenOf req = Some t /\ t <> EmptyString
        /\ verify t = Some d
        /\ findById (decoded_id d) = Some u
        /\ isVerified u = true
        /\ (forall c, passwordChangedAt u = Some c -> seconds c <= iat d).
Proof.
  unfold protect. pose proof (truthy_Some (tokenOf req)) as Ht.
  destruct (truthy (tokenOf req)); cbn [negb].
  - destruct (proj1 Ht eq_refl) as (t & E & Hne). rewrite E.
    unfold try_catch.
    pose proof (protect_body_ok t u) as Hb.
    destruct (protect_body verify findById t) as [x|x].
    + split.
      * intros [= <-]. destruct (proj1 Hb eq_refl) as (d & Hd).
        exists t, d. split; [reflexivity|]. split; [exact Hne | exact Hd].
      * intros (t' & d & [= <-] & _ & Hd). f_equal.
        assert (Ok x = Ok u :> Result Thrown User) as [= ->];
          [apply Hb; exists d; exact Hd | reflexivity].
    + split; [discriminate|].
      intros (t' & d & [= <-] & _ & Hd).
      assert (H : Err x = Ok u :> Result Thrown User)
        by (apply Hb; exists d; exact Hd).
      discriminate H.
  - split; [discriminate|].
    intros (t & d & E & Hne & _).
    assert (H : false = true) by (apply Ht; exists t; split; assumption).
    discriminate H.
Qed.

Lemma protect_err (req : Request) (e : AppError) :
  protect verify findById req = Err e -> e = notAuthorized.
Proof.
  unfold protect, try_catch.
  destruct (truthy (tokenOf req)); cbn [negb].
  - destruct (protect_body verify findById _); [discriminate|].
    intros [= <-]. reflexivity.
  - intros [= <-]. reflexivity.
Qed.

(** X9. [protect] lets a request through exactly when it carries a
    non-empty token that verifies, the user of the token exists and has
    verified the e-mail address, and the token is not older than the
    last password change; that user is attached. Every other request is
    rejected with the same error, 401 "Not authorized to access this
    route": the errors raised inside the [try] block ("User not found"
    with 404, the request to verify the e-mail address, the password
    change) are caught and replaced, so none of them reaches a client. *)
Theorem protect_accepts_or_hides_the_reason (req : Request) :
  (forall u,
      protect verify findById req = Ok u
      <-> exists t d,
            tokenOf req = Some t /\ t <> EmptyString
            /\ verify t = Some d
            /\ findById (decoded_id d) = Some u
            /\ isVerified u = true
            /\ (forall c, passwordChangedAt u = Some c -> seconds c <= iat d))
  /\ (forall e, protect verify findById req = Err e -> e = notAuthorized)
  /\ (forall t,
        tokenOf req = Some t -> t <> EmptyString ->
        forall e, protect_body verify findById t = Err (App e) ->
                  protect verify findById req = Err notAuthorized
                  /\ e <> notAuthorized).
Proof.
  split; [intros u; apply protect_ok|]. split; [apply protect_err|].
  intros t Ht Hne e He. split.
  - unfold protect. rewrite Ht.
    destruct t as [|c t]; [contradiction|]. cbn [truthy negb].
    rewrite He. reflexivity.
  - revert He. unfold protect_body.
    destruct (verify t) as [d|]; [|discriminate].
    destruct (findById (decoded_id d)) as [x|]; [|intros [= <-]; discriminate].
    destruct (isVerified x); cbn [negb]; [|intros [= <-]; discriminate].
    destruct (passwordChangedAt x) as [c|]; [|discriminate].
    destruct (iat d <? seconds c); [intros [= <-]; discriminate | discriminate].
Qed.

(** X10. [optionalAuth] never rejects, and it attaches every user that
    [protect] would let through. The two differ only on users who have
    not verified their e-mail address: [optionalAuth] attaches them,
    [protect] rejects them. *)
Theorem optionalAuth_attaches_more (req : Request) (u : User) :
  (protect verify findById req = Ok u ->
   optionalAuth verify findById req = Some u)
  /\ (optionalAuth verify findById req = Some u ->
      if isVerified u then protect verify findById req = Ok u
      else protect verify findById req = Err notAuthorized).
Proof.
  unfold protect, optionalAuth, try_catch, protect_body, optionalAuth_body.
  destruct (truthy (tokenOf req)); cbn [negb]; [|split; discriminate].
  destruct (verify _) as [d|]; [|split; discriminate].
  destruct (findById (decoded_id d)) as [x|]; [|split; discriminate].
  destruct (isVerified x) eqn:Hv; cbn [negb].
  - destruct (passwordChangedAt x) as [c|].
    + destruct (iat d <? seconds c); [split; discriminate|].
      split; [intros [= <-]; reflexivity|].
      intros [= <-]. rewrite Hv. reflexivity.
    + split; [intros [= <-]; reflexivity|].
      intros [= <-]. rewrite Hv. reflexivity.
  - split; [discriminate|].
    destruct (passwordChangedAt x) as [c|].
    + destruct (iat d <? seconds c); [discriminate|].
      intros [= <-]. rewrite Hv. reflexivity.
    + intros [= <-]. rewrite Hv. reflexivity.
Qed.

Lemma authorize_admin (u : User) :
  authorize ["admin"] u = Ok tt <-> role u = "admin".
Proof.
  unfold authorize. cbn [existsb]. rewrite orb_false_r.
  destruct (String.eqb_spec (role u) "admin"); cbn [negb];
    split; congruence.
Qed.

(** X11. Verifying and refunding are for administrators only. Whenever a
    request on the verify route or on the refund route leaves the world
    other than it found it, or is answered with a shipment, [protect]
    has attached a user, that user has the role admin and a verified
    e-mail address, and the validators reported no error. *)
Theorem only_admins_verify_or_refund (req : Request)
    (errorMessages : list string) (shipmentId : string) (w : World) :
  let passed :=
    exists u, protect verify findById req = Ok u
              /\ role u = "admin" /\ isVerified u = true
              /\ errorMessages = [] in
  (forall verified notes rejectionReason,
      let run := PaymentRoutes.verifyRoute delivers verify findById req
                   errorMessages shipmentId verified notes rejectionReason w in
      fst run <> w \/ (exists s, snd run = Ok s) -> passed)
  /\ (forall reason amount,
        let run := PaymentRoutes.refundRoute delivers verify findById req
                     errorMessages shipmentId reason amount w in
        fst run <> w \/ (exists s, snd run = Ok s) -> passed).
Proof.
  cbv zeta.
  assert (Hv : forall u, protect verify findById req = Ok u ->
                         isVerified u = true).
  { intros u Hu.
    apply protect_ok in Hu.
    destruct Hu as (t & d & _ & _ & _ & _ & H & _). exact H. }
  split.
  - intros verified notes rejectionReason.
    unfold PaymentRoutes.verifyRoute, PaymentRoutes.middleware, bind.
    destruct (protect verify findById req) as [u|e] eqn:Hp.
    2:{ cbn [fst snd]. intros [H | [s H]]; [contradiction | discriminate]. }
    pose proof (authorize_admin u) as Ha.
    destruct (authorize ["admin"] u) as [[]|e].
    2:{ cbn [fst snd]. intros [H | [s H]]; [contradiction | discriminate]. }
    destruct errorMessages as [|m ms];
      cbn [PaymentRoutes.validate]; unfold reject, ret.
    2:{ cbn [fst snd]. intros [H | [s H]]; [contradiction | discriminate]. }
    intros _. exists u. split; [reflexivity|]. split; [apply Ha; reflexivity|].
    split; [apply Hv; reflexivity | reflexivity].
  - intros reason amount.
    unfold PaymentRoutes.refundRoute, PaymentRoutes.middleware, bind.
    destruct (protect verify findById req) as [u|e] eqn:Hp.
    2:{ cbn [fst snd]. intros [H | [s H]]; [contradiction | discriminate]. }
    pose proof (authorize_admin u) as Ha.
    destruct (authorize ["admin"] u) as [[]|e].
    2:{ cbn [fst snd]. intros [H | [s H]]; [contradiction | discriminate]. }
    destruct errorMessages as [|m ms];
      cbn [PaymentRoutes.validate]; unfold reject, ret.
    2:{ cbn [fst snd]. intros [H | [s H]]; [contradiction | discriminate]. }
    intros _. exists u. split; [reflexivity|]. split; [apply Ha; reflexivity|].
    split; [apply Hv; reflexivity | reflexivity].
Qed.

End Authentication.

(** ** Tracking numbers *)

Section Strings.
Import JSString.

Lemma append_nil (t : string) : (EmptyString ++ t)%string = t.
Proof. reflexivity. Qed.

Lemma append_cons (c : ascii) (s t : string) :
  (String c s ++ t)%string = String c (s ++ t).
Proof. reflexivity. Qed.

Ltac step_append := repeat (rewrite append_cons || rewrite append_nil).

Lemma length_append (s t : string) :
  String.length (s ++ t) = (String.length s + String.length t)%nat.
Proof. induction s as [|c s IH]; step_append; cbn; congruence. Qed.

Lemma append_assoc (s t u : string) :
  ((s ++ t) ++ u)%string = (s ++ (t ++ u))%string.
Proof. induction s as [|c s IH]; step_append; cbn; congruence. Qed.

Lemma append_inj (s s' t t' : string) :
  String.length s = String.length s' ->
  (s ++ t)%string = (s' ++ t')%string -> s = s' /\ t = t'.
Proof.
  revert s'. induction s as [|c s IH]; intros [|c' s'] Hl H;
    rewrite ?append_nil, ?append_cons in H; cbn in *; try discriminate.
  - split; [reflexivity | exact H].
  - injection H as -> H. injection Hl as Hl.
    destruct (IH s' Hl H) as [-> ->]. split; reflexivity.
Qed.

Lemma all_digits_append (s t : string) :
  all_digits (s ++ t) = all_digits s && all_digits t.
Proof.
  induction s as [|c s IH]; step_append; cbn; [reflexivity|].
  rewrite IH, andb_assoc. reflexivity.
Qed.

Lemma digitString_append (n m : nat) (s t : string) :
  digitString n s -> digitString m t -> digitString (n + m) (s ++ t).
Proof.
  intros [Hn Hs] [Hm Ht]. split.
  - rewrite length_append. congruence.
  - rewrite all_digits_append, Hs, Ht. reflexivity.
Qed.

Lemma isDigit_not_dash (c : ascii) :
  isDigit c = true -> Ascii.eqb c "-" = false.
Proof.
  intros H. destruct (Ascii.eqb_spec c "-") as [->|]; [|reflexivity].
  discriminate H.
Qed.

Lemma all_digits_free_of_dash (s : string) :
  all_digits s = true -> free_of "-" s = true.
Proof.
  induction s as [|c s IH]; cbn; [reflexivity|].
  intros H. apply andb_prop in H as [Hc Hs].
  rewrite (isDigit_not_dash c Hc), (IH Hs). reflexivity.
Qed.

Lemma split_append (sep : ascii) (s rest : string) :
  free_of sep s = true ->
  split sep (s ++ String sep rest) = s :: split sep rest.
Proof.
  induction s as [|c s IH]; step_append; cbn.
  - intros _. rewrite Ascii.eqb_refl. reflexivity.
  - intros H. apply andb_prop in H as [Hc Hs].
    destruct (Ascii.eqb c sep); [discriminate|].
    rewrite (IH Hs). reflexivity.
Qed.

Lemma split_free (sep : ascii) (s : string) :
  free_of sep s = true -> split sep s = [s].
Proof.
  induction s as [|c s IH]; cbn; [reflexivity|].
  intros H. apply andb_prop in H as [Hc Hs].
  destruct (Ascii.eqb c sep); [discriminate|].
  rewrite (IH Hs). reflexivity.
Qed.

Lemma substring_prefix (s t : string) :
  String.substring 0 (String.length s) (s ++ t) = s.
Proof.
  induction s as [|c s IH]; step_append; cbn; [destruct t; reflexivity|].
  rewrite IH. reflexivity.
Qed.

Lemma substring_skip (s r : string) (m : nat) :
  String.substring (String.length s) m (s ++ r) = String.substring 0 m r.
Proof.
  induction s as [|c s IH]; step_append; cbn; [reflexivity | exact IH].
Qed.

End Strings.

Section Numerals.
Import JS JSString.

Lemma of_uint_acc_bound (d : Decimal.uint) (acc : nat) :
  (Nat.of_uint_acc d acc < (acc + 1) * 10 ^ Decimal.nb_digits d)%nat.
Proof.
  revert acc.
  induction d as [|d IH|d IH|d IH|d IH|d IH|d IH|d IH|d IH|d IH|d IH];
    intros acc; cbn [Nat.of_uint_acc Decimal.nb_digits];
    [rewrite Nat.pow_0_r; lia | ..];
    rewrite Nat.tail_mul_spec, Nat.pow_succ_r';
    match goal with
    | |- (Nat.of_uint_acc d ?a < _)%nat =>
        specialize (IH a);
        assert (0 < 10 ^ Decimal.nb_digits d)%nat
          by (apply Nat.neq_0_lt_0, Nat.pow_nonzero; discriminate);
        nia
    end.
Qed.

Lemma string_of_uint_length (d : Decimal.uint) :
  String.length (NilEmpty.string_of_uint d) = Decimal.nb_digits d.
Proof.
  induction d; cbn [NilEmpty.string_of_uint String.length Decimal.nb_digits];
    congruence.
Qed.

Lemma string_of_uint_digits (d : Decimal.uint) :
  all_digits (NilEmpty.string_of_uint d) = true.
Proof.
  induction d; cbn [NilEmpty.string_of_uint all_digits];
    [reflexivity | rewrite IHd; reflexivity ..].
Qed.

(** A number is below the power of ten of the length of its numeral. *)
Lemma string_of_nat_bound (n : nat) :
  (n < 10 ^ String.length (string_of_nat n))%nat.
Proof.
  unfold string_of_nat.
  rewrite <- (DecimalNat.Unsigned.of_to n) at 1.
  unfold Nat.of_uint.
  pose proof (of_uint_acc_bound (Nat.to_uint n) 0) as H.
  destruct (Nat.to_uint n) eqn:E;
    unfold NilZero.string_of_uint;
    try (rewrite string_of_uint_length; cbn [Nat.add Nat.mul] in H; lia).
  cbn. lia.
Qed.

Lemma string_of_nat_digits (n : nat) : all_digits (string_of_nat n) = true.
Proof.
  unfold string_of_nat, NilZero.string_of_uint.
  destruct (Nat.to_uint n) eqn:E; try (rewrite <- E at 1); try reflexivity;
    apply string_of_uint_digits.
Qed.

End Numerals.

Section TrackingNumbers.
Import JS JSString ShipmentService TrackingNumber.

Ltac step_append := repeat (rewrite append_cons || rewrite append_nil).

Lemma append_empty (s : string) : (s ++ EmptyString)%string = s.
Proof. induction s as [|c s IH]; step_append; congruence. Qed.

(** *** The matcher *)

Lemma matches_lit (p rest : string) (k : string -> bool) :
  matches (lit p) (p ++ rest) k = k rest.
Proof.
  induction p as [|c p IH]; step_append; cbn [lit matches]; [reflexivity|].
  rewrite Ascii.eqb_refl. exact IH.
Qed.

Lemma matches_lit_inv (p s : string) (k : string -> bool) :
  matches (lit p) s k = true ->
  exists rest, s = (p ++ rest)%string /\ k rest = true.
Proof.
  revert s. induction p as [|c p IH]; intros s; cbn [lit matches].
  - intros H. exists s. split; [reflexivity | exact H].
  - destruct s as [|a s]; [discriminate|].
    intros H. apply andb_prop in H as [Ha H'].
    apply Ascii.eqb_eq in Ha as ->.
    destruct (IH s H') as (rest & -> & Hk).
    exists rest. split; [reflexivity | exact Hk].
Qed.

Lemma matches_digits (n : nat) (ds rest : string) (k : string -> bool) :
  digitString n ds ->
  matches (times n Digit) (ds ++ rest) k = k rest.
Proof.
  revert ds. induction n as [|n IH]; intros [|c ds] [Hl Hd];
    cbn in Hl; try discriminate; step_append; cbn [times matches].
  - reflexivity.
  - cbn in Hd. apply andb_prop in Hd as [Hc Hd]. rewrite Hc.
    apply IH. split; [congruence | exact Hd].
Qed.

Lemma matches_digits_inv (n : nat) (s : string) (k : string -> bool) :
  matches (times n Digit) s k = true ->
  exists ds rest, s = (ds ++ rest)%string /\ digitString n ds /\ k rest = true.
Proof.
  revert s. induction n as [|n IH]; intros s; cbn [times matches].
  - intros H. exists EmptyString, s.
    split; [reflexivity|]. split; [split; reflexivity | exact H].
  - destruct s as [|c s]; [discriminate|].
    intros H. apply andb_prop in H as [Hc H'].
    destruct (IH s H') as (ds & rest & -> & [Hl Hd] & Hk).
    exists (String c ds), rest. split; [reflexivity|].
    split; [|exact Hk]. split; [cbn; congruence|].
    cbn. rewrite Hc, Hd. reflexivity.
Qed.

(** The strings that the pattern accepts. *)
Lemma isValidTrackingNumber_shape (s : string) :
  isValidTrackingNumber s = true
  <-> exists p ds qs,
        (p = "INT" \/ p = "LOC")
        /\ digitString 8 ds /\ digitString 3 qs
        /\ s = (p ++ "-" ++ ds ++ "-" ++ qs)%string.
Proof.
  unfold isValidTrackingNumber, test, pattern. split.
  - cbn [matches]. intros H. apply orb_prop in H.
    assert (Hp : exists p rest,
               (p = "INT" \/ p = "LOC") /\ s = (p ++ rest)%string
               /\ matches (Seq (Chr "-")
                             (Seq (times 8 Digit)
                                (Seq (Chr "-") (times 3 Digit)))) rest
                    (fun r => String.eqb r EmptyString) = true).
    { destruct H as [H|H]; apply matches_lit_inv in H as (rest & E & H');
        eexists _, rest; (split; [|split; [exact E | exact H']]); auto. }
    clear H. destruct Hp as (p & rest & Hp & -> & H).
    cbn [matches] in H. destruct rest as [|c rest]; [discriminate|].
    apply andb_prop in H as [Hc H1]. apply Ascii.eqb_eq in Hc as ->.
    apply matches_digits_inv in H1 as (ds & rest' & -> & Hds & H2).
    destruct rest' as [|c rest']; [discriminate|].
    apply andb_prop in H2 as [Hc H3]. apply Ascii.eqb_eq in Hc as ->.
    apply matches_digits_inv in H3 as (qs & rest'' & -> & Hqs & H4).
    apply String.eqb_eq in H4 as ->. rewrite append_empty.
    exists p, ds, qs. split; [exact Hp|]. split; [exact Hds|].
    split; [exact Hqs | reflexivity].
  - intros (p & ds & qs & Hp & Hds & Hqs & ->).
    assert (H : matches (Seq (Chr "-")
                           (Seq (times 8 Digit)
                              (Seq (Chr "-") (times 3 Digit))))
                  ("-" ++ ds ++ "-" ++ qs)
                  (fun r => String.eqb r EmptyString) = true).
    { step_append. cbn [matches]. rewrite Ascii.eqb_refl. cbn [andb].
      rewrite (matches_digits 8 ds _ _ Hds).
      step_append. rewrite Ascii.eqb_refl. cbn [andb].
      rewrite <- (append_empty qs) at 1.
      rewrite (matches_digits 3 qs _ _ Hqs). reflexivity. }
    cbn [matches]. apply orb_true_iff.
    destruct Hp as [-> | ->]; [left | right]; rewrite matches_lit; exact H.
Qed.

Lemma split_shape (p ds qs : string) :
  free_of "-" p = true -> all_digits ds = true -> all_digits qs = true ->
  split "-" (p ++ "-" ++ ds ++ "-" ++ qs) = [p; ds; qs].
Proof.
  intros Hp Hds Hqs. step_append.
  rewrite (split_append "-" p _ Hp).
  rewrite (split_append "-" ds _ (all_digits_free_of_dash ds Hds)).
  rewrite (split_free "-" qs (all_digits_free_of_dash qs Hqs)).
  reflexivity.
Qed.

Lemma substring_whole (s : string) :
  String.substring 0 (String.length s) s = s.
Proof.
  rewrite <- (append_empty s) at 2. apply substring_prefix.
Qed.

Lemma date_parts (Y M D : string) :
  String.length Y = 4%nat -> String.length M = 2%nat ->
  String.length D = 2%nat ->
  substring 0 4 (Y ++ M ++ D) = Y
  /\ substring 4 6 (Y ++ M ++ D) = M
  /\ substring 6 8 (Y ++ M ++ D) = D.
Proof.
  intros HY HM HD. unfold substring. cbn [Nat.min Nat.max Nat.sub].
  split; [|split].
  - rewrite <- HY. apply substring_prefix.
  - rewrite <- HY at 1. rewrite substring_skip, <- HM. apply substring_prefix.
  - rewrite <- append_assoc.
    replace 6%nat with (String.length (Y ++ M))
      by (rewrite length_append; lia).
    rewrite substring_skip, <- HD. apply substring_whole.
Qed.

(** *** Numerals of two, three and four digits *)

Lemma table_lookup (f : nat -> bool) (a len n : nat) :
  forallb f (seq a len) = true -> (a <= n < a + len)%nat -> f n = true.
Proof.
  intros H Hn. rewrite List.forallb_forall in H. apply H.
  apply in_seq. exact Hn.
Qed.

Lemma reads_back_spec (w : nat) (s : string) (n : nat) :
  (String.length s =? w)%nat && all_digits s
    && match parseInt s with
       | Some z => z =? Z.of_nat n
       | None => false
       end = true ->
  digitString w s /\ parseInt s = Some (Z.of_nat n).
Proof.
  intros H. apply andb_prop in H as [H' Hp]. apply andb_prop in H' as [Hl Hd].
  apply Nat.eqb_eq in Hl. split; [split; assumption|].
  destruct (parseInt s) as [z|]; [|discriminate].
  apply Z.eqb_eq in Hp. congruence.
Qed.

Lemma two_digits (n : nat) :
  (n <= 99)%nat ->
  digitString 2 (padStart0 2 (string_of_nat n))
  /\ parseInt (padStart0 2 (string_of_nat n)) = Some (Z.of_nat n).
Proof.
  intros Hn. apply reads_back_spec.
  apply (table_lookup
           (fun n => let s := padStart0 2 (string_of_nat n) in
                     (String.length s =? 2)%nat && all_digits s
                     && match parseInt s with
                        | Some z => z =? Z.of_nat n
                        | None => false
                        end) 0 100); [vm_compute; reflexivity | lia].
Qed.

Lemma three_digits (n : nat) :
  (n <= 999)%nat ->
  digitString 3 (padStart0 3 (string_of_nat n))
  /\ parseInt (padStart0 3 (string_of_nat n)) = Some (Z.of_nat n).
Proof.
  intros Hn. apply reads_back_spec.
  apply (table_lookup
           (fun n => let s := padStart0 3 (string_of_nat n) in
                     (String.length s =? 3)%nat && all_digits s
                     && match parseInt s with
                        | Some z => z =? Z.of_nat n
                        | None => false
                        end) 0 1000); [vm_compute; reflexivity | lia].
Qed.

Lemma four_digits (n : nat) :
  1000 <= Z.of_nat n <= 9999 ->
  digitString 4 (string_of_nat n)
  /\ parseInt (string_of_nat n) = Some (Z.of_nat n).
Proof.
  intros Hn. apply reads_back_spec.
  apply (table_lookup
           (fun n => let s := string_of_nat n in
                     (String.length s =? 4)%nat && all_digits s
                     && match parseInt s with
                        | Some z => z =? Z.of_nat n
                        | None => false
                        end) 1000 (Z.to_nat 9000));
    [vm_compute; reflexivity | lia].
Qed.

Lemma short_numerals (n : nat) :
  (n < 1000)%nat -> (String.length (string_of_nat n) <= 3)%nat.
Proof.
  intros Hn. apply Nat.leb_le.
  apply (table_lookup
           (fun n => (String.length (string_of_nat n) <=? 3)%nat) 0 1000);
    [vm_compute; reflexivity | lia].
Qed.

Lemma four_digit_numerals (n : nat) :
  String.length (string_of_nat n) = 4%nat -> 1000 <= Z.of_nat n <= 9999.
Proof.
  intros H. pose proof (string_of_nat_bound n) as Hb. rewrite H in Hb.
  apply Nat2Z.inj_lt in Hb. change (Z.of_nat (10 ^ 4)) with 10000 in Hb.
  destruct (Nat.lt_ge_cases n 1000) as [Hs|Hs]; [|lia].
  apply short_numerals in Hs. lia.
Qed.

Lemma prefixOf_cases (type : ShipmentType) :
  (prefixOf type = "INT" \/ prefixOf type = "LOC")
  /\ String.length (prefixOf type) = 3%nat
  /\ free_of "-" (prefixOf type) = true
  /\ typeOfPrefix (Some (prefixOf type)) = type.
Proof. destruct type; cbn; auto. Qed.

(** *** Generation and parsing *)

(** A number made of a four-digit year, a month and a day in two digits
    and a sequence of three digits is read back part by part. *)
Lemma reading_a_number (type : ShipmentType) (Y M D K : string) :
  digitString 4 Y -> digitString 2 M -> digitString 2 D -> digitString 3 K ->
  let tn := (prefixOf type ++ "-" ++ (Y ++ M ++ D) ++ "-" ++ K)%string in
  isValidTrackingNumber tn = true
  /\ getShipmentTypeFromTracking tn = Ok type
  /\ getDateFromTracking tn
     = Ok {| arg_year := parseInt Y;
             arg_month := option_map (fun m => m - 1) (parseInt M);
             arg_day := parseInt D |}
  /\ parseTrackingNumber tn
     = Ok {| parsed_type := type;
             parsed_date :=
               {| arg_year := parseInt Y;
                  arg_month := option_map (fun m => m - 1) (parseInt M);
                  arg_day := parseInt D |};
             parsed_sequence := parseInt K;
             parsed_formatted :=
               (prefixOf type ++ "-" ++ (Y ++ "-" ++ M ++ "-" ++ D)
                  ++ "-" ++ K)%string |}.
Proof.
  intros HY HM HD HK tn.
  destruct (prefixOf_cases type) as (Hp & Hpl & Hpf & Hpt).
  assert (Hds : digitString 8 (Y ++ M ++ D)).
  { apply (digitString_append 4 4); [exact HY|].
    apply (digitString_append 2 2); assumption. }
  assert (Hvalid : isValidTrackingNumber tn = true).
  { apply isValidTrackingNumber_shape.
    exists (prefixOf type), (Y ++ M ++ D)%string, K.
    split; [exact Hp|]. split; [exact Hds|]. split; [exact HK | reflexivity]. }
  assert (Hsplit : split "-" tn = [prefixOf type; (Y ++ M ++ D)%string; K]).
  { apply split_shape; [exact Hpf | apply Hds | apply HK]. }
  destruct (date_parts Y M D (proj1 HY) (proj1 HM) (proj1 HD))
    as (EY & EM & ED).
  assert (Hdate : getDateFromTracking tn
                  = Ok {| arg_year := parseInt Y;
                          arg_month :=
                            option_map (fun m => m - 1) (parseInt M);
                          arg_day := parseInt D |}).
  { unfold getDateFromTracking. rewrite Hvalid, Hsplit.
    cbn [negb lookup list_lookup]. rewrite EY, EM, ED. reflexivity. }
  split; [exact Hvalid|]. split; [|split; [exact Hdate|]].
  - unfold getShipmentTypeFromTracking. rewrite Hvalid, Hsplit.
    cbn [negb lookup list_lookup]. rewrite Hpt. reflexivity.
  - unfold parseTrackingNumber, formatTrackingNumber.
    rewrite Hdate, Hvalid, Hsplit.
    cbn [negb lookup list_lookup template_part]. rewrite EY, EM, ED, Hpt.
    reflexivity.
Qed.

(** X12. A tracking number generated on a day of a four-digit year is
    valid and is read back in full: [getShipmentTypeFromTracking] gives
    the type it was generated for, [getDateFromTracking] builds its date
    from the year, the month index and the day of the generation, and
    [parseTrackingNumber] gives these together with the random sequence
    number and the display form [PREFIX-YYYY-MM-DD-NNN]. *)
Theorem tracking_number_round_trip (now : CalendarDate) (random : nat)
    (type : ShipmentType) :
  1000 <= fullYear now <= 9999 ->
  (month now <= 11)%nat -> (date now <= 31)%nat -> (random <= 999)%nat ->
  let tn := generateTrackingNumber now random type in
  let built :=
    {| arg_year := Some (fullYear now);
       arg_month := Some (Z.of_nat (month now));
       arg_day := Some (Z.of_nat (date now)) |} in
  isValidTrackingNumber tn = true
  /\ getShipmentTypeFromTracking tn = Ok type
  /\ getDateFromTracking tn = Ok built
  /\ exists formatted,
       parseTrackingNumber tn
       = Ok {| parsed_type := type;
               parsed_date := built;
               parsed_sequence := Some (Z.of_nat random);
               parsed_formatted := formatted |}
       /\ String.length formatted = 18%nat
       /\ split "-" formatted
          = [prefixOf type;
             string_of_int (fullYear now);
             padStart0 2 (string_of_nat (month now + 1));
             padStart0 2 (string_of_nat (date now));
             padStart0 3 (string_of_nat random)].
Proof.
  intros Hy Hm Hd Hk. cbv zeta.
  assert (EY : string_of_int (fullYear now)
               = string_of_nat (Z.to_nat (fullYear now))).
  { unfold string_of_int. destruct (Z.ltb_spec (fullYear now) 0); [lia|].
    reflexivity. }
  destruct (four_digits (Z.to_nat (fullYear now))) as [HY PY]; [lia|].
  destruct (two_digits (month now + 1)) as [HM PM]; [lia|].
  destruct (two_digits (date now)) as [HD PD]; [lia|].
  destruct (three_digits random) as [HK PK]; [lia|].
  rewrite Z2Nat.id in PY by lia.
  destruct (reading_a_number type _ _ _ _ HY HM HD HK)
    as (Hvalid & Htype & Hdate & Hparse).
  unfold generateTrackingNumber. cbv zeta. rewrite EY.
  rewrite PY, PM, PD in Hdate, Hparse. rewrite PK in Hparse.
  cbn [option_map] in Hdate, Hparse.
  replace (Z.of_nat (month now + 1) - 1) with (Z.of_nat (month now))
    in Hdate, Hparse by lia.
  split; [exact Hvalid|]. split; [exact Htype|]. split; [exact Hdate|].
  eexists. split; [exact Hparse|].
  destruct (prefixOf_cases type) as (_ & Hpl & Hpf & _).
  split.
  - rewrite !length_append, Hpl, (proj1 HY), (proj1 HM), (proj1 HD),
      (proj1 HK). reflexivity.
  - rewrite !append_assoc. step_append.
    rewrite (split_append "-" _ _ Hpf).
    rewrite (split_append "-" _ _
               (all_digits_free_of_dash _ (proj2 HY))).
    rewrite (split_append "-" _ _
               (all_digits_free_of_dash _ (proj2 HM))).
    rewrite (split_append "-" _ _
               (all_digits_free_of_dash _ (proj2 HD))).
    rewrite (split_free "-" _ (all_digits_free_of_dash _ (proj2 HK))).
    reflexivity.
Qed.

(** X13. The numbers that [generateTrackingNumber] makes are valid exactly
    in the years that are written with four digits: the year goes into
    the number unpadded, and the pattern asks for eight digits of date.
    A number generated in a year before 1000 or after 9999 is rejected
    by [isValidTrackingNumber] and by every function that checks with
    it. *)
Theorem generated_number_valid_iff_four_digit_year (now : CalendarDate)
    (random : nat) (type : ShipmentType) :
  (month now <= 11)%nat -> (date now <= 31)%nat -> (random <= 999)%nat ->
  (isValidTrackingNumber (generateTrackingNumber now random type) = true
   <-> 1000 <= fullYear now <= 9999)
  /\ (~ 1000 <= fullYear now <= 9999 ->
      getShipmentTypeFromTracking (generateTrackingNumber now random type)
      = invalid
      /\ getDateFromTracking (generateTrackingNumber now random type)
         = invalid
      /\ formatTrackingNumber (generateTrackingNumber now random type)
         = invalid
      /\ parseTrackingNumber (generateTrackingNumber now random type)
         = invalid).
Proof.
  intros Hm Hd Hk.
  destruct (two_digits (month now + 1)) as [HM _]; [lia|].
  destruct (two_digits (date now)) as [HD _]; [lia|].
  destruct (three_digits random) as [HK _]; [lia|].
  assert (Hiff : isValidTrackingNumber (generateTrackingNumber now random type)
                 = true <-> 1000 <= fullYear now <= 9999).
  { split.
    - intros H. apply isValidTrackingNumber_shape in H
        as (p & ds & qs & Hp & Hds & Hqs & E).
      unfold generateTrackingNumber in E. cbv zeta in E.
      destruct (prefixOf_cases type) as (_ & Hpl & _ & _).
      apply append_inj in E as [_ E];
        [|destruct Hp as [-> | ->]; rewrite Hpl; reflexivity].
      revert E. step_append. intros [= E].
      assert (Hlen : String.length (string_of_int (fullYear now)) = 4%nat).
      { apply (f_equal String.length) in E.
        rewrite ?length_append in E. cbn [String.length] in E.
        rewrite ?length_append in E.
        rewrite (proj1 HM), (proj1 HD), (proj1 HK), (proj1 Hds),
          (proj1 Hqs) in E. lia. }
      unfold string_of_int in E, Hlen.
      destruct (Z.ltb_spec (fullYear now) 0) as [Hneg|Hpos].
      + exfalso. destruct Hds as [Hl Hd8].
        destruct ds as [|c ds]; [discriminate Hl|].
        revert E. step_append. intros [= <- _].
        discriminate Hd8.
      + apply four_digit_numerals in Hlen. lia.
    - intros Hy.
      assert (EY : string_of_int (fullYear now)
                   = string_of_nat (Z.to_nat (fullYear now))).
      { unfold string_of_int. destruct (Z.ltb_spec (fullYear now) 0); [lia|].
        reflexivity. }
      destruct (four_digits (Z.to_nat (fullYear now))) as [HY _]; [lia|].
      unfold generateTrackingNumber. cbv zeta. rewrite EY.
      apply (reading_a_number type _ _ _ _ HY HM HD HK). }
  split; [exact Hiff|].
  intros Hn.
  assert (Hv : isValidTrackingNumber (generateTrackingNumber now random type)
               = false).
  { destruct (isValidTrackingNumber _); [|reflexivity].
    exfalso. apply Hn, Hiff. reflexivity. }
  unfold getShipmentTypeFromTracking, getDateFromTracking,
    formatTrackingNumber, parseTrackingNumber.
  rewrite Hv. cbn [negb]. repeat split.
Qed.

(** X14. The pre-save hook gives a tracking number to the documents that
    need one and leaves the others alone: a draft, and a document that
    has a non-empty number, come out as they went in; a document that is
    no draft comes out with a non-empty number; applying the hook again,
    on any later day and with any random number, changes nothing. It
    never alters the draft flag or the type. *)
Theorem preSave_assigns_once (now : CalendarDate) (random : nat)
    (this : Document) :
  (isDraft this = true \/ truthy (trackingNumber this) = true ->
   preSave now random this = this)
  /\ (isDraft this = false ->
      truthy (trackingNumber (preSave now random this)) = true)
  /\ (forall later random',
        preSave later random' (preSave now random this)
        = preSave now random this)
  /\ isDraft (preSave now random this) = isDraft this
  /\ doc_type (preSave now random this) = doc_type this.
Proof.
  assert (Hgen : forall t,
             truthy (Some (generateTrackingNumber now random t)) = true).
  { intros t. unfold generateTrackingNumber. cbv zeta.
    destruct t; cbn [prefixOf]; step_append; reflexivity. }
  unfold preSave.
  destruct (truthy (trackingNumber this)) eqn:Ht, (isDraft this) eqn:Hd;
    cbn [negb andb trackingNumber isDraft doc_type];
    rewrite ?Ht, ?Hd, ?Hgen; cbn [negb andb];
    (split; [|split; [|split; [|split]]]);
    try reflexivity; try assumption; try discriminate.
  - intros [?|?]; discriminate.
Qed.

End TrackingNumbers.

(** *** Reading valid numbers *)

Section ValidNumbers.
Import JS JSString ShipmentService TrackingNumber.

Ltac step_append := repeat (rewrite append_cons || rewrite append_nil).

Lemma digit_cases (c : ascii) :
  isDigit c = true ->
  In c ["0"; "1"; "2"; "3"; "4"; "5"; "6"; "7"; "8"; "9"]%char.
Proof.
  destruct c as [[] [] [] [] [] [] [] []]; intros H;
    try discriminate H; cbn; auto 11.
Qed.

Lemma digitValue_digit (c : ascii) :
  isDigit c = true ->
  exists d, digitValue 10 c = Some d /\ (d <= 9)%nat.
Proof.
  intros H. unfold digitValue. rewrite H. eexists. split; [reflexivity|].
  unfold isDigit in H. apply andb_prop in H as [_ H'].
  apply Nat.leb_le in H'. lia.
Qed.

Lemma leadingDigits_all (s : string) :
  all_digits s = true ->
  length (leadingDigits 10 s) = String.length s
  /\ Forall (fun d => (d <= 9)%nat) (leadingDigits 10 s).
Proof.
  induction s as [|c s IH]; cbn [all_digits leadingDigits String.length].
  - intros _. split; [reflexivity | constructor].
  - intros H. apply andb_prop in H as [Hc Hs].
    destruct (digitValue_digit c Hc) as (d & -> & Hd).
    destruct (IH Hs) as [Hl Hf]. cbn [length]. split; [congruence|].
    constructor; assumption.
Qed.

Lemma numeral_from (ds : list nat) (acc : Z) :
  Forall (fun d => (d <= 9)%nat) ds -> 0 <= acc ->
  0 <= fold_left (fun acc d => Z.of_nat 10 * acc + Z.of_nat d) ds acc
  < (acc + 1) * 10 ^ Z.of_nat (length ds).
Proof.
  intros Hf. revert acc.
  induction Hf as [|d ds Hd Hf IH]; intros acc Hacc; cbn [fold_left length].
  - rewrite Z.pow_0_r. lia.
  - replace (Z.of_nat (S (length ds))) with (Z.succ (Z.of_nat (length ds)))
      by lia.
    rewrite Z.pow_succ_r by lia.
    specialize (IH (Z.of_nat 10 * acc + Z.of_nat d)).
    assert (0 < 10 ^ Z.of_nat (length ds)) by (apply Z.pow_pos_nonneg; lia).
    nia.
Qed.

Lemma numeral_bound (ds : list nat) :
  Forall (fun d => (d <= 9)%nat) ds ->
  0 <= numeral 10 ds < 10 ^ Z.of_nat (length ds).
Proof.
  intros Hf. pose proof (numeral_from ds 0 Hf) as H.
  unfold numeral. lia.
Qed.

Lemma parseInt_digits (s : string) :
  all_digits s = true -> s <> EmptyString ->
  parseInt s = Some (numeral 10 (leadingDigits 10 s)).
Proof.
  destruct s as [|c rest]; [contradiction|]. cbn [all_digits].
  intros H _. apply andb_prop in H as [Hc Hrest].
  apply digit_cases in Hc. cbn in Hc.
  destruct Hc as [<-|[<-|[<-|[<-|[<-|[<-|[<-|[<-|[<-|[<-|[]]]]]]]]]]];
    try reflexivity.
  destruct rest as [|c2 r]; [reflexivity|].
  cbn [all_digits] in Hrest. apply andb_prop in Hrest as [Hc2 _].
  apply digit_cases in Hc2. cbn in Hc2.
  destruct Hc2 as [<-|[<-|[<-|[<-|[<-|[<-|[<-|[<-|[<-|[<-|[]]]]]]]]]]];
    reflexivity.
Qed.

Lemma parseInt_digitString (n : nat) (s : string) :
  digitString (S n) s ->
  exists v, parseInt s = Some v /\ 0 <= v < 10 ^ Z.of_nat (S n).
Proof.
  intros [Hl Hd]. exists (numeral 10 (leadingDigits 10 s)).
  split.
  - apply parseInt_digits; [exact Hd|]. intros ->. discriminate Hl.
  - destruct (leadingDigits_all s Hd) as [Hlen Hf].
    rewrite <- Hl, <- Hlen. apply numeral_bound, Hf.
Qed.

Lemma digitString_split (n m : nat) (s : string) :
  digitString (n + m) s ->
  exists a b, s = (a ++ b)%string /\ digitString n a /\ digitString m b.
Proof.
  revert s. induction n as [|n IH]; intros s [Hl Hd].
  - exists EmptyString, s. split; [reflexivity|].
    split; split; try reflexivity; assumption.
  - destruct s as [|c s]; [discriminate Hl|].
    cbn in Hl, Hd. apply andb_prop in Hd as [Hc Hd].
    destruct (IH s) as (a & b & -> & [Hla Hda] & Hb).
    { split; [congruence | exact Hd]. }
    exists (String c a), b. split; [reflexivity|].
    split; [|exact Hb]. split; [cbn; congruence|].
    cbn. rewrite Hc, Hda. reflexivity.
Qed.

(** X15. Every number that [isValidTrackingNumber] accepts is read in
    full: [getShipmentTypeFromTracking], [getDateFromTracking],
    [formatTrackingNumber] and [parseTrackingNumber] all return, none of
    the numbers read is [NaN], and the parts agree. The pattern does not
    ask for a date of the calendar: the month index that is read ranges
    from -1 to 98 and the day from 0 to 99. *)
Theorem valid_numbers_are_read_in_full (tn : string) :
  isValidTrackingNumber tn = true ->
  exists type year month day sequence formatted,
    getShipmentTypeFromTracking tn = Ok type
    /\ getDateFromTracking tn
       = Ok {| arg_year := Some year; arg_month := Some month;
               arg_day := Some day |}
    /\ formatTrackingNumber tn = Ok formatted
    /\ parseTrackingNumber tn
       = Ok {| parsed_type := type;
               parsed_date :=
                 {| arg_year := Some year; arg_month := Some month;
                    arg_day := Some day |};
               parsed_sequence := Some sequence;
               parsed_formatted := formatted |}
    /\ (type = international <-> startsWith "INT" tn = true)
    /\ 0 <= year <= 9999 /\ -1 <= month <= 98 /\ 0 <= day <= 99
    /\ 0 <= sequence <= 999
    /\ String.length formatted = 18%nat.
Proof.
  intros H. apply isValidTrackingNumber_shape in H
    as (p & ds & qs & Hp & Hds & Hqs & ->).
  destruct (digitString_split 4 4 ds Hds) as (Y & MD & -> & HY & HMD).
  destruct (digitString_split 2 2 MD HMD) as (M & D & -> & HM & HD).
  assert (Htype : exists type, p = prefixOf type).
  { destruct Hp as [-> | ->];
      [exists international | exists local]; reflexivity. }
  destruct Htype as [type ->].
  destruct (reading_a_number type Y M D qs HY HM HD Hqs)
    as (_ & Htype & Hdate & Hparse).
  destruct (parseInt_digitString 3 Y HY) as (y & Ey & Hy).
  destruct (parseInt_digitString 1 M HM) as (m & Em & Hm).
  destruct (parseInt_digitString 1 D HD) as (d & Ed & Hd).
  destruct (parseInt_digitString 2 qs Hqs) as (k & Ek & Hk).
  rewrite Ey, Em, Ed in Hdate, Hparse. rewrite Ek in Hparse.
  cbn [option_map] in Hdate, Hparse.
  change (10 ^ Z.of_nat 4) with 10000 in Hy.
  change (10 ^ Z.of_nat 2) with 100 in Hm, Hd.
  change (10 ^ Z.of_nat 3) with 1000 in Hk.
  exists type, y, (m - 1), d, k. eexists.
  split; [exact Htype|]. split; [exact Hdate|].
  split.
  { revert Hparse. unfold parseTrackingNumber.
    destruct (negb (isValidTrackingNumber _)); [discriminate|].
    rewrite Hdate.
    destruct (formatTrackingNumber _) as [f|]; [|discriminate].
    intros E.
    apply (f_equal (fun r => match r with
                             | Ok x => Some (parsed_formatted x)
                             | Err _ => None
                             end)) in E.
    cbn [parsed_formatted] in E. injection E as ->. reflexivity. }
  split; [exact Hparse|].
  split.
  { destruct type; cbn [prefixOf]; step_append; split;
      try reflexivity; discriminate. }
  destruct (prefixOf_cases type) as (_ & Hpl & _ & _).
  repeat (split; [lia|]).
  rewrite !length_append, Hpl, (proj1 HY), (proj1 HM), (proj1 HD),
    (proj1 Hqs). reflexivity.
Qed.

End ValidNumbers.

(** ** Responses *)

Section Responses.
Import JS JSString Shipment PaymentService ResponseHandler.

Lemma inherited_lookup_empty (field : string) :
  inherited field = true -> (empty : gmap string (list string)) !! field = None.
Proof. intros _. apply lookup_empty. Qed.

(** The iteration from an object none of whose own properties has a
    name of the prototype. *)
Lemma addErrors_from (errors : list ValidationError)
    (acc : gmap string (list string)) :
  (forall field, inherited field = true -> acc !! field = None) ->
  match addErrors acc errors with
  | Ok formattedErrors =>
      Forall (fun error => inherited (path error) = false) errors
      /\ forall field,
           formattedErrors !! field
           = match acc !! field, messagesFor field errors with
             | Some l, ms => Some (l ++ ms)%list
             | None, [] => None
             | None, ms => Some ms
             end
  | Err e =>
      Exists (fun error => inherited (path error) = true) errors
      /\ e = {| te_message := "formattedErrors[field].push is not a function" |}
  end.
Proof.
  revert acc. induction errors as [|e errors IH]; intros acc Hacc.
  - cbn [addErrors]. split; [constructor|]. intros field. cbn.
    destruct (acc !! field); [rewrite app_nil_r|]; reflexivity.
  - cbn [addErrors]. unfold addError, get. cbv zeta.
    destruct (acc !! path e) as [l|] eqn:El.
    + cbv beta iota. rewrite El. cbv beta iota.
      assert (Hi : inherited (path e) = false).
      { destruct (inherited (path e)) eqn:Hi; [|reflexivity].
        rewrite (Hacc _ Hi) in El. discriminate. }
      specialize (IH (<[path e := (l ++ [msg e])%list]> acc)).
      destruct (addErrors _ errors) as [m|te].
      * destruct IH as [Hall Hm].
        { intros field Hf. rewrite lookup_insert_ne; [apply Hacc, Hf|].
          intros <-. congruence. }
        split; [constructor; assumption|]. intros field. rewrite Hm.
        unfold messagesFor. cbn [List.filter].
        destruct (String.eqb_spec (path e) field) as [<-|Hne].
        -- rewrite lookup_insert_eq, El. cbn [map]. rewrite <- app_assoc.
           reflexivity.
        -- rewrite lookup_insert_ne by exact Hne. reflexivity.
      * destruct IH as [Hex ->].
        { intros field Hf. rewrite lookup_insert_ne; [apply Hacc, Hf|].
          intros <-. congruence. }
        split; [right; exact Hex | reflexivity].
    + destruct (inherited (path e)) eqn:Hi.
      * cbv beta iota. rewrite El. cbv beta iota.
        split; [left; exact Hi | reflexivity].
      * cbv beta iota. rewrite lookup_insert_eq. cbv beta iota.
        specialize (IH (<[path e := ([] ++ [msg e])%list]>
                          (<[path e := []]> acc))).
        destruct (addErrors _ errors) as [m|te].
        -- destruct IH as [Hall Hm].
           { intros field Hf. rewrite !lookup_insert_ne;
               [apply Hacc, Hf | intros <-; congruence ..]. }
           split; [constructor; assumption|]. intros field. rewrite Hm.
           unfold messagesFor. cbn [List.filter].
           destruct (String.eqb_spec (path e) field) as [<-|Hne].
           ++ rewrite lookup_insert_eq, El. reflexivity.
           ++ rewrite !lookup_insert_ne by exact Hne. reflexivity.
        -- destruct IH as [Hex ->].
           { intros field Hf. rewrite !lookup_insert_ne;
               [apply Hacc, Hf | intros <-; congruence ..]. }
           split; [right; exact Hex | reflexivity].
Qed.

(** X16. [formatValidationErrors] starts from the literal [{}], which
    inherits the properties of [Object.prototype]. When no error names
    a field after one of them ([constructor], [toString], [__proto__]
    and the like), it groups the messages by field and loses none: a
    field has an entry exactly when some error names it, and the entry
    lists the messages of its errors in the order in which the errors
    came. When some error does, the inherited property is taken for the
    array of the field, and the call ends in the [TypeError] of a
    [push] that is no function. *)
Theorem formatValidationErrors_groups (errors : list ValidationError) :
  match formatValidationErrors errors with
  | Ok formattedErrors =>
      Forall (fun error => inherited (path error) = false) errors
      /\ forall field,
           formattedErrors !! field
           = match messagesFor field errors with
             | [] => None
             | ms => Some ms
             end
  | Err e =>
      Exists (fun error => inherited (path error) = true) errors
      /\ e = {| te_message := "formattedErrors[field].push is not a function" |}
  end.
Proof.
  unfold formatValidationErrors.
  pose proof (addErrors_from errors empty inherited_lookup_empty) as H.
  destruct (addErrors empty errors) as [m|te]; [|exact H].
  destruct H as [Hall Hm]. split; [exact Hall|].
  intros field. rewrite Hm, lookup_empty. reflexivity.
Qed.

(** Two errors of one field and one of another; and an error of a field
    called [constructor]. *)
Example formatValidationErrors_of_two_fields :
  formatValidationErrors
    [{| path := "email"; msg := "required" |};
     {| path := "name"; msg := "too short" |};
     {| path := "email"; msg := "not an address" |}]
  = Ok (<["email" := ["required"; "not an address"]]>
          (<["name" := ["too short"]]> empty)).
Proof. vm_compute. reflexivity. Qed.

Example formatValidationErrors_of_constructor :
  formatValidationErrors
    [{| path := "email"; msg := "required" |};
     {| path := "constructor"; msg := "not allowed" |}]
  = Err {| te_message := "formattedErrors[field].push is not a function" |}.
Proof. vm_compute. reflexivity. Qed.

End Responses.

(** ** The payment routes *)

Section RouteRejections.
Import JS JSString Shipment PaymentService ResponseHandler.

Variable delivers : Message -> bool.
Variable verify : string -> option Auth.Decoded.
Variable findUser : string -> option Auth.User.

(** What a handler of the payment controller hands to [next]: an
    [AppError] with the world as it was, or a validation error. *)
Lemma dispatch_thrown (r : PaymentController.Request) (w : World) :
  (forall e, snd (PaymentController.dispatch delivers r w) = Err (Thrown e) ->
             fst (PaymentController.dispatch delivers r w) = w
             /\ In (statusCode e) [400; 403; 404])
  /\ (forall e, snd (PaymentController.dispatch delivers r w)
                <> Err (Unhandled e)).
Proof.
  destruct (dispatch_rejects delivers r w) as (w' & e & E & _ & _ & He).
  rewrite E. cbn [fst snd]. split.
  - intros a [= ->]. exact He.
  - intros a [= ->]. exact He.
Qed.

Lemma getPaymentStatus_thrown (u id : string) (w : World) :
  fst (PaymentQueries.getPaymentStatus u id w) = w
  /\ (forall e, snd (PaymentQueries.getPaymentStatus u id w) = Err (Thrown e) ->
                statusCode e = 404 \/ statusCode e = 403)
  /\ (forall e, snd (PaymentQueries.getPaymentStatus u id w)
                <> Err (Unhandled e)).
Proof.
  unfold PaymentQueries.getPaymentStatus, getPaymentStatus, bind,
    PaymentService.findById, throw, ret.
  destruct (shipments w !! id) as [s|] eqn:H; cbn [option_map].
  2:{ cbn [fst snd]. split; [reflexivity|].
      split; [intros e [= <-]; auto | discriminate]. }
  destruct (PaymentController.notOwner (Document.hydrate s) u).
  { cbn [fst snd]. split; [reflexivity|].
    split; [intros e [= <-]; auto | discriminate]. }
  rewrite H. cbn [option_map fst snd]. split; [reflexivity|].
  split; discriminate.
Qed.

(** The three routes with validators, after [protect] and [authorize]
    have let the request through. *)
Lemma validated_route (errorMessages : list string)
    (r : PaymentController.Request) (w : World) :
  let run :=
    (_ <- (_ <- PaymentRoutes.validate errorMessages ;;
           PaymentController.dispatch delivers r) ;;
     ret tt) w in
  (forall e, snd run = Err (Thrown e) ->
             fst run = w /\ In (statusCode e) [400; 401; 403; 404])
  /\ (forall e, snd run = Err (Unhandled e) ->
                fst run = w /\ statusCode e = 400
                /\ exists rest, errorMessages = message e :: rest)
  /\ (errorMessages = [] -> forall e, snd run <> Err (Unhandled e)).
Proof.
  cbv zeta. unfold bind.
  destruct errorMessages as [|m ms]; cbn [PaymentRoutes.validate].
  - unfold ret. cbv beta iota.
    destruct (dispatch_thrown r w) as [Ht Hu].
    destruct (PaymentController.dispatch delivers r w) as [w1 [s|e1]];
      cbn [fst snd] in *.
    + (split; [|split]); intros; discriminate.
    + split; [|split].
      * intros e [= ->]. destruct (Ht e eq_refl) as [-> Hin].
        split; [reflexivity|]. cbn in Hin |- *. tauto.
      * intros e [= ->]. destruct (Hu e eq_refl).
      * intros _ e [= ->]. destruct (Hu e eq_refl).
  - unfold reject. cbn [fst snd]. split; [discriminate|]. split.
    + intros e [= <-]. split; [reflexivity|]. split; [reflexivity|].
      exists ms. reflexivity.
    + discriminate.
Qed.

(** X17. The four routes of the payment router. What a route hands to
    [next] as an [AppError] has status code 400, 401, 403 or 404, and the
    request has changed nothing. The messages of the validators do not
    come that way: [validate] is an [async] middleware outside
    [asyncHandler], so the [AppError] that it throws for the first
    message, with code 400, rejects a promise that nothing handles; the
    request has passed [protect] and [authorize], has changed nothing and
    is on one of the three routes with validators. *)
Theorem payment_route_rejections
    (req : Auth.Request) (errorMessages : list string)
    (call : PaymentRoutes.Call) (w : World) :
  let run :=
    PaymentRoutes.run delivers verify findUser req errorMessages call w in
  (forall e, snd run = Err (Thrown e) ->
             fst run = w /\ In (statusCode e) [400; 401; 403; 404])
  /\ (forall e, snd run = Err (Unhandled e) ->
                fst run = w
                /\ statusCode e = 400
                /\ (exists rest, errorMessages = message e :: rest)
                /\ (exists user, Auth.protect verify findUser req = Ok user)
                /\ forall shipmentId,
                     call <> PaymentRoutes.StatusCall shipmentId)
  /\ (errorMessages = [] -> forall e, snd run <> Err (Unhandled e)).
Proof.
  cbv zeta.
  unfold PaymentRoutes.run, PaymentRoutes.initializeRoute,
    PaymentRoutes.verifyRoute, PaymentRoutes.refundRoute,
    PaymentRoutes.statusRoute, PaymentRoutes.middleware.
  destruct (Auth.protect verify findUser req) as [u|e0] eqn:Hp.
  2:{ apply protect_err in Hp. subst e0.
      destruct call; unfold bind; cbn [fst snd];
        (split; [intros e [= <-]; split; [reflexivity | cbn; tauto]|]);
        split; intros; discriminate. }
  unfold bind. cbv beta iota.
  destruct call as [body|id verified notes reason|id reason amount|id].
  - pose proof (validated_route errorMessages
                  (PaymentController.Initialize (Auth.user_id u) body) w)
      as (Ht & Hu & Hn).
    split; [exact Ht|]. split; [|exact Hn].
    intros e He. destruct (Hu e He) as (E1 & E2 & E3).
    repeat split; try assumption; [eauto | discriminate].
  - unfold Auth.authorize.
    destruct (existsb _ _); cbn [negb].
    2:{ cbn [fst snd].
        split; [intros e [= <-]; split; [reflexivity | cbn; tauto]|].
        split; intros; discriminate. }
    pose proof (validated_route errorMessages
                  (PaymentController.Verify (Auth.user_id u) id verified
                     notes reason) w) as (Ht & Hu & Hn).
    split; [exact Ht|]. split; [|exact Hn].
    intros e He. destruct (Hu e He) as (E1 & E2 & E3).
    repeat split; try assumption; [eauto | discriminate].
  - unfold Auth.authorize.
    destruct (existsb _ _); cbn [negb].
    2:{ cbn [fst snd].
        split; [intros e [= <-]; split; [reflexivity | cbn; tauto]|].
        split; intros; discriminate. }
    pose proof (validated_route errorMessages
                  (PaymentController.Refund (Auth.user_id u) id reason
                     amount) w) as (Ht & Hu & Hn).
    split; [exact Ht|]. split; [|exact Hn].
    intros e He. destruct (Hu e He) as (E1 & E2 & E3).
    repeat split; try assumption; [eauto | discriminate].
  - destruct (getPaymentStatus_thrown (Auth.user_id u) id w)
      as (Hw & Ht & Hu).
    destruct (PaymentQueries.getPaymentStatus (Auth.user_id u) id w)
      as [w1 [v|e1]]; cbn [fst snd] in *; subst w1.
    + unfold ret. cbn [fst snd]. (split; [|split]); intros; discriminate.
    + split; [|split].
      * intros e [= ->]. split; [reflexivity|].
        destruct (Ht e eq_refl) as [E | E]; rewrite E; cbn; tauto.
      * intros e [= ->]. destruct (Hu e eq_refl).
      * intros _ e [= ->]. destruct (Hu e eq_refl).
Qed.

End RouteRejections.
(** ** Status updates *)

Section StatusUpdate.
Import JS Shipment PaymentService StatusUpdates.


Variable delivers : Message -> bool.
Variable isDraft : string -> bool.
Variable userExists : string -> bool.


End StatusUpdate.

(** ** Chargeable weight *)

Section ChargeableWeight.
Import JS ShipmentService.

Lemma SFcompare_swap (x y : spec_float) :
  SFcompare y x = option_map CompOpp (SFcompare x y).
Proof.
  destruct x as [sx|sx| |sx mx ex], y as [sy|sy| |sy my ey];
    try reflexivity;
    try (destruct sx; reflexivity); try (destruct sy; reflexivity);
    try (destruct sx, sy; reflexivity).
  cbn [SFcompare option_map].
  pose proof (Pos.compare_cont_antisym mx my Eq) as Ha.
  change (CompOpp Eq) with Eq in Ha.
  destruct sx, sy; try reflexivity;
    rewrite (Z.compare_antisym ex ey);
    destruct (ex ?= ey); cbn [CompOpp]; try reflexivity;
    rewrite <- Ha; destruct (Pos.compare_cont Eq mx my); reflexivity.
Qed.

Lemma is_nan_false (x : float) :
  is_nan x = false -> SFcompare (Prim2SF x) (Prim2SF x) = Some Eq.
Proof.
  unfold is_nan. rewrite FloatAxioms.eqb_spec. unfold SFeqb.
  destruct (SFcompare (Prim2SF x) (Prim2SF x)) as [[]|]; cbn [negb];
    congruence.
Qed.

Lemma SFcompare_defined (x y : spec_float) :
  SFcompare x x = Some Eq -> SFcompare y y = Some Eq ->
  exists c, SFcompare x y = Some c.
Proof.
  destruct x, y; cbn [SFcompare]; intros Hx Hy; try discriminate; eauto.
Qed.

(** X21. The chargeable weight of a package is the larger of its weight
    and its volumetric weight: unless one of the two is NaN, in which
    case it is NaN, it is one of the two numbers and neither of them
    exceeds it. *)
Theorem calculateChargeableWeight_is_the_larger (pkg : Package) :
  let w := weight pkg in
  let v := calculateVolumetricWeight (dimensions pkg) in
  let r := calculateChargeableWeight pkg in
  if (is_nan w || is_nan v)%bool then is_nan r = true
  else (r = w \/ r = v)
       /\ (w <=? r)%float = true /\ (v <=? r)%float = true.
Proof.
  cbv zeta. unfold calculateChargeableWeight, Math_max.
  set (w := weight pkg). set (v := calculateVolumetricWeight (dimensions pkg)).
  destruct (is_nan w) eqn:Hw; cbn [orb]; [reflexivity|].
  destruct (is_nan v) eqn:Hv; [reflexivity|].
  apply is_nan_false in Hw, Hv.
  destruct (SFcompare_defined _ _ Hw Hv) as [c Hc].
  pose proof (SFcompare_swap (Prim2SF w) (Prim2SF v)) as Hs.
  rewrite Hc in Hs. cbn [option_map] in Hs.
  rewrite !FloatAxioms.ltb_spec. unfold SFltb. rewrite Hc, Hs.
  destruct c; cbn [CompOpp];
    [destruct (get_sign w)| |];
    rewrite !FloatAxioms.leb_spec; unfold SFleb;
    rewrite ?Hc, ?Hs, ?Hw, ?Hv; cbn [CompOpp]; auto.
Qed.

End ChargeableWeight.

(** ** The shipment routes *)

Section Routing.
Import JS JSString ShipmentRoutes.

Ltac route_step :=
  cbn [List.find route_method route_path method_eqb andb matchPath
       matchSegment negb String.eqb];
  change (eqb_nocase "stats" EmptyString) with false;
  rewrite ?andb_false_r, ?andb_true_r;
  cbn [List.find andb].

Ltac route_cases :=
  repeat match goal with
         | |- context [if ?c then _ else _] => destruct c
         end;
  cbn [option_map route_handler]; try discriminate.

(** X22. No request reaches [getShipmentStats]. Its route, [GET /stats],
    is registered after [GET /:id], and a path of one segment that
    matches [stats] also matches the parameter; so the router hands
    every such request to [getShipment]. Every other handler of the
    router is reached by some request. *)
Theorem getShipmentStats_is_unreachable (h : Handler) :
  (exists method path, select method path = Some h)
  <-> h <> getShipmentStats.
Proof.
  split.
  - intros (method & path & H) ->. revert H. unfold select, routes.
    destruct method; destruct path as [|s [|s2 [|s3 rest]]];
      try destruct s as [|c s];
      route_step; route_cases.
  - intros Hh.
    destruct h; try contradiction;
      [exists GET, ["track"; "ENV1"] | exists POST, ["calculate-cost"]
      |exists POST, ["initialize"] | exists POST, []
      |exists GET, ["65a1"] | exists POST, ["draft"]
      |exists GET, ["draft"; "65a1"] | exists PUT, ["65a1"; "package"]
      |exists PUT, ["65a1"; "delivery"] | exists PUT, ["65a1"; "sender"]
      |exists PUT, ["65a1"; "recipient"] | exists PUT, ["65a1"; "pickup"]
      |exists PUT, ["65a1"; "insurance"] | exists GET, []
      |exists PUT, ["65a1"; "status"]]; reflexivity.
Qed.

End Routing.

(** ** The socket rooms *)

Section SocketRooms.
Import JS JSString SocketService.

Lemma addUserSocket_cons (userId socketId u : string) (s : gset string)
    (rest : UserSockets) :
  addUserSocket userId socketId ((u, s) :: rest)
  = if String.eqb u userId then (u, union s {[ socketId ]}) :: rest
    else (u, s) :: addUserSocket userId socketId rest.
Proof.
  unfold addUserSocket, Map_has. cbn [Map_get Map_set].
  destruct (String.eqb u userId) eqn:E;
    repeat (rewrite ?E; cbn [negb Map_get Map_set]); [reflexivity|].
  destruct (Map_get userId rest) as [x|] eqn:G;
    repeat (rewrite ?E, ?G; cbn [negb Map_get Map_set]); [reflexivity|].
  destruct (Map_get userId (Map_set userId empty rest));
    repeat (rewrite ?E; cbn [negb Map_get Map_set]); reflexivity.
Qed.

Lemma addUserSocket_nil (userId socketId : string) :
  addUserSocket userId socketId [] = [(userId, {[ socketId ]})].
Proof.
  unfold addUserSocket, Map_has. cbn [Map_get Map_set negb].
  rewrite String.eqb_refl. cbv beta iota.
  rewrite (left_id_L empty union). reflexivity.
Qed.

Lemma addUserSocket_keys (userId socketId : string) (m : UserSockets)
    (k : string) :
  elem_of k (map fst (addUserSocket userId socketId m)) ->
  k = userId \/ elem_of k (map fst m).
Proof.
  induction m as [|[u s] rest IH].
  - rewrite addUserSocket_nil. cbn. intros H.
    apply list_elem_of_singleton in H. auto.
  - rewrite addUserSocket_cons. destruct (String.eqb u userId); cbn [map fst].
    + auto.
    + intros H. apply elem_of_cons in H as [->|H].
      * right. left.
      * destruct (IH H) as [->|H']; [auto|]. right. right. exact H'.
Qed.

Lemma addUserSocket_tidy (userId socketId : string) (m : UserSockets) :
  tidy m -> tidy (addUserSocket userId socketId m).
Proof.
  unfold tidy. induction m as [|[u s] rest IH]; intros [Hk Hs].
  - rewrite addUserSocket_nil. split.
    + cbn. apply NoDup_singleton.
    + repeat constructor. cbn. set_solver.
  - rewrite addUserSocket_cons. cbn [map fst] in Hk.
    apply NoDup_cons in Hk as [Hu Hk].
    apply Forall_cons in Hs as [Hs1 Hs].
    destruct (String.eqb_spec u userId) as [->|Hne].
    + split; [cbn [map fst]; apply NoDup_cons; split; assumption|].
      apply Forall_cons. split; [|exact Hs]. cbn [snd]. set_solver.
    + destruct (IH (conj Hk Hs)) as [Hk' Hs'].
      split.
      * cbn [map fst]. apply NoDup_cons. split; [|exact Hk'].
        intros H. apply addUserSocket_keys in H as [->|H]; auto.
      * apply Forall_cons. split; assumption.
Qed.

Lemma removeSocket_keys (socketId : string) (m : UserSockets) (k : string) :
  elem_of k (map fst (removeSocket socketId m)) -> elem_of k (map fst m).
Proof.
  induction m as [|[u s] rest IH]; cbn [removeSocket map fst]; [auto|].
  destruct (decide (elem_of socketId s)).
  - cbv zeta. destruct (size _ =? 0)%nat; cbn [map fst].
    + intros H. right. exact H.
    + auto.
  - cbn [map fst]. intros H. apply elem_of_cons in H as [->|H].
    + left.
    + right. apply IH, H.
Qed.

Lemma removeSocket_tidy (socketId : string) (m : UserSockets) :
  tidy m -> tidy (removeSocket socketId m).
Proof.
  unfold tidy. induction m as [|[u s] rest IH]; intros [Hk Hs];
    cbn [removeSocket]; [auto|].
  cbn [map fst] in Hk. apply NoDup_cons in Hk as [Hu Hk].
  apply Forall_cons in Hs as [Hs1 Hs].
  destruct (decide (elem_of socketId s)).
  - cbv zeta. destruct (Nat.eqb_spec (size (difference s {[socketId]})) 0)
      as [E|E].
    + auto.
    + split; [cbn [map fst]; apply NoDup_cons; split; assumption|].
      apply Forall_cons. split; [|exact Hs]. cbn [snd].
      intros E'. apply E. rewrite E'. apply size_empty.
  - destruct (IH (conj Hk Hs)) as [Hk' Hs'].
    split.
    + cbn [map fst]. apply NoDup_cons. split; [|exact Hk'].
      intros H. apply Hu. apply (removeSocket_keys socketId), H.
    + apply Forall_cons. split; assumption.
Qed.

Lemma handle_tidy (m : UserSockets) (e : Event) : tidy m -> tidy (handle m e).
Proof.
  intros H. destruct e as [sid u|sid]; cbn [handle].
  - destruct (truthy (Some u)); [apply addUserSocket_tidy|]; exact H.
  - apply removeSocket_tidy, H.
Qed.

Lemma fold_handle_tidy (events : list Event) (m : UserSockets) :
  tidy m -> tidy (fold_left handle events m).
Proof.
  revert m. induction events as [|e events IH]; intros m H; cbn [fold_left].
  - exact H.
  - apply IH, handle_tidy, H.
Qed.

Lemma Map_get_elem (userId : string) (m : UserSockets) (s : gset string) :
  Map_get userId m = Some s -> elem_of (userId, s) m.
Proof.
  induction m as [|[u x] rest IH]; cbn [Map_get]; [discriminate|].
  destruct (String.eqb_spec u userId) as [->|Hne].
  - intros [= ->]. left.
  - intros H. right. apply IH, H.
Qed.

Lemma elem_Map_get (userId : string) (m : UserSockets) (s : gset string) :
  NoDup (map fst m) -> elem_of (userId, s) m -> Map_get userId m = Some s.
Proof.
  induction m as [|[u x] rest IH]; cbn [Map_get map fst]; intros Hk H.
  - inversion H.
  - apply NoDup_cons in Hk as [Hu Hk].
    apply elem_of_cons in H as [[= -> ->]|H].
    + rewrite String.eqb_refl. reflexivity.
    + destruct (String.eqb_spec u userId) as [->|Hne]; [|apply IH; assumption].
      exfalso. apply Hu. apply list_elem_of_fmap.
      exists (userId, s). split; [reflexivity | exact H].
Qed.

(** X23. The rooms stay tidy. Whatever the clients send, in any order, the
    map never keeps a user twice and never keeps a user whose set of
    sockets is empty; so a user is online exactly when the map has an
    entry for the user, and then [getUserSockets] is not empty. *)
Theorem rooms_stay_tidy (events : list Event) (userId : string) :
  tidy (run events)
  /\ isUserOnline userId (run events) = Map_has userId (run events)
  /\ (isUserOnline userId (run events) = true
      <-> getUserSockets userId (run events) <> empty).
Proof.
  assert (Ht : tidy (run events)).
  { apply fold_handle_tidy. split; [apply NoDup_nil_2 | constructor]. }
  split; [exact Ht|].
  unfold isUserOnline, Map_has, getUserSockets.
  destruct (Map_get userId (run events)) as [s|] eqn:G.
  - assert (Hs : s <> empty).
    { destruct Ht as [_ Hf]. apply Map_get_elem in G.
      rewrite Forall_forall in Hf. apply (Hf _ G). }
    assert (Hp : (0 <? size s)%nat = true).
    { apply Nat.ltb_lt. destruct (size s) eqn:E; [|lia].
      exfalso. apply Hs. apply leibniz_equiv, size_empty_iff, E. }
    rewrite Hp. split; [reflexivity|]. split; auto.
  - split; [reflexivity|]. split; [discriminate|]. intros H. contradiction.
Qed.

Lemma holders_cons (socketId u : string) (s : gset string)
    (rest : UserSockets) :
  holders socketId ((u, s) :: rest)
  = ((if bool_decide (elem_of socketId s) then 1 else 0)
     + holders socketId rest)%nat.
Proof.
  unfold holders. cbn [List.filter snd].
  destruct (bool_decide (elem_of socketId s)); reflexivity.
Qed.

Lemma removeSocket_holders (socketId other : string) (m : UserSockets) :
  holders other (removeSocket socketId m)
  = if String.eqb other socketId then pred (holders other m)
    else holders other m.
Proof.
  induction m as [|[u s] rest IH]; cbn [removeSocket].
  - destruct (String.eqb other socketId); reflexivity.
  - destruct (decide (elem_of socketId s)) as [Hin|Hout].
    + cbv zeta.
      destruct (Nat.eqb_spec (size (difference s {[socketId]})) 0) as [E|E].
      * apply size_empty_iff, leibniz_equiv in E.
        rewrite holders_cons.
        destruct (String.eqb_spec other socketId) as [->|Hne].
        -- rewrite bool_decide_true by exact Hin. reflexivity.
        -- rewrite bool_decide_false; [reflexivity|]. set_solver.
      * rewrite !holders_cons.
        destruct (String.eqb_spec other socketId) as [->|Hne].
        -- rewrite bool_decide_false by set_solver.
           rewrite bool_decide_true by exact Hin. reflexivity.
        -- rewrite (bool_decide_ext
                      (elem_of other (difference s {[socketId]}))
                      (elem_of other s)) by set_solver.
           reflexivity.
    + rewrite !holders_cons, IH.
      destruct (String.eqb_spec other socketId) as [->|Hne]; [|reflexivity].
      rewrite bool_decide_false by exact Hout. reflexivity.
Qed.

Lemma addUserSocket_holders (userId socketId : string) (m : UserSockets) :
  holders socketId (addUserSocket userId socketId m)
  = ((if bool_decide (elem_of socketId (getUserSockets userId m))
      then 0 else 1) + holders socketId m)%nat.
Proof.
  unfold getUserSockets. induction m as [|[u s] rest IH].
  - rewrite addUserSocket_nil, holders_cons. cbn [Map_get].
    rewrite bool_decide_true by set_solver.
    rewrite bool_decide_false by set_solver. reflexivity.
  - rewrite addUserSocket_cons. cbn [Map_get].
    destruct (String.eqb u userId).
    + rewrite !holders_cons.
      rewrite (bool_decide_true (elem_of socketId (union s {[socketId]})))
        by set_solver.
      destruct (bool_decide (elem_of socketId s)); reflexivity.
    + rewrite !holders_cons, IH. lia.
Qed.

Lemma holders_elem (socketId : string) (m : UserSockets) :
  (0 < holders socketId m)%nat ->
  exists u s, elem_of (u, s) m /\ elem_of socketId s.
Proof.
  induction m as [|[u s] rest IH]; [cbn; lia|].
  rewrite holders_cons. destruct (bool_decide_reflect (elem_of socketId s)).
  - intros _. exists u, s. split; [left | assumption].
  - intros H. destruct (IH H) as (u' & s' & Hin & Hs).
    exists u', s'. split; [right; exact Hin | exact Hs].
Qed.

(** X24. A disconnect frees one user only. [removeSocket] takes the socket
    from the first user who has it and stops: the number of users with
    whom the socket is registered goes down by one, and no other socket
    is touched. A socket that has joined for two users therefore stays
    registered after it has disconnected, and keeps one of them
    online. *)
Theorem disconnect_frees_one_user_only (socketId : string) (m : UserSockets) :
  holders socketId (removeSocket socketId m) = pred (holders socketId m)
  /\ (forall other, other <> socketId ->
        holders other (removeSocket socketId m) = holders other m)
  /\ (forall u1 u2,
        tidy m -> holders socketId m = 0%nat ->
        u1 <> EmptyString -> u2 <> EmptyString -> u1 <> u2 ->
        let m' := fold_left handle
                    [Join socketId u1; Join socketId u2; Disconnect socketId]
                    m in
        exists u, isUserOnline u m' = true
                  /\ elem_of socketId (getUserSockets u m')).
Proof.
  split; [|split].
  - rewrite removeSocket_holders, String.eqb_refl. reflexivity.
  - intros other Hne. rewrite removeSocket_holders.
    destruct (String.eqb_spec other socketId); [contradiction | reflexivity].
  - intros u1 u2 Ht H0 Hu1 Hu2 Hne m'.
    assert (Ht' : tidy m').
    { apply fold_handle_tidy, Ht. }
    assert (Hh : holders socketId m' = 1%nat).
    { subst m'. cbn [fold_left handle].
      destruct u1 as [|c1 u1]; [contradiction|].
      destruct u2 as [|c2 u2]; [contradiction|]. cbn [truthy].
      rewrite removeSocket_holders, String.eqb_refl.
      rewrite !addUserSocket_holders.
      assert (Hnone : forall u x, holders socketId x = 0%nat ->
                 bool_decide (elem_of socketId (getUserSockets u x)) = false).
      { intros u x Hx. apply bool_decide_false. intros Hin.
        unfold getUserSockets in Hin.
        destruct (Map_get u x) as [s|] eqn:G; [|set_solver].
        apply Map_get_elem in G. clear -Hx G Hin.
        induction x as [|[u' s'] rest IH]; [inversion G|].
        rewrite holders_cons in Hx.
        apply elem_of_cons in G as [[= <- <-]|G].
        - rewrite bool_decide_true in Hx by exact Hin. lia.
        - apply IH; [|exact G].
          destruct (bool_decide (elem_of socketId s')); lia. }
      rewrite (Hnone _ m H0).
      assert (Hother : bool_decide
                (elem_of socketId
                   (getUserSockets (String c2 u2)
                      (addUserSocket (String c1 u1) socketId m))) = false).
      { apply bool_decide_false. unfold getUserSockets.
        clear -Hne H0 Hnone.
        induction m as [|[u' s'] rest IH].
        - rewrite addUserSocket_nil. cbn [Map_get].
          destruct (String.eqb_spec (String c1 u1) (String c2 u2));
            [contradiction | set_solver].
        - rewrite holders_cons in H0.
          assert (Hs' : ~ elem_of socketId s').
          { intros Hin. rewrite bool_decide_true in H0 by exact Hin. lia. }
          assert (Hrest : holders socketId rest = 0%nat)
            by (destruct (bool_decide (elem_of socketId s')); lia).
          rewrite addUserSocket_cons.
          destruct (String.eqb_spec u' (String c1 u1)) as [->|Hn1];
            cbn [Map_get].
          + destruct (String.eqb_spec (String c1 u1) (String c2 u2));
              [contradiction|].
            specialize (Hnone (String c2 u2) rest Hrest).
            apply bool_decide_eq_false in Hnone. exact Hnone.
          + destruct (String.eqb_spec u' (String c2 u2));
              [exact Hs' | apply IH, Hrest]. }
      rewrite Hother, H0. reflexivity. }
    destruct (holders_elem socketId m') as (u & s & Hin & Hs); [lia|].
    exists u. unfold isUserOnline, getUserSockets.
    rewrite (elem_Map_get u m' s (proj1 Ht') Hin).
    split; [|exact Hs].
    apply Nat.ltb_lt. destruct (size s) eqn:E; [|lia].
    apply size_empty_iff in E. set_solver.
Qed.

End SocketRooms.

(** ** Reading a shipment *)

Section ReadingShipments.
Import JS Shipment PaymentService ShipmentQueries.

Variable isDraft : string -> bool.

(** Two stored shipments that load as the same document are the same. *)
Lemma hydrate_inj (a b : Shipment.t) :
  Document.hydrate a = Document.hydrate b -> a = b.
Proof.
  intros E. pose proof (validated_hydrate a) as Ha.
  rewrite E, validated_hydrate in Ha. congruence.
Qed.

Lemma Ok_hydrate_inj (a b : Shipment.t) :
  @Ok Exception _ (Document.hydrate a) = Ok (Document.hydrate b) -> a = b.
Proof.
  intros E. apply hydrate_inj.
  exact (f_equal (fun r => match r with
                           | Ok d => d
                           | Err _ => Document.hydrate a
                           end) E).
Qed.

(** X25. [getShipment] changes nothing, and answers with the stored
    shipment, as [findOne] loads it, exactly when that is no draft and
    has no owner, or the request comes from its owner or from an
    administrator. Who gets the
    payment status of a shipment that is no draft also gets the
    shipment. The converse fails for administrators: an administrator
    who is not the owner reads the shipment but is refused its payment
    status. *)
Theorem who_reads_a_shipment (user : option Auth.User) (id : string)
    (w : World) :
  fst (getShipment isDraft user id w) = w
  /\ (forall s,
        snd (getShipment isDraft user id w) = Ok (Document.hydrate s)
        <-> isDraft id = false /\ shipments w !! id = Some s
            /\ (userId s = None
                \/ (exists u, user = Some u
                              /\ (userId s = Some (Auth.user_id u)
                                  \/ Auth.role u = "admin"))))
  /\ (forall d, snd (getShipment isDraft user id w) = Ok d ->
                 exists s, d = Document.hydrate s)
  /\ (forall u view,
        isDraft id = false ->
        PaymentQueries.getPaymentStatus (Auth.user_id u) id w = (w, Ok view) ->
        exists s, getShipment isDraft (Some u) id w
                  = (w, Ok (Document.hydrate s)))
  /\ (forall u s owner,
        isDraft id = false -> shipments w !! id = Some s ->
        userId s = Some owner -> owner <> Auth.user_id u ->
        Auth.role u = "admin" ->
        getShipment isDraft (Some u) id w = (w, Ok (Document.hydrate s))
        /\ PaymentQueries.getPaymentStatus (Auth.user_id u) id w
           = (w, Err (Thrown
                        (mkAppError "Not authorized to access this shipment"
                           403)))).
Proof.
  unfold getShipment, StatusUpdates.findOne, bind, throw, ret.
  split; [|split; [|split; [|split]]].
  - destruct (isDraft id); [reflexivity|].
    destruct (shipments w !! id) as [s|]; [|reflexivity].
    cbn [option_map]. destruct (refused _ user); reflexivity.
  - intros s. destruct (isDraft id).
    { cbn [snd]. split; [discriminate | intros [H _]; discriminate]. }
    destruct (shipments w !! id) as [x|]; cbn [option_map].
    2:{ cbn [snd]. split; [discriminate | intros (_ & H & _); discriminate]. }
    unfold refused.
    change (Document.userId (Document.hydrate x)) with (userId x).
    destruct (userId x) as [owner|] eqn:Ho.
    + destruct user as [u|].
      * destruct (String.eqb_spec owner (Auth.user_id u)) as [->|Hne];
          destruct (String.eqb_spec (Auth.role u) "admin") as [Ha|Hna];
          cbn [negb andb snd]; split;
          try (intros E; apply Ok_hydrate_inj in E; subst x;
               split; [reflexivity|]; split; [reflexivity|];
               right; exists u; split; [reflexivity|]; auto; fail);
          try (intros (_ & [= <-] & _); reflexivity).
        -- discriminate.
        -- intros (_ & [= <-] & [Hn | (u' & [= <-] & [Hu | Hr])]);
             congruence.
      * cbn [negb andb snd]. split; [discriminate|].
        intros (_ & [= <-] & [Hn | (u' & Hu & _)]); congruence.
    + cbn [snd]. split.
      * intros E. apply Ok_hydrate_inj in E. subst x.
        split; [reflexivity|]. split; [reflexivity|]. auto.
      * intros (_ & [= <-] & _). reflexivity.
  - intros d. destruct (isDraft id); [discriminate|].
    destruct (shipments w !! id) as [x|]; cbn [option_map]; [|discriminate].
    destruct (refused _ user); [discriminate|].
    intros [= <-]. exists x. reflexivity.
  - intros u view Hd. rewrite Hd.
    unfold PaymentQueries.getPaymentStatus, getPaymentStatus, bind,
      PaymentService.findById, throw, ret.
    destruct (shipments w !! id) as [s|]; cbn [option_map]; [|discriminate].
    unfold PaymentController.notOwner, refused.
    change (Document.userId (Document.hydrate s)) with (userId s).
    destruct (userId s) as [owner|]; [|intros _; eexists; reflexivity].
    destruct (String.eqb owner (Auth.user_id u)); cbn [negb andb];
      [intros _; eexists; reflexivity | discriminate].
  - intros u s owner Hd Hs Ho Hne Ha. rewrite Hd, Hs.
    unfold PaymentQueries.getPaymentStatus, bind, PaymentService.findById,
      throw, PaymentController.notOwner, refused.
    rewrite Hs. cbn [option_map].
    change (Document.userId (Document.hydrate s)) with (userId s).
    rewrite Ho, Ha.
    destruct (String.eqb_spec owner (Auth.user_id u)); [contradiction|].
    split; reflexivity.
Qed.

End ReadingShipments.
(** ** The further properties on concrete inputs *)

Section FurtherWitnesses.
Import JS JSString ShipmentService Shipment PaymentService.

Lemma createShipment_accepts_witness :
  keepsTheDay Examples.berlin2025
  /\ (3 <= 3)%nat
  /\ ShipmentController.createShipment Examples.berlin2025 defaultService 3
       Samples.mondayInMarch None Samples.localBody
     = Some (Ok Samples.localShipment)
  /\ exists r,
       ShipmentController.createShipment Examples.berlin2025 defaultService 3
         Samples.mondayInMarch None Samples.localBody = Some r
       /\ (forall n, r = Ok n ->
             ShipmentController.new_isDraft n = false
             /\ exists estimated,
                  ShipmentController.new_estimatedDate n = Some estimated
                  /\ Spec.calendarDay Examples.berlin2025
                       Samples.fridayInMarch + 2
                     <= Spec.calendarDay Examples.berlin2025 estimated
                     <= Spec.calendarDay Examples.berlin2025
                          Samples.fridayInMarch + 13).
Proof.
  split; [exact berlin2025_keepsTheDay|]. split; [lia|].
  split; [vm_compute; reflexivity|].
  destruct (createShipment_accepts Examples.berlin2025 defaultService 3
              Samples.mondayInMarch None Samples.localBody
              berlin2025_keepsTheDay)
    as (r & Hr & _ & Hok & _); [lia|].
  exists r. split; [exact Hr|].
  intros n Hn. destruct (Hok n Hn) as (Hd & _ & _ & He).
  split; [exact Hd|].
  cbn [ShipmentController.req_pickupDate Samples.localBody] in He.
  destruct He as (estimated & E & Hb & _). exists estimated.
  split; [exact E | exact Hb].
Defined.

Lemma created_cost_is_the_quote_witness :
  ShipmentController.createShipment Examples.berlin2025 defaultService 3
    Samples.mondayInMarch None Samples.localBody
  = Some (Ok Samples.localShipment)
  /\ ShipmentController.calculateCost defaultService Samples.localBody
     = Ok (ShipmentController.new_cost Samples.localShipment).
Proof.
  assert (H : ShipmentController.createShipment Examples.berlin2025
                defaultService 3 Samples.mondayInMarch None Samples.localBody
              = Some (Ok Samples.localShipment))
    by (vm_compute; reflexivity).
  split; [exact H|].
  exact (created_cost_is_the_quote Examples.berlin2025 defaultService 3
           Samples.mondayInMarch None Samples.localBody Samples.localShipment
           H).
Defined.

Lemma tracking_number_round_trip_witness :
  1000 <= TrackingNumber.fullYear Samples.february5 <= 9999
  /\ TrackingNumber.generateTrackingNumber Samples.february5 7 international
     = "INT-20250205-007"
  /\ TrackingNumber.getShipmentTypeFromTracking
       (TrackingNumber.generateTrackingNumber Samples.february5 7
          international)
     = Ok international.
Proof.
  assert (Hy : 1000 <= TrackingNumber.fullYear Samples.february5 <= 9999)
    by (cbn; lia).
  split; [exact Hy|]. split; [reflexivity|].
  destruct (tracking_number_round_trip Samples.february5 7 international Hy)
    as (_ & Htype & _); [cbn; lia | cbn; lia | lia |].
  exact Htype.
Defined.

Lemma generated_number_valid_iff_four_digit_year_witness :
  (TrackingNumber.month Samples.february5 <= 11)%nat
  /\ (TrackingNumber.isValidTrackingNumber
        (TrackingNumber.generateTrackingNumber Samples.february5 7 local)
      = true
      <-> 1000 <= TrackingNumber.fullYear Samples.february5 <= 9999).
Proof.
  assert (Hm : (TrackingNumber.month Samples.february5 <= 11)%nat)
    by (cbn; lia).
  split; [exact Hm|].
  apply (generated_number_valid_iff_four_digit_year Samples.february5 7 local
           Hm); [cbn; lia | lia].
Defined.

Lemma valid_numbers_are_read_in_full_witness :
  TrackingNumber.isValidTrackingNumber "LOC-20251399-042" = true
  /\ exists type year month day sequence formatted,
       TrackingNumber.getShipmentTypeFromTracking "LOC-20251399-042"
       = Ok type
       /\ TrackingNumber.getDateFromTracking "LOC-20251399-042"
          = Ok {| TrackingNumber.arg_year := Some year;
                  TrackingNumber.arg_month := Some month;
                  TrackingNumber.arg_day := Some day |}
       /\ TrackingNumber.formatTrackingNumber "LOC-20251399-042"
          = Ok formatted
       /\ 0 <= sequence <= 999.
Proof.
  assert (H : TrackingNumber.isValidTrackingNumber "LOC-20251399-042" = true)
    by reflexivity.
  split; [exact H|].
  destruct (valid_numbers_are_read_in_full "LOC-20251399-042" H)
    as (type & year & month & day & sequence & formatted
        & Ht & Hd & Hf & _ & _ & _ & _ & _ & Hs & _).
  exists type, year, month, day, sequence, formatted.
  split; [exact Ht|]. split; [exact Hd|]. split; [exact Hf | exact Hs].
Defined.

(** An anonymous request is handed to [next] with 401; the message of a
    validator, for a request of the owner, is handed to nobody. *)
Example anonymous_request_is_rejected :
  let w := Examples.worldWith Examples.unpaid in
  PaymentRoutes.run Examples.reliable Samples.noToken Samples.noUser
    Samples.anonymous [] (PaymentRoutes.StatusCall "s1") w
  = (w, Err (Thrown Auth.notAuthorized)).
Proof. reflexivity. Qed.

Lemma payment_route_rejections_witness :
  let w := Examples.worldWith Examples.unpaid in
  let run :=
    PaymentRoutes.run Examples.reliable Samples.oneToken Samples.oneUser
      Samples.withToken ["Account name is required"]
      (PaymentRoutes.InitializeCall Examples.bankBody) w in
  snd run = Err (Unhandled (mkAppError "Account name is required" 400))
  /\ fst run = w
  /\ exists user,
       Auth.protect Samples.oneToken Samples.oneUser Samples.withToken
       = Ok user.
Proof.
  cbv zeta.
  assert (H : snd (PaymentRoutes.run Examples.reliable Samples.oneToken
                     Samples.oneUser Samples.withToken
                     ["Account name is required"]
                     (PaymentRoutes.InitializeCall Examples.bankBody)
                     (Examples.worldWith Examples.unpaid))
              = Err (Unhandled (mkAppError "Account name is required" 400)))
    by (vm_compute; reflexivity).
  split; [exact H|].
  destruct (payment_route_rejections Examples.reliable Samples.oneToken
              Samples.oneUser Samples.withToken ["Account name is required"]
              (PaymentRoutes.InitializeCall Examples.bankBody)
              (Examples.worldWith Examples.unpaid)) as (_ & Hu & _).
  destruct (Hu _ H) as (Hw & _ & _ & Hp & _).
  split; [exact Hw | exact Hp].
Defined.

End FurtherWitnesses.
